(** * Orchestration engine of the game-master function app

    A shallow embedding of [function_app.py]: conversation-turn
    normalisation, identity resolution, the response codec, the dispatch
    loop of [Assistant.get_response], tool discovery
    ([load_agents_from_folder], [Assistant.reload_agents]) and the HTTP
    trigger [main]; and of the state-keeping functions of the tools in
    [agents]: combat statistics, the clock and the weather of the world,
    the memories of a character and the main quest line.

    Python values are the JSON-shaped values the HTTP boundary hands to the
    engine.  A character is a code point below 256, a string a [string] of
    the Standard Library.  External collaborators (the chat endpoint, the
    tool agents, the file share, the [json] module) are oracles: functions
    of what has happened so far. *)

From Stdlib Require Import ZArith Lia Bool List Ascii String.
From Stdlib Require Import PrimFloat DecimalString.
From Stdlib Require DecimalFacts DecimalPos DecimalZ.
From stdpp Require Import base strings list gmap.

#[local] Set Warnings "-register-all".

Local Open Scope string_scope.
Local Open Scope Z_scope.

(** ** Python values *)

Inductive pyval : Type :=
  | PNone
  | PBool (b : bool)
  | PInt (z : Z)
  | PFloat (f : float)
  | PStr (s : string)
  | PList (l : list pyval)
  | PDict (d : list (string * pyval)).

(** Induction on a value, with the hypothesis at every element of a list
    and at every value of a dictionary. *)
Section PyvalInd.
Context (P : pyval -> Prop).
Context (HNone : P PNone) (HBool : forall b, P (PBool b))
  (HInt : forall z, P (PInt z)) (HFloat : forall f, P (PFloat f))
  (HStr : forall s, P (PStr s))
  (HList : forall l, Forall P l -> P (PList l))
  (HDict : forall d, Forall (fun kv => P (snd kv)) d -> P (PDict d)).

Fixpoint pyval_ind' (v : pyval) : P v :=
  match v with
  | PNone => HNone
  | PBool b => HBool b
  | PInt z => HInt z
  | PFloat f => HFloat f
  | PStr s => HStr s
  | PList l =>
      HList l
        ((fix go (l : list pyval) : Forall P l :=
            match l with
            | [] => @List.Forall_nil _ _
            | x :: l' => @List.Forall_cons _ _ x l' (pyval_ind' x) (go l')
            end) l)
  | PDict d =>
      HDict d
        ((fix go (d : list (string * pyval))
            : Forall (fun kv => P (snd kv)) d :=
            match d with
            | [] => @List.Forall_nil _ _
            | kv :: d' =>
                @List.Forall_cons _ _ kv d'
                  (match kv as kv0 return P (snd kv0) with
                   | (_, x) => pyval_ind' x
                   end) (go d')
            end) d)
  end.
End PyvalInd.

(** [type(v).__name__], as it appears in the interpreter's error messages. *)
Definition type_name (v : pyval) : string :=
  match v with
  | PNone => "NoneType"
  | PBool _ => "bool"
  | PInt _ => "int"
  | PFloat _ => "float"
  | PStr _ => "str"
  | PList _ => "list"
  | PDict _ => "dict"
  end.

(** [bool(v)]: the truth value tested by [if v], [not v] and [v or w]. *)
Definition truthy (v : pyval) : bool :=
  match v with
  | PNone => false
  | PBool b => b
  | PInt z => negb (z =? 0)
  | PFloat f => negb (PrimFloat.eqb f PrimFloat.zero)
  | PStr s => negb (String.eqb s "")
  | PList l => match l with [] => false | _ => true end
  | PDict d => match d with [] => false | _ => true end
  end.

Definition is_none (v : pyval) : bool :=
  match v with PNone => true | _ => false end.

(** [v == s] for a string literal [s]. *)
Definition eq_str (v : pyval) (s : string) : bool :=
  match v with PStr t => String.eqb t s | _ => false end.

(** [v == True]: booleans are integers in Python, so [1] and [1.0] are
    equal to [True]. *)
Definition eq_True (v : pyval) : bool :=
  match v with
  | PBool b => b
  | PInt z => z =? 1
  | PFloat f => PrimFloat.eqb f PrimFloat.one
  | _ => false
  end.

(** ** Dictionaries

    A Python [dict] keeps its keys in insertion order; assigning to a key
    that is present replaces the value in place, assigning to a new key
    appends it. *)

Section Dict.
Context {V : Type}.

Fixpoint dict_get (k : string) (d : list (string * V)) : option V :=
  match d with
  | [] => None
  | (k', v) :: d' => if String.eqb k' k then Some v else dict_get k d'
  end.

Definition dict_has (k : string) (d : list (string * V)) : bool :=
  match dict_get k d with Some _ => true | None => false end.

Fixpoint dict_set (k : string) (v : V) (d : list (string * V))
  : list (string * V) :=
  match d with
  | [] => [(k, v)]
  | (k', v') :: d' =>
      if String.eqb k' k then (k', v) :: d' else (k', v') :: dict_set k v d'
  end.

Definition dict_values (d : list (string * V)) : list V := map snd d.

Definition dict_keys (d : list (string * V)) : list string := map fst d.

End Dict.

(** [d.get(k)] on a dictionary of values: a missing key reads as [None]. *)
Definition py_get (k : string) (d : list (string * pyval)) : pyval :=
  match dict_get k d with Some v => v | None => PNone end.

(** ** Strings *)

(** [str.isspace] on a code point below 256; [str.strip] and the regular
    expression class [\s] use the same set. *)
Definition is_space (c : ascii) : bool :=
  let n := N_of_ascii c in
  ((9 <=? n) && (n <=? 13) || (28 <=? n) && (n <=? 32)
   || (n =? 133) || (n =? 160))%N.

Fixpoint lstrip (s : string) : string :=
  match s with
  | String c s' => if is_space c then lstrip s' else s
  | EmptyString => EmptyString
  end.

Fixpoint rstrip (s : string) : string :=
  match s with
  | String c s' =>
      match rstrip s' with
      | EmptyString => if is_space c then EmptyString else String c EmptyString
      | r => String c r
      end
  | EmptyString => EmptyString
  end.

(** [s.strip()] *)
Definition strip (s : string) : string := rstrip (lstrip s).

Fixpoint string_drop (n : nat) (s : string) : string :=
  match n, s with
  | O, _ => s
  | S n', String _ s' => string_drop n' s'
  | S _, EmptyString => EmptyString
  end.

Fixpoint string_take (n : nat) (s : string) : string :=
  match n, s with
  | O, _ => EmptyString
  | S n', String c s' => String c (string_take n' s')
  | S _, EmptyString => EmptyString
  end.

(** [s.endswith(suffix)] *)
Definition endswith (s suffix : string) : bool :=
  String.eqb
    (string_drop (String.length s - String.length suffix) s) suffix
  && (String.length suffix <=? String.length s)%nat.

(** The first occurrence of [sep] in [s]: the text before it and the text
    after it. *)
Fixpoint partition (sep s : string) : option (string * string) :=
  if String.prefix sep s
  then Some (EmptyString, string_drop (String.length sep) s)
  else match s with
       | EmptyString => None
       | String c s' =>
           match partition sep s' with
           | Some (a, b) => Some (String c a, b)
           | None => None
           end
       end.

(** [s.split(sep)] for a non-empty [sep]: occurrences are found from left
    to right and do not overlap.  The fuel is the length of [s]: every
    piece cut off is at least one character shorter. *)
Fixpoint split_fuel (fuel : nat) (sep s : string) : list string :=
  match partition sep s with
  | None => [s]
  | Some (a, rest) =>
      match fuel with
      | O => [a; rest]
      | S fuel' => a :: split_fuel fuel' sep rest
      end
  end.

Definition split (sep s : string) : list string :=
  split_fuel (String.length s) sep s.

(** ["\n".join(l)] *)
Fixpoint join (sep : string) (l : list string) : string :=
  match l with
  | [] => EmptyString
  | [x] => x
  | x :: l' => x ++ sep ++ join sep l'
  end.

(** [s\[-n:\]]: the last [n] elements. *)
Definition last_n {A : Type} (n : nat) (l : list A) : list A :=
  drop (length l - n) l.

(** Decimal notation of an integer, as [str] prints it. *)
Definition str_of_Z (z : Z) : string := NilZero.string_of_int (Z.to_int z).

(** The double quote character, as a one-character string. *)
Definition dq : string := String (ascii_of_nat 34) EmptyString.

(** ** Exceptions and results *)

(** An exception is caught by [except Exception] when it derives from
    [Exception]; [SystemExit], [KeyboardInterrupt] and the like derive from
    [BaseException] only and pass through.  The message is [str(e)]. *)
Inductive exn : Type :=
  | Exception (msg : string)
  | BaseException (msg : string).

(** What a call into a collaborator does: it returns or it raises. *)
Inductive outcome (A : Type) : Type :=
  | Returns (a : A)
  | Raises (e : exn).
Arguments Returns {A} a.
Arguments Raises {A} e.

(** What a modelled computation does: it returns, it raises, or the fuel
    given to its loop ran out before it did either. *)
Inductive res (A : Type) : Type :=
  | Ret (a : A)
  | Raise (e : exn)
  | OutOfFuel.
Arguments Ret {A} a.
Arguments Raise {A} e.
Arguments OutOfFuel {A}.

(** ** Values the [json] module round-trips

    A value is plain when it holds no float and no dictionary in it has a
    key twice. *)

Fixpoint distinct (l : list string) : bool :=
  match l with
  | [] => true
  | x :: l' => negb (existsb (String.eqb x) l') && distinct l'
  end.

Fixpoint plain (v : pyval) : bool :=
  match v with
  | PFloat _ => false
  | PList l => forallb plain l
  | PDict d =>
      distinct (dict_keys d)
      && forallb (fun kv => match kv with (_, x) => plain x end) d
  | _ => true
  end.

(** ** The interpreter and library functions the code calls

    [repr_compound] is [str] on floats, lists and dictionaries;
    [json_loads] is [json.loads], [None] when it raises; [json_dumps] is
    [json.dumps]; [safe_json_loads] is the lenient parser of
    [utils.azure_file_storage], applied to the stringified arguments of a
    function call ([None] when there are none). *)
Class PyRuntime : Type := {
  repr_compound : pyval -> string;
  json_dumps : pyval -> string;
  json_loads : string -> option pyval;
  safe_json_loads : option string -> outcome pyval;
}.

(** [str(v)] *)
Definition py_str `{PyRuntime} (v : pyval) : string :=
  match v with
  | PNone => "None"
  | PBool true => "True"
  | PBool false => "False"
  | PInt z => str_of_Z z
  | PStr s => s
  | PFloat _ | PList _ | PDict _ => repr_compound v
  end.

(** ** State monad with exceptions *)

Definition M (S A : Type) : Type := S -> res A * S.

Definition ret {S A : Type} (a : A) : M S A := fun st => (Ret a, st).

Definition raise {S A : Type} (e : exn) : M S A := fun st => (Raise e, st).

Definition bind {S A B : Type} (m : M S A) (k : A -> M S B) : M S B :=
  fun st =>
    match m st with
    | (Ret a, st') => k a st'
    | (Raise e, st') => (Raise e, st')
    | (OutOfFuel, st') => (OutOfFuel, st')
    end.

Definition get_state {S : Type} : M S S := fun st => (Ret st, st).

Definition modify {S : Type} (f : S -> S) : M S unit :=
  fun st => (Ret tt, f st).

(** [try: m  except Exception as e: handler(str(e))] *)
Definition try_except {S A : Type} (m : M S A) (handler : string -> M S A)
  : M S A :=
  fun st =>
    match m st with
    | (Raise (Exception msg), st') => handler msg st'
    | r => r
    end.

Definition lift_outcome {S A : Type} (o : outcome A) : M S A :=
  match o with
  | Returns a => ret a
  | Raises e => raise e
  end.

Declare Scope monad_scope.
Delimit Scope monad_scope with monad.
Notation "'let*' x ':=' m 'in' k" := (bind m (fun x => k))
  (at level 10, x name, m at level 100, k at level 200) : monad_scope.
Notation "m ';;;' k" := (bind m (fun _ => k))
  (at level 100, k at level 200, right associativity) : monad_scope.
Local Open Scope monad_scope.

(** ** Conversation turns *)

Definition DEFAULT_USER_GUID : string := "c0p110t0-aaaa-bbbb-cccc-123456789abc".

(** [ensure_string_content(message)] *)
Definition ensure_string_content `{PyRuntime} (message : pyval) : pyval :=
  match message with
  | PNone => PDict [("role", PStr "user"); ("content", PStr "")]
  | PDict d =>
      let message := if dict_has "role" d then d
                     else dict_set "role" (PStr "user") d in
      match dict_get "content" message with
      | Some content =>
          PDict (dict_set "content"
                   (PStr (if is_none content then "" else py_str content))
                   message)
      | None => PDict (dict_set "content" (PStr "") message)
      end
  | _ => PDict [("role", PStr "user"); ("content", PStr (py_str message))]
  end.

(** [ensure_string_function_args(function_call)], given the [arguments]
    attribute of a function call ([PNone] when it is absent or [None]). *)
Definition ensure_string_function_args `{PyRuntime} (arguments : pyval)
  : option string :=
  match arguments with
  | PNone => None
  | PDict _ | PList _ => Some (json_dumps arguments)
  | _ => Some (py_str arguments)
  end.

(** ** Identity signals *)

Definition is_hex (c : ascii) : bool :=
  let n := N_of_ascii c in
  ((48 <=? n) && (n <=? 57) || (97 <=? n) && (n <=? 102)
   || (65 <=? n) && (n <=? 70))%N.

(** [\[0-9a-f\]{n}] under [re.IGNORECASE] at the head of [s]: the rest of
    [s] when it matches. *)
Fixpoint hexes (n : nat) (s : string) : option string :=
  match n with
  | O => Some s
  | S n' =>
      match s with
      | String c s' => if is_hex c then hexes n' s' else None
      | EmptyString => None
      end
  end.

Definition dash (s : string) : option string :=
  match s with
  | String "-"%char s' => Some s'
  | _ => None
  end.

(** Groups of hexadecimal digits of the given lengths, separated by
    dashes, at the head of [s]. *)
Fixpoint hex_groups (groups : list nat) (s : string) : option string :=
  match groups with
  | [] => Some s
  | [n] => hexes n s
  | n :: groups' =>
      match hexes n s with
      | Some r =>
          match dash r with
          | Some r' => hex_groups groups' r'
          | None => None
          end
      | None => None
      end
  end.

(** The number of characters [hex_groups] consumes. *)
Fixpoint groups_length (groups : list nat) : nat :=
  match groups with
  | [] => 0
  | [n] => n
  | n :: groups' => n + 1 + groups_length groups'
  end.

(** No character of [s] is whitespace. *)
Fixpoint no_space (s : string) : bool :=
  match s with
  | String c s' => negb (is_space c) && no_space s'
  | EmptyString => true
  end.

(** [$]: the end of the string, or the newline that ends it. *)
Definition at_end (s : string) : bool :=
  match s with
  | EmptyString => true
  | String "010"%char EmptyString => true
  | _ => false
  end.

(** [guid_pattern.match(s)] for
    [^\[0-9a-f\]{8}-\[0-9a-f\]{4}-\[0-9a-f\]{4}-\[0-9a-f\]{4}-\[0-9a-f\]{12}$]
    with [re.IGNORECASE]: [match.group(0)] when it matches. *)
Definition guid_pattern (s : string) : option string :=
  match hex_groups [8; 4; 4; 4; 12]%nat s with
  | Some rest => if at_end rest then Some (string_take 36 s) else None
  | None => None
  end.

Definition is_label_sep (c : ascii) : bool :=
  Ascii.eqb c ":" || Ascii.eqb c "=" || is_space c.

Definition is_guid_char (c : ascii) : bool :=
  is_hex c || Ascii.eqb c "-".

Fixpoint skip_label_seps (s : string) : string :=
  match s with
  | String c s' => if is_label_sep c then skip_label_seps s' else s
  | EmptyString => EmptyString
  end.

Fixpoint guid_chars (n : nat) (s : string) : option string :=
  match n with
  | O => Some s
  | S n' =>
      match s with
      | String c s' => if is_guid_char c then guid_chars n' s' else None
      | EmptyString => None
      end
  end.

(** A letter of the pattern against a character, ignoring case. *)
Definition eq_nocase (lower upper c : ascii) : bool :=
  Ascii.eqb c lower || Ascii.eqb c upper.

(** [labeled_guid_pattern.match(s)] for [^guid\[:=\s\]+(\[0-9a-f-\]{36})$]
    with [re.IGNORECASE]: [match.group(1)] when it matches.  The separators
    and the characters of the group are disjoint, so the greedy run of
    separators is the only way to match. *)
Definition labeled_guid_pattern (s : string) : option string :=
  match s with
  | String g (String u (String i (String d (String c r)))) =>
      if eq_nocase "g" "G" g && eq_nocase "u" "U" u
         && eq_nocase "i" "I" i && eq_nocase "d" "D" d
         && is_label_sep c
      then
        let body := skip_label_seps r in
        match guid_chars 36 body with
        | Some rest => if at_end rest then Some (string_take 36 body) else None
        | None => None
        end
      else None
  | _ => None
  end.

(** [Assistant.extract_user_guid(text)] *)
Definition extract_user_guid `{PyRuntime} (text : pyval) : option string :=
  if is_none text then None
  else
    let text_str := strip (py_str text) in
    match guid_pattern text_str with
    | Some g => Some g
    | None => labeled_guid_pattern text_str
    end.

(** [Assistant._check_first_message_for_guid(conversation_history)].  The
    argument is whatever the caller passed: [len] and indexing raise on
    values that are not sequences, [.get] on entries that are not
    dictionaries. *)
Definition _check_first_message_for_guid `{PyRuntime}
    (conversation_history : pyval) : outcome (option string) :=
  let first (first_message : pyval) : outcome (option string) :=
    match first_message with
    | PDict m =>
        if eq_str (py_get "role" m) "user" then
          let content := py_get "content" m in
          if is_none content then Returns None
          else
            let content := strip (py_str content) in
            match guid_pattern content with
            | Some _ => Returns (Some content)
            | None => Returns None
            end
        else Returns None
    | _ =>
        Raises (Exception ("'" ++ type_name first_message
                           ++ "' object has no attribute 'get'"))
    end in
  if negb (truthy conversation_history) then Returns None
  else
    match conversation_history with
    | PList (first_message :: _) => first first_message
    | PStr (String c _) => first (PStr (String c EmptyString))
    | PDict _ => Raises (Exception "0")
    | _ =>
        Raises (Exception ("object of type '" ++ type_name conversation_history
                           ++ "' has no len()"))
    end.

(** ** Response codec *)

Definition GAME_DATA : string := "|||GAME_DATA|||".

(** [Assistant.parse_response_with_game_data(content)]: the narrative and
    the structured game data. *)
Definition parse_response_with_game_data `{PyRuntime} (content : string)
  : string * pyval :=
  if String.eqb content "" then ("", PDict [])
  else
    match split GAME_DATA content with
    | part0 :: part1 :: _ =>
        let narrative_response := strip part0 in
        let game_data := match json_loads (strip part1) with
                         | Some v => v
                         | None => PDict []
                         end in
        (narrative_response, game_data)
    | _ => (strip content, PDict [])
    end.

(** The encoding the codec is read against: the narrative, the delimiter,
    the serialised structured object. *)
Definition encode_response `{PyRuntime} (narrative : string)
    (structured : pyval) : string :=
  narrative ++ GAME_DATA ++ json_dumps structured.

(** ** Collaborators of a session *)

(** What a session does to the outside world, in order. *)
Inductive event : Type :=
  | EvApiCall (messages functions : list pyval)
  | EvSleep (seconds : Z)
  | EvPerform (agent_name : string) (kwargs : list (string * pyval))
  | EvSetMemoryContext (guid : pyval).

(** A tool agent: its [name] and [metadata] attributes when it has them,
    and [perform], called with keyword arguments, which may answer
    differently every time. *)
Record agent : Type := {
  agent_name : option string;
  agent_metadata : option pyval;
  agent_perform : list event -> list (string * pyval) -> outcome pyval;
}.

Record function_call : Type := {
  fc_name : string;
  fc_arguments : pyval;
}.

(** The [message] of a choice of a chat completion. *)
Record assistant_message : Type := {
  msg_content : option string;
  msg_function_call : option function_call;
}.

(** The fields of an [Assistant] that a turn only reads, and the services
    it calls.  A chat completion is the list of its [choices]. *)
Record session : Type := {
  known_agents : list (string * agent);
  assistant_name : string;
  chat_completions_create :
    list event -> list pyval -> list pyval -> outcome (list assistant_message);
  set_memory_context : list event -> pyval -> outcome unit;
}.

(** The fields of an [Assistant] that a turn writes, the local variables
    of [get_response] that outlive an exception, and the trace. *)
Record state : Type := {
  user_guid : pyval;
  shared_memory : string;
  user_memory : string;
  messages : list pyval;
  agent_logs : list string;
  retry_count : Z;
  trace : list event;
}.

Definition set_user_guid (g : pyval) (st : state) : state :=
  {| user_guid := g; shared_memory := shared_memory st;
     user_memory := user_memory st; messages := messages st;
     agent_logs := agent_logs st; retry_count := retry_count st;
     trace := trace st |}.

Definition set_shared_memory (s : string) (st : state) : state :=
  {| user_guid := user_guid st; shared_memory := s;
     user_memory := user_memory st; messages := messages st;
     agent_logs := agent_logs st; retry_count := retry_count st;
     trace := trace st |}.

Definition set_user_memory (s : string) (st : state) : state :=
  {| user_guid := user_guid st; shared_memory := shared_memory st;
     user_memory := s; messages := messages st;
     agent_logs := agent_logs st; retry_count := retry_count st;
     trace := trace st |}.

Definition set_messages (m : list pyval) (st : state) : state :=
  {| user_guid := user_guid st; shared_memory := shared_memory st;
     user_memory := user_memory st; messages := m;
     agent_logs := agent_logs st; retry_count := retry_count st;
     trace := trace st |}.

Definition set_agent_logs (l : list string) (st : state) : state :=
  {| user_guid := user_guid st; shared_memory := shared_memory st;
     user_memory := user_memory st; messages := messages st;
     agent_logs := l; retry_count := retry_count st;
     trace := trace st |}.

Definition set_retry_count (n : Z) (st : state) : state :=
  {| user_guid := user_guid st; shared_memory := shared_memory st;
     user_memory := user_memory st; messages := messages st;
     agent_logs := agent_logs st; retry_count := n;
     trace := trace st |}.

Definition emit (ev : event) (st : state) : state :=
  {| user_guid := user_guid st; shared_memory := shared_memory st;
     user_memory := user_memory st; messages := messages st;
     agent_logs := agent_logs st; retry_count := retry_count st;
     trace := trace st ++ [ev] |}.

(** The number of calls to the chat endpoint in a trace. *)
Definition api_calls (tr : list event) : nat :=
  length (List.filter (fun ev => match ev with
                                 | EvApiCall _ _ => true
                                 | _ => false
                                 end) tr).

(** A call into a collaborator: the event is recorded, then the
    collaborator answers from what happened before the call. *)
Definition call {A : Type} (ev : event) (answer : list event -> outcome A)
  : M state A :=
  fun st => lift_outcome (answer (trace st)) (emit ev st).

(** [time.sleep(seconds)] *)
Definition sleep (seconds : Z) : M state unit :=
  if seconds <? 0
  then raise (Exception "sleep length must be non-negative")
  else modify (emit (EvSleep seconds)).
(** The text of the system prompt up to the assistant name. *)
Definition prompt_identity : string :=
  "
<identity>
You are ".

(** From the assistant name to the shared memory snapshot. *)
Definition prompt_shared_memory : string :=
  ", an AI Game Master for Runecraft 3D, an immersive open-world RPG experience. You orchestrate dynamic storytelling, manage NPCs, generate quests, and create emergent gameplay through intelligent agent systems.
</identity>

<game_master_role>
You are responsible for:
- Creating dynamic, branching storylines based on player actions
- Managing NPC behaviors and dialogues through specialized agents
- Generating procedural quests and world events
- Balancing game difficulty and progression
- Creating immersive narrative experiences
- Responding to player choices with meaningful consequences
- Orchestrating multiple AI agents for different game systems
</game_master_role>

<shared_memory_output>
World State and Lore:
".

(** From the shared snapshot to the per-user snapshot. *)
Definition prompt_specific_memory : string :=
  "
</shared_memory_output>

<specific_memory_output>
Player Journey and Choices:
".

(** The rest of the system prompt: orchestration, guidelines, response format. *)
Definition prompt_instructions : string :=
  "
</specific_memory_output>

<context_instructions>
- Use shared memory for world lore, faction states, and global events
- Use specific memory for player choices, relationships, and personal quest progress
- Create emergent narratives by combining both contexts
- Ensure continuity across sessions while allowing for dynamic world evolution
</context_instructions>

<agent_orchestration>
You have access to specialized agents that control different aspects of the game:
- GameWorldAgent: Manages world state, weather, time, and environmental events
- NPCDialogueAgent: Generates dynamic NPC conversations and reactions
- QuestGeneratorAgent: Creates procedural quests based on player actions and world state
- CombatNarratorAgent: Provides narrative flavor to combat encounters
- LootMasterAgent: Generates contextual and balanced loot
- StoryProgressionAgent: Manages main story arcs and critical plot points
- RandomEventAgent: Creates unexpected encounters and world events

Use these agents to create a living, breathing world that responds to player actions.
</agent_orchestration>

<narrative_guidelines>
- Create stories that adapt to player choices, not predetermined paths
- Generate NPCs with persistent personalities and memories
- Design quests that emerge from world state and player history
- Balance challenge with player skill and progression
- Create memorable moments through unexpected events
- Maintain narrative coherence while allowing player freedom
</narrative_guidelines>

<response_format>
Structure responses with game data and narrative:

1. NARRATIVE PART: Rich storytelling and descriptions
2. GAME_DATA delimiter |||GAME_DATA|||
3. JSON game state updates for the client

Example:
The ancient dragon's eyes narrow as you approach...

|||GAME_DATA|||
{" ++ dq ++
  "event" ++ dq ++
  ": " ++ dq ++
  "boss_encounter" ++ dq ++
  ", " ++ dq ++
  "boss_id" ++ dq ++
  ": " ++ dq ++
  "ancient_dragon" ++ dq ++
  ", " ++ dq ++
  "dialogue" ++ dq ++
  ": " ++ dq ++
  "..." ++ dq ++
  "}
</response_format>
".

(** ** The assistant *)

(** The line feed, as a one-character string. *)
Definition nl : string := String (ascii_of_nat 10) EmptyString.

(** The truth value of a string or [None]. *)
Definition opt_truthy (o : option string) : bool :=
  match o with
  | Some s => negb (String.eqb s "")
  | None => false
  end.

(** The result of a turn: narrative, serialised game data, agent logs. *)
Definition reply : Type := (string * string * string)%type.

(** The tools that are handed the active identity. *)
Definition identity_sensitive : list string :=
  ["ManageMemory"; "ContextMemory"; "GameWorldAgent"; "NPCDialogueAgent";
   "QuestGeneratorAgent"; "CombatNarratorAgent"; "LootMasterAgent";
   "StoryProgressionAgent"; "RandomEventAgent"].

Definition NO_SHARED_MEMORY : string := "No shared context memory available.".
Definition NO_USER_MEMORY : string := "No specific context memory available.".
Definition MEMORY_FAILED : string := "Context memory initialization failed.".

Section Assistant.
Context `{PyRuntime} (self : session).

(** [Assistant.get_agent_metadata()] *)
Definition get_agent_metadata : list pyval :=
  omap agent_metadata (dict_values (known_agents self)).

(** [Assistant._initialize_context_memory(user_guid)] *)
Definition _initialize_context_memory (user_guid : pyval) : M state unit :=
  try_except
    match dict_get "ContextMemory" (known_agents self) with
    | None =>
        modify (set_shared_memory NO_SHARED_MEMORY) ;;;
        modify (set_user_memory NO_USER_MEMORY)
    | Some context_memory_agent =>
        try_except
          (call (EvSetMemoryContext PNone)
             (fun tr => set_memory_context self tr PNone) ;;;
           let kwargs := [("full_recall", PBool true)] in
           let* shared_result :=
             call (EvPerform "ContextMemory" kwargs)
               (fun tr => agent_perform context_memory_agent tr kwargs) in
           modify (set_shared_memory
                     (if truthy shared_result
                      then string_take 5000 (py_str shared_result)
                      else NO_SHARED_MEMORY)))
          (fun _ => modify (set_shared_memory MEMORY_FAILED)) ;;;
        let user_guid := if truthy user_guid then user_guid
                         else PStr DEFAULT_USER_GUID in
        try_except
          (call (EvSetMemoryContext user_guid)
             (fun tr => set_memory_context self tr user_guid) ;;;
           let kwargs := [("user_guid", user_guid);
                          ("full_recall", PBool true)] in
           let* user_result :=
             call (EvPerform "ContextMemory" kwargs)
               (fun tr => agent_perform context_memory_agent tr kwargs) in
           modify (set_user_memory
                     (if truthy user_result
                      then string_take 5000 (py_str user_result)
                      else NO_USER_MEMORY)))
          (fun _ => modify (set_user_memory MEMORY_FAILED))
    end
    (fun _ =>
       modify (set_shared_memory MEMORY_FAILED) ;;;
       modify (set_user_memory MEMORY_FAILED)).

(** The system turn of [prepare_messages]. *)
Definition system_message (st : state) : pyval :=
  PDict [("role", PStr "system");
         ("content",
          PStr (prompt_identity ++ assistant_name self
                ++ prompt_shared_memory ++ shared_memory st
                ++ prompt_specific_memory ++ user_memory st
                ++ prompt_instructions))].

(** [Assistant.prepare_messages(conversation_history)] *)
Definition prepare_messages (conversation_history : pyval)
  : M state (list pyval) :=
  let conversation_history :=
    match conversation_history with PList l => l | _ => [] end in
  let* st := get_state in
  let* guid_only_first_message :=
    lift_outcome
      (_check_first_message_for_guid (PList conversation_history)) in
  let start_idx :=
    if opt_truthy guid_only_first_message then 1%nat else 0%nat in
  ret (ensure_string_content (system_message st)
       :: map ensure_string_content (drop start_idx conversation_history)).

(** The call to the chat endpoint in state [st]: the messages of the turn
    and the metadata of the registered tools. *)
Definition api_call (st : state) : event :=
  EvApiCall (messages st) get_agent_metadata.

(** [Assistant.get_openai_api_call(messages)], on the messages of the
    turn. *)
Definition get_openai_api_call : M state (list assistant_message) :=
  let* st := get_state in
  call (api_call st)
    (fun tr =>
       chat_completions_create self tr (messages st) get_agent_metadata).

(** [response.choices\[0\].message] *)
Definition first_choice (response : list assistant_message)
  : M state assistant_message :=
  match response with
  | m :: _ => ret m
  | [] => raise (Exception "list index out of range")
  end.

(** Decoding the model's answer into the result of the turn. *)
Definition finalize (content : string) : M state reply :=
  let '(narrative_response, game_data) :=
    parse_response_with_game_data content in
  let* st := get_state in
  ret (narrative_response, json_dumps game_data, join nl (agent_logs st)).

(** The parameters handed to a tool: [None] values become empty
    strings. *)
Definition sanitize (agent_parameters : list (string * pyval))
  : list (string * pyval) :=
  fold_left
    (fun sanitized_parameters kv =>
       dict_set (fst kv) (if is_none (snd kv) then PStr "" else snd kv)
         sanitized_parameters)
    agent_parameters [].

(** The tool invocation of [get_response]: the result string of the
    tool, or the reply that ends the turn when anything in it raises. *)
Definition run_agent (agent_name : string) (a : agent)
    (json_data : option string) : M state (reply + string) :=
  try_except
    (let* agent_parameters := lift_outcome (safe_json_loads json_data) in
     let* items :=
       match agent_parameters with
       | PDict d => ret d
       | v => raise (Exception ("'" ++ type_name v
                                ++ "' object has no attribute 'items'"))
       end in
     let sanitized_parameters := sanitize items in
     let* st := get_state in
     let sanitized_parameters :=
       if existsb (String.eqb agent_name) identity_sensitive
       then dict_set "user_guid" (user_guid st) sanitized_parameters
       else sanitized_parameters in
     let* result :=
       call (EvPerform agent_name sanitized_parameters)
         (fun tr => agent_perform a tr sanitized_parameters) in
     let result := if is_none result then "Agent completed successfully"
                   else py_str result in
     modify (fun st =>
               set_agent_logs
                 (agent_logs st
                  ++ ["Performed " ++ agent_name ++ " and got result: "
                      ++ result]) st) ;;;
     ret (inr result))
    (fun msg => ret (inl ("Error executing agent: " ++ msg, "{}", ""))).

(** Whether the tool result asks for another turn of the model. *)
Definition needs_follow_up (result : string) : bool :=
  match json_loads result with
  | Some (PDict result_json) =>
      (truthy (py_get "error" result_json)
       || eq_str (py_get "status" result_json) "incomplete")
      || eq_True (py_get "requires_additional_action" result_json)
  | _ => false
  end.

(** The body of the [try] inside the loop of [get_response]: the reply
    when it returns, [None] when it falls through to the next
    iteration. *)
Definition attempt : M state (option reply) :=
  let* response := get_openai_api_call in
  let* assistant_msg := first_choice response in
  let msg_contents := default "" (msg_content assistant_msg) in
  match msg_function_call assistant_msg with
  | None =>
      let* r := finalize msg_contents in
      ret (Some r)
  | Some fc =>
      let agent_name := fc_name fc in
      match dict_get agent_name (known_agents self) with
      | None =>
          ret (Some ("Agent '" ++ agent_name ++ "' does not exist",
                     "{}", ""))
      | Some a =>
          let json_data := ensure_string_function_args (fc_arguments fc) in
          let* r := run_agent agent_name a json_data in
          match r with
          | inl error_reply => ret (Some error_reply)
          | inr result =>
              modify (fun st =>
                        set_messages
                          (messages st
                           ++ [PDict [("role", PStr "function");
                                      ("name", PStr agent_name);
                                      ("content", PStr result)]]) st) ;;;
              if needs_follow_up result then ret None
              else
                let* final_response := get_openai_api_call in
                let* final_msg := first_choice final_response in
                let final_content := default "" (msg_content final_msg) in
                let* r := finalize final_content in
                ret (Some r)
          end
      end
  end.

(** The [except Exception] clause of the loop. *)
Definition on_error (max_retries retry_delay : Z) : M state (option reply) :=
  modify (fun st => set_retry_count (retry_count st + 1) st) ;;;
  let* st := get_state in
  if retry_count st <? max_retries
  then sleep retry_delay ;;; ret None
  else ret (Some ("An error occurred. Please try again.", "{}", "")).

(** [while retry_count < max_retries: ...] and the statement after it.
    Every iteration uses one unit of fuel. *)
Fixpoint dispatch_loop (max_retries retry_delay : Z) (fuel : nat)
  : M state reply :=
  let* st := get_state in
  if retry_count st <? max_retries then
    match fuel with
    | O => fun st => (OutOfFuel, st)
    | S fuel' =>
        let* r := try_except attempt
                    (fun _ => on_error max_retries retry_delay) in
        match r with
        | Some r => ret r
        | None => dispatch_loop max_retries retry_delay fuel'
        end
    end
  else ret ("Service temporarily unavailable. Please try again later.",
            "{}", "").

(** The history the turn works on: the last 20 entries of a list. *)
Definition trim_history (conversation_history : pyval) : pyval :=
  match conversation_history with
  | PList l =>
      if (20 <? length l)%nat then PList (last_n 20 l)
      else conversation_history
  | _ => conversation_history
  end.

(** Identity resolution of [get_response]; yields [guid_from_prompt]. *)
Definition resolve_identity (prompt conversation_history : pyval)
  : M state (option string) :=
  let* guid_from_history :=
    lift_outcome (_check_first_message_for_guid conversation_history) in
  let guid_from_prompt := extract_user_guid prompt in
  let target_guid := if opt_truthy guid_from_history then guid_from_history
                     else guid_from_prompt in
  let* st := get_state in
  (if opt_truthy target_guid
      && negb (eq_str (user_guid st) (default "" target_guid))
   then
     modify (set_user_guid (PStr (default "" target_guid))) ;;;
     _initialize_context_memory (PStr (default "" target_guid))
   else if negb (truthy (user_guid st)) then
     modify (set_user_guid (PStr DEFAULT_USER_GUID)) ;;;
     _initialize_context_memory (PStr DEFAULT_USER_GUID)
   else ret tt) ;;;
  ret guid_from_prompt.

(** [get_response] up to the loop: the reply of the bootstrap fast path,
    or [None] once the messages of the turn are assembled. *)
Definition begin_turn (prompt conversation_history : pyval)
  : M state (option reply) :=
  let conversation_history := trim_history conversation_history in
  let* guid_from_prompt := resolve_identity prompt conversation_history in
  let prompt := if is_none prompt then "" else py_str prompt in
  let* st := get_state in
  if opt_truthy guid_from_prompt
     && String.eqb (strip prompt) (default "" guid_from_prompt)
     && eq_str (user_guid st) (default "" guid_from_prompt)
  then
    let formatted := "Game world initialized. Your adventure awaits!" in
    let game_data := PDict [("event", PStr "world_init");
                            ("status", PStr "ready")] in
    ret (Some (formatted, json_dumps game_data, ""))
  else
    let* messages := prepare_messages conversation_history in
    modify (set_messages
              (messages
               ++ [ensure_string_content
                     (PDict [("role", PStr "user");
                             ("content", PStr prompt)])])) ;;;
    modify (set_agent_logs []) ;;;
    modify (set_retry_count 0) ;;;
    ret None.

(** [Assistant.get_response(prompt, conversation_history, max_retries,
    retry_delay)] *)
Definition get_response (fuel : nat) (prompt conversation_history : pyval)
    (max_retries retry_delay : Z) : M state reply :=
  try_except
    (let* early := begin_turn prompt conversation_history in
     match early with
     | Some r => ret r
     | None => dispatch_loop max_retries retry_delay fuel
     end)
    (fun _ => ret ("A critical error occurred. Please try again.",
                   "{}", "")).
End Assistant.

(** ** Tool discovery *)

(** A record of the [logging] module. *)
Inductive log_record : Type :=
  | LogError (msg : string)
  | LogInfo (msg : string).

(** A member of a loaded module, as [inspect.getmembers] lists it: a class
    that derives from [BasicAgent] and is not [BasicAgent] itself, with its
    name and what calling it does, or anything else. *)
Inductive member : Type :=
  | AgentClass (class_name : string) (construct : outcome agent)
  | OtherMember.

(** The host of the function app and the file share, as discovery sees
    them.  [import_module] and [exec_module] give the members of the module
    once its code has run; [read_file] gives [None] for a file it cannot
    find. *)
Record host : Type := {
  listdir : outcome (list string);
  import_module : string -> outcome (list member);
  new_storage_manager : outcome unit;
  list_files : string -> outcome (list string);
  read_file : string -> string -> outcome (option string);
  exec_module : string -> string -> outcome (list member);
}.

(** What discovery reads and writes: the registry it builds, the scratch
    files under [/tmp] with their contents, [sys.path], the names in
    [sys.modules] and the log. *)
Record loader : Type := {
  declared_agents : list (string * agent);
  files : gmap string string;
  sys_path : list string;
  sys_modules : gset string;
  log : list log_record;
}.

Definition set_declared_agents (d : list (string * agent)) (st : loader)
  : loader :=
  {| declared_agents := d; files := files st; sys_path := sys_path st;
     sys_modules := sys_modules st; log := log st |}.

Definition set_files (f : gmap string string) (st : loader) : loader :=
  {| declared_agents := declared_agents st; files := f;
     sys_path := sys_path st; sys_modules := sys_modules st;
     log := log st |}.

Definition set_sys_path (p : list string) (st : loader) : loader :=
  {| declared_agents := declared_agents st; files := files st;
     sys_path := p; sys_modules := sys_modules st; log := log st |}.

Definition set_sys_modules (m : gset string) (st : loader) : loader :=
  {| declared_agents := declared_agents st; files := files st;
     sys_path := sys_path st; sys_modules := m; log := log st |}.

(** [logging.error(msg)] and [logging.info(msg)] *)
Definition logging (r : log_record) : M loader unit :=
  modify (fun st =>
            {| declared_agents := declared_agents st; files := files st;
               sys_path := sys_path st; sys_modules := sys_modules st;
               log := log st ++ [r] |}).

(** [declared_agents\[agent_instance.name\] = agent_instance] *)
Definition declare (class_name : string) (a : agent) : M loader string :=
  match agent_name a with
  | Some name =>
      modify (fun st =>
                set_declared_agents (dict_set name a (declared_agents st)) st)
      ;;; ret name
  | None =>
      raise (Exception ("'" ++ class_name
                        ++ "' object has no attribute 'name'"))
  end.

(** [with open(temp_file, 'w') as f: f.write(file_content)] *)
Definition write_file (temp_file file_content : string) : M loader unit :=
  modify (fun st => set_files (<[temp_file := file_content]> (files st)) st).

(** [os.remove(temp_file)] *)
Definition os_remove (temp_file : string) : M loader unit :=
  let* st := get_state in
  match files st !! temp_file with
  | Some _ => modify (set_files (delete temp_file (files st)))
  | None =>
      raise (Exception ("[Errno 2] No such file or directory: '"
                        ++ temp_file ++ "'"))
  end.

(** [if d not in sys.path: sys.path.append(d)] *)
Definition add_to_sys_path (d : string) : M loader unit :=
  modify (fun st =>
            if existsb (String.eqb d) (sys_path st) then st
            else set_sys_path (sys_path st ++ [d]) st).

(** [s\[:-3\]] *)
Definition drop_suffix3 (s : string) : string :=
  string_take (String.length s - 3) s.

(** The bundled files that hold agents: Python files other than the
    package initialiser and the base class. *)
Definition bundled_agent_files (files_in_agents_directory : list string)
  : list string :=
  List.filter (fun f => endswith f ".py"
                        && negb (existsb (String.eqb f)
                                   ["__init__.py"; "basic_agent.py"]))
    files_in_agents_directory.

Section Discovery.
Context (os : host).

(** The loop over the members of a bundled or fetched agent module. *)
Fixpoint register_members (members : list member) : M loader unit :=
  match members with
  | [] => ret tt
  | AgentClass class_name construct :: members' =>
      let* agent_instance := lift_outcome construct in
      declare class_name agent_instance ;;;
      register_members members'
  | OtherMember :: members' => register_members members'
  end.

(** The loop over the members of a multi-agent module. *)
Fixpoint register_multi_members (members : list member) : M loader unit :=
  match members with
  | [] => ret tt
  | AgentClass class_name construct :: members' =>
      let* agent_instance := lift_outcome construct in
      let* name := declare class_name agent_instance in
      logging (LogInfo ("Loaded multi-agent: " ++ name)) ;;;
      register_multi_members members'
  | OtherMember :: members' => register_multi_members members'
  end.

(** The body of the loop over the bundled agent files. *)
Definition load_bundled (file : string) : M loader unit :=
  try_except
    (let module_name := drop_suffix3 file in
     let* module := lift_outcome (import_module os ("agents." ++ module_name)) in
     register_members module)
    (fun e => logging (LogError ("Error loading agent " ++ file ++ ": " ++ e))).

(** The body of the loop over the files of the [agents] share. *)
Definition load_shared (file_name : string) : M loader unit :=
  if negb (endswith file_name "_agent.py") then ret tt
  else
    try_except
      (let* file_content := lift_outcome (read_file os "agents" file_name) in
       match file_content with
       | None => ret tt
       | Some file_content =>
           let temp_dir := "/tmp/agents" in
           let temp_file := temp_dir ++ "/" ++ file_name in
           write_file temp_file file_content ;;;
           add_to_sys_path temp_dir ;;;
           let module_name := drop_suffix3 file_name in
           let* module :=
             lift_outcome (exec_module os module_name file_content) in
           register_members module ;;;
           os_remove temp_file
       end)
      (fun e =>
         logging (LogError ("Error loading agent " ++ file_name
                            ++ " from Azure File Share: " ++ e))).

(** The body of the loop over the files of the [multi_agents] share. *)
Definition load_shared_multi (file_name : string) : M loader unit :=
  if negb (endswith file_name "_agent.py") then ret tt
  else
    try_except
      (let* file_content :=
         lift_outcome (read_file os "multi_agents" file_name) in
       match file_content with
       | None => ret tt
       | Some file_content =>
           let temp_dir := "/tmp/multi_agents" in
           let temp_file := temp_dir ++ "/" ++ file_name in
           write_file temp_file file_content ;;;
           add_to_sys_path temp_dir ;;;
           add_to_sys_path "/tmp" ;;;
           let module_name := drop_suffix3 file_name in
           modify (fun st =>
                     set_sys_modules
                       ({[ "multi_agents." ++ module_name ]}
                        ∪ ({[ "multi_agents" ]} ∪ sys_modules st)) st) ;;;
           let* module :=
             lift_outcome
               (exec_module os ("multi_agents." ++ module_name) file_content) in
           register_multi_members module ;;;
           os_remove temp_file
       end)
      (fun e =>
         logging (LogError ("Error loading multi-agent " ++ file_name
                            ++ " from Azure File Share: " ++ e))).

(** [for x in l: body(x)] *)
Fixpoint for_each {A : Type} (body : A -> M loader unit) (l : list A)
  : M loader unit :=
  match l with
  | [] => ret tt
  | x :: l' => body x ;;; for_each body l'
  end.

(** [load_agents_from_folder()] *)
Definition load_agents_from_folder : M loader (list (string * agent)) :=
  let* files_in_agents_directory := lift_outcome (listdir os) in
  let agent_files := bundled_agent_files files_in_agents_directory in
  modify (set_declared_agents []) ;;;
  for_each load_bundled agent_files ;;;
  lift_outcome (new_storage_manager os) ;;;
  try_except
    (let* agent_files := lift_outcome (list_files os "agents") in
     for_each load_shared agent_files)
    (fun e =>
       logging (LogError ("Error loading agents from Azure File Share: "
                          ++ e))) ;;;
  try_except
    (let* multi_agent_files := lift_outcome (list_files os "multi_agents") in
     for_each load_shared_multi multi_agent_files)
    (fun e =>
       logging (LogError ("Error loading multi-agents from Azure File Share: "
                          ++ e))) ;;;
  let* st := get_state in
  ret (declared_agents st).
End Discovery.

(** The argument of [reload_agents]: a dictionary, a list, or anything
    else. *)
Inductive agent_objects : Type :=
  | AgentDict (d : list (string * agent))
  | AgentList (l : list agent)
  | AgentOther.

(** [Assistant.reload_agents(agent_objects)] *)
Definition reload_agents (objects : agent_objects) : list (string * agent) :=
  match objects with
  | AgentDict d =>
      fold_left
        (fun known_agents kv =>
           match agent_name (snd kv) with
           | Some name => dict_set name (snd kv) known_agents
           | None => dict_set (fst kv) (snd kv) known_agents
           end) d []
  | AgentList l =>
      fold_left
        (fun known_agents a =>
           match agent_name a with
           | Some name => dict_set name a known_agents
           | None => known_agents
           end) l []
  | AgentOther => []
  end.

(** ** An executable instance of the library functions

    A reader and a printer for the subset of JSON without fractions,
    exponents and [\u] escapes, in the layout of [json.dumps] (a space
    after every comma and colon).  It is used to run the model on concrete
    inputs; the theorems about the engine hold for every [PyRuntime]. *)
Module Json.

(** The whitespace [json] skips. *)
Definition is_ws (c : ascii) : bool :=
  Ascii.eqb c " " || Ascii.eqb c "009" || Ascii.eqb c "010"
  || Ascii.eqb c "013".

Fixpoint skip_ws (s : string) : string :=
  match s with
  | String c s' => if is_ws c then skip_ws s' else s
  | EmptyString => EmptyString
  end.

Definition is_digit (c : ascii) : bool :=
  let n := N_of_ascii c in ((48 <=? n) && (n <=? 57))%N.

(** The digits at the head of [s], as a number, with the rest. *)
Fixpoint digits (acc : Z) (s : string) : Z * string :=
  match s with
  | String c s' =>
      if is_digit c
      then digits (10 * acc + Z.of_N (N_of_ascii c) - 48) s'
      else (acc, s)
  | EmptyString => (acc, s)
  end.

(** Whether a fraction or an exponent follows. *)
Definition starts_fraction (s : string) : bool :=
  match s with
  | String c _ => Ascii.eqb c "." || Ascii.eqb c "e" || Ascii.eqb c "E"
  | EmptyString => false
  end.

(** An integer literal: an optional minus sign, then a zero or a run of
    digits that does not start with one; a fraction or an exponent after
    it is refused. *)
Definition number (s : string) : option (pyval * string) :=
  let negative := String.prefix "-" s in
  let body := if negative then string_drop 1 s else s in
  match body with
  | String c rest =>
      if is_digit c then
        let '(n, rest') :=
          if Ascii.eqb c "0" then (0, rest) else digits 0 body in
        if starts_fraction rest' then None
        else Some (PInt (if negative then - n else n), rest')
      else None
  | EmptyString => None
  end.

(** [null], [true] or [false] at the head of [s]. *)
Definition literal (s : string) : option (pyval * string) :=
  if String.prefix "null" s then Some (PNone, string_drop 4 s)
  else if String.prefix "true" s then Some (PBool true, string_drop 4 s)
  else if String.prefix "false" s then Some (PBool false, string_drop 5 s)
  else None.

Definition hex_value (c : ascii) : option N :=
  let n := N_of_ascii c in
  if ((48 <=? n) && (n <=? 57))%N then Some (n - 48)%N
  else if ((97 <=? n) && (n <=? 102))%N then Some (n - 87)%N
  else if ((65 <=? n) && (n <=? 70))%N then Some (n - 55)%N
  else None.

(** The character written as four hexadecimal digits, when it is below
    256. *)
Definition code_point (h1 h2 h3 h4 : ascii) : option ascii :=
  match hex_value h1, hex_value h2, hex_value h3, hex_value h4 with
  | Some a, Some b, Some c, Some d =>
      if ((a =? 0) && (b =? 0))%N then Some (ascii_of_N (16 * c + d))
      else None
  | _, _, _, _ => None
  end.

(** The character a backslash and [e] stand for. *)
Definition unescape (e : ascii) : option ascii :=
  if Ascii.eqb e (ascii_of_nat 34) then Some (ascii_of_nat 34)
  else if Ascii.eqb e "\" then Some "\"%char
  else if Ascii.eqb e "/" then Some "/"%char
  else if Ascii.eqb e "b" then Some "008"%char
  else if Ascii.eqb e "f" then Some "012"%char
  else if Ascii.eqb e "n" then Some "010"%char
  else if Ascii.eqb e "r" then Some "013"%char
  else if Ascii.eqb e "t" then Some "009"%char
  else None.

(** The characters of a string literal after its opening quote, up to
    the closing one. *)
Fixpoint chars (s : string) : option (string * string) :=
  match s with
  | String c s' =>
      if Ascii.eqb c (ascii_of_nat 34) then Some (EmptyString, s')
      else if Ascii.eqb c "\" then
        match s' with
        | String e s'' =>
            match unescape e with
            | Some u =>
                match chars s'' with
                | Some (body, rest) => Some (String u body, rest)
                | None => None
                end
            | None =>
                if Ascii.eqb e "u" then
                  match s'' with
                  | String h1 (String h2 (String h3 (String h4 s3))) =>
                      match code_point h1 h2 h3 h4, chars s3 with
                      | Some u, Some (body, rest) =>
                          Some (String u body, rest)
                      | _, _ => None
                      end
                  | _ => None
                  end
                else None
            end
        | EmptyString => None
        end
      else if (N_of_ascii c <? 32)%N then None
      else
        match chars s' with
        | Some (body, rest) => Some (String c body, rest)
        | None => None
        end
  | EmptyString => None
  end.

(** A value at the head of [s], after whitespace, with the rest. *)
Fixpoint value (fuel : nat) (s : string) : option (pyval * string) :=
  match fuel with
  | O => None
  | S fuel' =>
      match skip_ws s with
      | String c rest =>
          if Ascii.eqb c "[" then
            match skip_ws rest with
            | String c' rest' =>
                if Ascii.eqb c' "]" then Some (PList [], rest')
                else
                  match elements fuel' rest with
                  | Some (l, rest'') => Some (PList l, rest'')
                  | None => None
                  end
            | EmptyString => None
            end
          else if Ascii.eqb c "{" then
            match skip_ws rest with
            | String c' rest' =>
                if Ascii.eqb c' "}" then Some (PDict [], rest')
                else
                  match members fuel' rest [] with
                  | Some (d, rest'') => Some (PDict d, rest'')
                  | None => None
                  end
            | EmptyString => None
            end
          else if Ascii.eqb c (ascii_of_nat 34) then
            match chars rest with
            | Some (body, rest') => Some (PStr body, rest')
            | None => None
            end
          else if is_digit c || Ascii.eqb c "-" then number (String c rest)
          else literal (String c rest)
      | EmptyString => None
      end
  end

(** The elements of an array after its opening bracket. *)
with elements (fuel : nat) (s : string) : option (list pyval * string) :=
  match fuel with
  | O => None
  | S fuel' =>
      match value fuel' s with
      | Some (v, rest) =>
          match skip_ws rest with
          | String c rest' =>
              if Ascii.eqb c "," then
                match elements fuel' rest' with
                | Some (l, rest'') => Some (v :: l, rest'')
                | None => None
                end
              else if Ascii.eqb c "]" then Some ([v], rest')
              else None
          | EmptyString => None
          end
      | None => None
      end
  end

(** The members of an object after its opening brace, added to [d]: a
    key that comes again replaces the value it had. *)
with members (fuel : nat) (s : string) (d : list (string * pyval))
  : option (list (string * pyval) * string) :=
  match fuel with
  | O => None
  | S fuel' =>
      match skip_ws s with
      | String q rest =>
          if Ascii.eqb q (ascii_of_nat 34) then
            match chars rest with
            | Some (key, rest1) =>
                match skip_ws rest1 with
                | String c rest2 =>
                    if Ascii.eqb c ":" then
                      match value fuel' rest2 with
                      | Some (v, rest3) =>
                          let d' := dict_set key v d in
                          match skip_ws rest3 with
                          | String c' rest4 =>
                              if Ascii.eqb c' "," then members fuel' rest4 d'
                              else if Ascii.eqb c' "}" then Some (d', rest4)
                              else None
                          | EmptyString => None
                          end
                      | None => None
                      end
                    else None
                | EmptyString => None
                end
            | None => None
            end
          else None
      | EmptyString => None
      end
  end.

(** [json.loads(s)]: one value and nothing but whitespace after it. *)
Definition loads (s : string) : option pyval :=
  match value (S (String.length s)) s with
  | Some (v, rest) =>
      match skip_ws rest with
      | EmptyString => Some v
      | _ => None
      end
  | None => None
  end.

(** A digit of base 16, in lower case. *)
Definition hex_digit (n : N) : ascii :=
  if (n <? 10)%N then ascii_of_N (48 + n) else ascii_of_N (87 + n).

(** A character inside a string literal, as [json.dumps] writes it with
    [ensure_ascii]. *)
Definition escape_char (c : ascii) : string :=
  let n := N_of_ascii c in
  if Ascii.eqb c (ascii_of_nat 34) then "\" ++ dq
  else if Ascii.eqb c "\" then "\\"
  else if Ascii.eqb c "010" then "\n"
  else if Ascii.eqb c "013" then "\r"
  else if Ascii.eqb c "009" then "\t"
  else if Ascii.eqb c "008" then "\b"
  else if Ascii.eqb c "012" then "\f"
  else if ((n <? 32) || (126 <? n))%N
  then "\u00" ++ String (hex_digit (n / 16)) (String (hex_digit (n mod 16)) "")
  else String c "".

Fixpoint escape (s : string) : string :=
  match s with
  | String c s' => escape_char c ++ escape s'
  | EmptyString => EmptyString
  end.

Definition quoted (s : string) : string := dq ++ escape s ++ dq.

(** [json.dumps(v)].  Floats are outside this instance. *)
Fixpoint dumps (v : pyval) : string :=
  match v with
  | PNone => "null"
  | PBool true => "true"
  | PBool false => "false"
  | PInt z => str_of_Z z
  | PFloat _ => "NaN"
  | PStr s => quoted s
  | PList l => "[" ++ join ", " (map dumps l) ++ "]"
  | PDict d =>
      "{" ++ join ", "
               (map (fun kv => match kv with
                               | (k, x) => quoted k ++ ": " ++ dumps x
                               end) d)
          ++ "}"
  end.

(** The text [dumps] prints for a member of an object. *)
Definition member_text (kv : string * pyval) : string :=
  match kv with (k, x) => quoted k ++ ": " ++ dumps x end.

(** The fuel [value] needs to read a value back. *)
Fixpoint size (v : pyval) : nat :=
  match v with
  | PList l => S (list_sum (map (fun x => S (size x)) l))
  | PDict d =>
      S (list_sum (map (fun kv => match kv with (_, x) => S (size x) end) d))
  | _ => 1
  end.

(** Text before which a number ends: neither a digit nor a fraction comes
    first. *)
Definition token_end (s : string) : bool :=
  match s with
  | String c _ => negb (is_digit c) && negb (starts_fraction s)
  | EmptyString => true
  end.

(** A plain value is read back from its text, whatever follows it. *)
Definition reads_back (x : pyval) : Prop :=
  plain x = true ->
  forall fuel rest,
    (size x <= fuel)%nat -> token_end rest = true ->
    value fuel (dumps x ++ rest) = Some (x, rest).
End Json.

(** [repr] of a string: single quotes, unless the string has a single
    quote and no double quote. *)
Definition repr_str (s : string) : string :=
  let has (c : ascii) := existsb (Ascii.eqb c) (list_ascii_of_string s) in
  let quote := if has "'"%char && negb (has (ascii_of_nat 34))
               then ascii_of_nat 34 else "'"%char in
  let escape_char (c : ascii) : string :=
    let n := N_of_ascii c in
    if Ascii.eqb c quote || Ascii.eqb c "\" then String "\" (String c "")
    else if Ascii.eqb c "010" then "\n"
    else if Ascii.eqb c "013" then "\r"
    else if Ascii.eqb c "009" then "\t"
    else if ((n <? 32) || (126 <? n) && (n <? 161) || (n =? 173))%N
    then "\x" ++ String (Json.hex_digit (n / 16))
                   (String (Json.hex_digit (n mod 16)) "")
    else String c "" in
  String quote
    (fold_right (fun c r => escape_char c ++ r) (String quote "")
       (list_ascii_of_string s)).

(** [repr(v)].  Floats are outside this instance. *)
Fixpoint repr (v : pyval) : string :=
  match v with
  | PNone => "None"
  | PBool true => "True"
  | PBool false => "False"
  | PInt z => str_of_Z z
  | PFloat _ => "nan"
  | PStr s => repr_str s
  | PList l => "[" ++ join ", " (map repr l) ++ "]"
  | PDict d =>
      "{" ++ join ", "
               (map (fun kv => match kv with
                               | (k, x) => repr_str k ++ ": " ++ repr x
                               end) d)
          ++ "}"
  end.

(** Modelled from the spec: [safe_json_loads] of
    [utils.azure_file_storage], which is not among the sources.  The spec
    has it attempt a strict parse, then a lenient fallback, then treat the
    whole payload as empty; this instance goes from the strict parse
    straight to the empty map. *)
Definition lenient_loads (json_data : option string) : outcome pyval :=
  match json_data with
  | Some s =>
      match Json.loads s with
      | Some v => Returns v
      | None => Returns (PDict [])
      end
  | None => Returns (PDict [])
  end.

Definition python : PyRuntime := {|
  repr_compound := repr;
  json_dumps := Json.dumps;
  json_loads := Json.loads;
  safe_json_loads := lenient_loads;
|}.



(** ** Scenarios

    Concrete sessions, tools and hosts the model is run on. *)

(** The text [{"status": "incomplete"}]. *)
Definition incomplete_status : string :=
  "{" ++ dq ++ "status" ++ dq ++ ": " ++ dq ++ "incomplete" ++ dq ++ "}".

(** A tool that never finishes its work. *)
Definition stalling_tool : agent := {|
  agent_name := Some "Stall";
  agent_metadata := None;
  agent_perform := fun _ _ => Returns (PStr incomplete_status);
|}.

(** A second tool that declares the name of the first. *)
Definition stalling_tool_v2 : agent := {|
  agent_name := Some "Stall";
  agent_metadata := Some (PDict [("name", PStr "Stall")]);
  agent_perform := fun _ _ => Returns PNone;
|}.

(** A fresh assistant for which no context memory tool was found. *)
Definition fresh : state := {|
  user_guid := PStr DEFAULT_USER_GUID;
  shared_memory := NO_SHARED_MEMORY;
  user_memory := NO_USER_MEMORY;
  messages := [];
  agent_logs := [];
  retry_count := 0;
  trace := [];
|}.

(** A session without tools whose chat endpoint cannot be reached. *)
Definition offline : session := {|
  known_agents := [];
  assistant_name := "GameMaster";
  chat_completions_create := fun _ _ _ => Raises (Exception "Connection error.");
  set_memory_context := fun _ _ => Returns tt;
|}.

Definition sample_guid : string := "123e4567-e89b-12d3-a456-426614174000".

(** The fresh assistant once [sample_guid] is its active identity. *)
Definition bootstrapped : state := {|
  user_guid := PStr sample_guid;
  shared_memory := NO_SHARED_MEMORY;
  user_memory := NO_USER_MEMORY;
  messages := [];
  agent_logs := [];
  retry_count := 0;
  trace := [];
|}.

(** What a computation guarantees: [R] between the state it starts from
    and the state it leaves, however it ends, and [Q] of the value it
    returns. *)
Definition mspec {S A : Type} (R : S -> S -> Prop) (Q : A -> Prop)
    (m : M S A) : Prop :=
  forall st,
    match m st with
    | (Ret a, st') => R st st' /\ Q a
    | (_, st') => R st st'
    end.

(** A session whose model keeps selecting a tool that is not registered. *)
Definition confused : session := {|
  known_agents := [("Stall", stalling_tool)];
  assistant_name := "GameMaster";
  chat_completions_create := fun _ _ _ =>
    Returns [{| msg_content := None;
                msg_function_call :=
                  Some {| fc_name := "DoesNotExist"; fc_arguments := PStr "{}" |}
             |}];
  set_memory_context := fun _ _ => Returns tt;
|}.

(** A session whose model keeps selecting the tool that never finishes. *)
Definition stalling : session := {|
  known_agents := [("Stall", stalling_tool)];
  assistant_name := "GameMaster";
  chat_completions_create := fun _ _ _ =>
    Returns [{| msg_content := None;
                msg_function_call :=
                  Some {| fc_name := "Stall"; fc_arguments := PStr "{}" |}
             |}];
  set_memory_context := fun _ _ => Returns tt;
|}.

(** A session whose model answers in both channels. *)
Definition narrating : session := {|
  known_agents := [("Stall", stalling_tool)];
  assistant_name := "GameMaster";
  chat_completions_create := fun _ _ _ =>
    Returns [{| msg_content :=
                  Some ("You see a door." ++ nl ++ GAME_DATA ++ nl
                        ++ "{" ++ dq ++ "door" ++ dq ++ ": 1}");
                msg_function_call := None |}];
  set_memory_context := fun _ _ => Returns tt;
|}.

(** The state in which the turn ["hello"] of a fresh assistant reaches the
    loop. *)
Definition greeted (self : session) : state :=
  snd (@begin_turn python self (PStr "hello") (PList []) fresh).

(** The values [get_response] serialises as game data: what [json.loads]
    read in the model's answer, the empty dictionary, or the payload of
    the bootstrap reply. *)
Definition game_data_value `{PyRuntime} (v : pyval) : Prop :=
  (exists s, json_loads s = Some v) \/ v = PDict []
  \/ v = PDict [("event", PStr "world_init"); ("status", PStr "ready")].

(** The serialised game data of a reply is the literal [{}] or what
    [json.dumps] printed for such a value. *)
Definition json_payload `{PyRuntime} (r : reply) : Prop :=
  snd (fst r) = "{}"
  \/ exists v, game_data_value v /\ snd (fst r) = json_dumps v.

(** The contract of the [json] module the engine relies on: a plain value
    is read back from its text, the text of a value that was read is read
    again, and [{}] is read. *)
Definition lawful_json `{PyRuntime} : Prop :=
  (forall v, plain v = true -> json_loads (json_dumps v) = Some v)
  /\ (forall s v, json_loads s = Some v -> json_loads (json_dumps v) <> None)
  /\ json_loads "{}" <> None.

(** The payload of an optional reply, when there is one. *)
Definition early_payload `{PyRuntime} (o : option reply) : Prop :=
  forall r, o = Some r -> json_payload r.

(** Any two states. *)
Definition any_state (st st' : state) : Prop := True.

(** The source text of a module that raises when it is executed. *)
Definition broken_source : string := "raise RuntimeError('boom')".

(** The source text of a module that defines the tool [Stall]. *)
Definition stall_source : string := "class StallAgent(BasicAgent): ...".

(** A host without bundled agents whose [agents] share holds one module
    that raises when executed. *)
Definition leaky_share : host := {|
  listdir := Returns [];
  import_module := fun _ => Returns [];
  new_storage_manager := Returns tt;
  list_files := fun directory =>
    if String.eqb directory "agents" then Returns ["broken_agent.py"]
    else Returns [];
  read_file := fun _ _ => Returns (Some broken_source);
  exec_module := fun _ _ => Raises (Exception "boom");
|}.

(** A host whose [agents] share holds a module with a class that raises
    when instantiated, and a module with the tool [Stall]. *)
Definition mixed_share : host := {|
  listdir := Returns ["__init__.py"; "basic_agent.py"];
  import_module := fun _ => Returns [];
  new_storage_manager := Returns tt;
  list_files := fun directory =>
    if String.eqb directory "agents"
    then Returns ["broken_agent.py"; "stall_agent.py"]
    else Returns [];
  read_file := fun _ file_name =>
    if String.eqb file_name "broken_agent.py"
    then Returns (Some broken_source)
    else Returns (Some stall_source);
  exec_module := fun module_name _ =>
    if String.eqb module_name "broken_agent"
    then Returns [AgentClass "BrokenAgent" (Raises (Exception "boom"))]
    else Returns [AgentClass "StallAgent" (Returns stalling_tool)];
|}.

(** A host on which the storage client cannot be constructed. *)
Definition unconfigured : host := {|
  listdir := Returns [];
  import_module := fun _ => Returns [];
  new_storage_manager :=
    Raises (Exception "Connection string is required");
  list_files := fun _ => Returns [];
  read_file := fun _ _ => Returns None;
  exec_module := fun _ _ => Returns [];
|}.

(** A process that has not loaded anything yet. *)
Definition clean : loader := {|
  declared_agents := [];
  files := ∅;
  sys_path := [];
  sys_modules := ∅;
  log := [];
|}.

(** A call that raises nothing [except Exception] would let through. *)
Definition catchable {A : Type} (o : outcome A) : Prop :=
  forall msg, o <> Raises (BaseException msg).

Definition catchable_member (m : member) : Prop :=
  match m with
  | AgentClass _ construct => catchable construct
  | OtherMember => True
  end.

(** Loading a module, and instantiating the classes it defines, raises
    nothing [except Exception] would let through. *)
Definition catchable_module (o : outcome (list member)) : Prop :=
  catchable o /\ forall ms, o = Returns ms -> Forall catchable_member ms.

(** A host whose candidate sources and file share raise only exceptions
    that derive from [Exception]. *)
Definition well_behaved (os : host) : Prop :=
  (forall name, catchable_module (import_module os name))
  /\ (forall directory, catchable (list_files os directory))
  /\ (forall directory name, catchable (read_file os directory name))
  /\ (forall name content, catchable_module (exec_module os name content)).

(** A computation that returns. *)
Definition total {S A : Type} (m : M S A) : Prop :=
  forall st, exists a st', m st = (Ret a, st').

(** A computation that returns or raises what [except Exception]
    catches. *)
Definition no_escape {S A : Type} (m : M S A) : Prop :=
  forall st,
    (exists a st', m st = (Ret a, st'))
    \/ (exists msg st', m st = (Raise (Exception msg), st')).

(** A module loads when each agent class it defines can be instantiated
    and the instance has a name. *)
Definition loads (members : list member) : Prop :=
  Forall (fun m =>
            match m with
            | AgentClass _ (Returns a) => agent_name a <> None
            | AgentClass _ (Raises _) => False
            | OtherMember => True
            end) members.

(** The module defines an agent class whose instance is named [name]. *)
Definition declares (members : list member) (name : string) : Prop :=
  exists class_name a,
    AgentClass class_name (Returns a) ∈ members /\ agent_name a = Some name.

(** Instantiating the classes of the module stops with [e]: the first
    class that cannot be instantiated raises it. *)
Definition fails_with (members : list member) (e : string) : Prop :=
  exists before class_name after,
    members = (before ++ AgentClass class_name (Raises (Exception e))
                 :: after)%list
    /\ loads before.

(** Discovery has settled a candidate, given what getting its module
    does: when that raises, [error] of the message is in the log; when the
    module loads, the name of each of its agents is in the registry; when
    instantiating one of its classes raises, [error] of that message is
    in the log. *)
Definition settled (module : outcome (list member))
    (error : string -> log_record) (registry : list (string * agent))
    (records : list log_record) : Prop :=
  match module with
  | Raises (Exception e) => error e ∈ records
  | Raises (BaseException _) => True
  | Returns members =>
      (loads members ->
       forall name, declares members name -> name ∈ dict_keys registry)
      /\ forall e, fails_with members e -> error e ∈ records
  end.

(** The registry and the log only grow. *)
Definition only_grows (st st' : loader) : Prop :=
  (forall name, name ∈ dict_keys (declared_agents st) ->
                name ∈ dict_keys (declared_agents st'))
  /\ forall r, r ∈ log st -> r ∈ log st'.

(** A host on which most candidates fail: the bundled [broken_agent.py]
    cannot be imported; on the [agents] share, [lost_agent.py] cannot be
    read, [broken_agent.py] raises when executed, and [stall_agent.py]
    holds the tool [Stall]; the [multi_agents] share holds a module that
    raises when executed, one whose class raises when instantiated, and
    one with the tool [Stall] again. *)
Definition rough_host : host := {|
  listdir := Returns ["__init__.py"; "broken_agent.py"];
  import_module := fun _ => Raises (Exception "No module named 'numpy'");
  new_storage_manager := Returns tt;
  list_files := fun directory =>
    if String.eqb directory "agents"
    then Returns ["lost_agent.py"; "broken_agent.py"; "stall_agent.py"]
    else Returns ["broken_agent.py"; "crew_agent.py"; "stall_agent.py"];
  read_file := fun _ file_name =>
    if String.eqb file_name "lost_agent.py"
    then Raises (Exception "share is offline")
    else if String.eqb file_name "stall_agent.py"
         then Returns (Some stall_source)
         else Returns (Some broken_source);
  exec_module := fun module_name _ =>
    if String.eqb module_name "stall_agent"
    then Returns [OtherMember; AgentClass "StallAgent" (Returns stalling_tool)]
    else if String.eqb module_name "multi_agents.stall_agent"
         then Returns [AgentClass "StallAgent" (Returns stalling_tool_v2)]
         else if String.eqb module_name "multi_agents.crew_agent"
              then Returns [AgentClass "CrewAgent"
                              (Raises (Exception "no crew"))]
              else Raises (Exception "boom");
|}.

(** The chat endpoint was not called between two states. *)
Definition same_api_calls (st st' : state) : Prop :=
  api_calls (trace st') = api_calls (trace st).

(** ** Shapes of values *)

(** Every character of [s] satisfies [p]. *)
Fixpoint all_chars (p : ascii -> bool) (s : string) : bool :=
  match s with
  | String c s' => p c && all_chars p s'
  | EmptyString => true
  end.

(** A well-formed conversation turn: a dictionary with a role and a string
    as content. *)
Definition well_formed_turn (v : pyval) : Prop :=
  exists turn role content,
    v = PDict turn
    /\ dict_get "role" turn = Some role
    /\ dict_get "content" turn = Some (PStr content).

(** ** Collaborators that raise only what is caught *)

(** A session in which the chat endpoint, the storage, the tools and the
    lenient parser raise nothing [except Exception] would let through. *)
Definition catchable_session `{PyRuntime} (self : session) : Prop :=
  (forall tr ms fs, catchable (chat_completions_create self tr ms fs))
  /\ (forall tr g, catchable (set_memory_context self tr g))
  /\ (forall name a tr kwargs,
        dict_get name (known_agents self) = Some a ->
        catchable (agent_perform a tr kwargs))
  /\ (forall json_data, catchable (safe_json_loads json_data)).

(** A computation that raises nothing [except Exception] would let
    through. *)
Definition contained {S A : Type} (m : M S A) : Prop :=
  forall st msg st', m st <> (Raise (BaseException msg), st').

(** The active identity is the same in two states. *)
Definition same_identity (st st' : state) : Prop :=
  user_guid st' = user_guid st.

(** Every entry of a registry is filed under the name its agent
    declares. *)
Definition keyed_by_name (registry : list (string * agent)) : Prop :=
  Forall (fun kv : string * agent => agent_name (snd kv) = Some (fst kv))
    registry.

(** The registry discovery is building is keyed by declared names. *)
Definition keyed (st : loader) : Prop := keyed_by_name (declared_agents st).

(** A property of the state that a computation keeps, however it ends. *)
Definition keeps {S A : Type} (I : S -> Prop) (m : M S A) : Prop :=
  forall st, I st -> I (snd (m st)).

(** ** Further scenarios *)

(** A tool that raises whenever it is called. *)
Definition failing_tool : agent := {|
  agent_name := Some "Forge";
  agent_metadata := Some (PDict [("name", PStr "Forge")]);
  agent_perform := fun _ _ => Raises (Exception "anvil is cold");
|}.

(** A session whose model selects the tool that raises. *)
Definition breaking : session := {|
  known_agents := [("Forge", failing_tool)];
  assistant_name := "GameMaster";
  chat_completions_create := fun _ _ _ =>
    Returns [{| msg_content := None;
                msg_function_call :=
                  Some {| fc_name := "Forge"; fc_arguments := PStr "{}" |}
             |}];
  set_memory_context := fun _ _ => Returns tt;
|}.

(** A session whose model selects the tool [Stall] in every answer, the
    tool returning [None]. *)
Definition insisting : session := {|
  known_agents := [("Stall", stalling_tool_v2)];
  assistant_name := "GameMaster";
  chat_completions_create := fun _ _ _ =>
    Returns [{| msg_content := Some "The door opens.";
                msg_function_call :=
                  Some {| fc_name := "Stall"; fc_arguments := PStr "{}" |}
             |}];
  set_memory_context := fun _ _ => Returns tt;
|}.

(** A session whose chat endpoint fails twice before it answers. *)
Definition flaky : session := {|
  known_agents := [];
  assistant_name := "GameMaster";
  chat_completions_create := fun tr _ _ =>
    if (api_calls tr <? 2)%nat then Raises (Exception "timeout")
    else Returns [{| msg_content := Some "Back again.";
                     msg_function_call := None |}];
  set_memory_context := fun _ _ => Returns tt;
|}.

(** A history whose first turn only carries [sample_guid]. *)
Definition guid_history : pyval :=
  PList [PDict [("role", PStr "user"); ("content", PStr sample_guid)];
         PDict [("role", PStr "assistant"); ("content", PStr "Welcome.")]].

(** A history of 25 turns, the [n]-th saying ["turn n"]. *)
Definition long_history : list pyval :=
  map (fun n => PDict [("role", PStr "user");
                       ("content", PStr ("turn " ++ str_of_Z (Z.of_nat n)))])
    (seq 1 25).

(** ** The HTTP trigger *)

(** [build_cors_response(origin)], [origin] being the header of that name
    or [None]. *)
Definition build_cors_response (origin : option string)
  : list (string * string) :=
  [("Access-Control-Allow-Origin",
    if opt_truthy origin then default "" origin else "*");
   ("Access-Control-Allow-Methods", "*");
   ("Access-Control-Allow-Headers", "*");
   ("Access-Control-Allow-Credentials", "true");
   ("Access-Control-Max-Age", "86400")].

(** What [main] reads of a request: the method, the [origin] header when
    there is one, and what [get_json()] gives ([None] when it raises
    [ValueError]: the body is not JSON). *)
Record http_request : Type := {
  method : string;
  origin : option string;
  get_json : option pyval;
}.

(** The arguments [main] builds a [func.HttpResponse] from; the status
    code is 200 when none is given. *)
Record http_response : Type := {
  body : option string;
  status_code : Z;
  mimetype : option string;
  headers : list (string * string);
}.

(** The chat endpoint of a client, as a session calls it. *)
Definition chat_endpoint : Type :=
  list event -> list pyval -> list pyval -> outcome (list assistant_message).

(** Where the function app runs: the environment variables, the host of
    discovery, the constructor of the chat client, given the key, the
    version and the endpoint, and the constructor of the storage manager
    of an assistant, which gives its [set_memory_context]. *)
Record deployment : Type := {
  environ : string -> option string;
  os_host : host;
  new_client : string -> string -> string -> outcome chat_endpoint;
  new_storage : outcome (list event -> pyval -> outcome unit);
}.

(** The process that serves requests: what discovery reads and writes,
    and what the assistants have done to the outside world so far. *)
Record server : Type := {
  process : loader;
  outside : list event;
}.

(** A step of discovery, in the process. *)
Definition in_process {A : Type} (m : M loader A) : M server A :=
  fun srv =>
    let '(r, l) := m (process srv) in
    (r, {| process := l; outside := outside srv |}).

(** A step of an assistant in state [st]: the value with the state it
    leaves; what it did is on record however it ends. *)
Definition in_assistant {A : Type} (m : M state A) (st : state)
  : M server (A * state) :=
  fun srv =>
    let '(r, st') := m st in
    let srv' := {| process := process srv; outside := trace st' |} in
    match r with
    | Ret a => (Ret (a, st'), srv')
    | Raise e => (Raise e, srv')
    | OutOfFuel => (OutOfFuel, srv')
    end.

Section Trigger.
Context `{PyRuntime} (env : deployment).

(** [Assistant(declared_agents)]: the session and the state of the new
    assistant.  The memory snapshots are [None] until they are fetched. *)
Definition new_assistant (declared_agents : list (string * agent))
  : M server (session * state) :=
  let assistant_name := default "GameMaster" (environ env "ASSISTANT_NAME") in
  let api_key := environ env "AZURE_OPENAI_API_KEY" in
  let endpoint := environ env "AZURE_OPENAI_ENDPOINT" in
  let api_version :=
    default "2024-02-01" (environ env "AZURE_OPENAI_API_VERSION") in
  let* client :=
    if negb (opt_truthy api_key) || negb (opt_truthy endpoint)
    then raise (Exception "Azure OpenAI API key and endpoint are required")
    else lift_outcome
           (new_client env (default "" api_key) api_version
              (default "" endpoint)) in
  let known_agents := reload_agents (AgentDict declared_agents) in
  let* storage_manager := lift_outcome (new_storage env) in
  let self := {| known_agents := known_agents;
                 assistant_name := assistant_name;
                 chat_completions_create := client;
                 set_memory_context := storage_manager |} in
  let* srv := get_state in
  let st := {| user_guid := PStr DEFAULT_USER_GUID;
               shared_memory := "None";
               user_memory := "None";
               messages := [];
               agent_logs := [];
               retry_count := 0;
               trace := outside srv |} in
  let* r := in_assistant
              (_initialize_context_memory self (PStr DEFAULT_USER_GUID)) st in
  ret (self, snd r).

(** A response with a plain body. *)
Definition plain_response (text : string) (status : Z)
    (cors_headers : list (string * string)) : http_response :=
  {| body := Some text; status_code := status; mimetype := None;
     headers := cors_headers |}.

(** A response with a JSON body. *)
Definition json_response (payload : pyval) (status : Z)
    (cors_headers : list (string * string)) : http_response :=
  {| body := Some (json_dumps payload); status_code := status;
     mimetype := Some "application/json"; headers := cors_headers |}.

(** The [try] block of [main]: discovery, a new assistant, the identity
    the request names ([requested_guid] is the [user_guid] of the body),
    the turn. *)
Definition serve (fuel : nat) (user_input : string)
    (conversation_history requested_guid : pyval) (is_guid_only : bool)
    (cors_headers : list (string * string)) : M server http_response :=
  let* agents := in_process (load_agents_from_folder (os_host env)) in
  let* a := new_assistant agents in
  let '(self, st) := a in
  let* st :=
    if truthy requested_guid then
      let* r := in_assistant
                  (_initialize_context_memory self requested_guid)
                  (set_user_guid requested_guid st) in
      ret (snd r)
    else if is_guid_only then
      let* r := in_assistant
                  (_initialize_context_memory self (PStr (strip user_input)))
                  (set_user_guid (PStr (strip user_input)) st) in
      ret (snd r)
    else ret st in
  let* r := in_assistant
              (get_response self fuel (PStr user_input) conversation_history
                 3 2) st in
  let '(assistant_response, game_data, agent_logs, st) := r in
  ret (json_response
         (PDict [("assistant_response", PStr assistant_response);
                 ("game_data", PStr game_data);
                 ("agent_logs", PStr agent_logs);
                 ("user_guid", user_guid st)])
         200 cors_headers).

(** [main(req)] *)
Definition main (fuel : nat) (req : http_request) : M server http_response :=
  let cors_headers := build_cors_response (origin req) in
  if String.eqb (method req) "OPTIONS" then
    ret {| body := None; status_code := 200; mimetype := None;
           headers := cors_headers |}
  else
    match get_json req with
    | None => ret (plain_response "Invalid JSON in request body" 400
                     cors_headers)
    | Some req_body =>
        if negb (truthy req_body) then
          ret (plain_response "Missing JSON payload in request body" 400
                 cors_headers)
        else
          match req_body with
          | PDict d =>
              let user_input := py_get "user_input" d in
              let user_input :=
                if is_none user_input then "" else py_str user_input in
              let conversation_history :=
                default (PList []) (dict_get "conversation_history" d) in
              let conversation_history :=
                match conversation_history with
                | PList _ => conversation_history
                | _ => PList []
                end in
              let requested_guid := py_get "user_guid" d in
              let is_guid_only :=
                match guid_pattern (strip user_input) with
                | Some _ => true
                | None => false
                end in
              if negb is_guid_only && String.eqb (strip user_input) "" then
                ret (json_response
                       (PDict [("error",
                                PStr "Missing or empty user_input in JSON payload")])
                       400 cors_headers)
              else
                try_except
                  (serve fuel user_input conversation_history requested_guid
                     is_guid_only cors_headers)
                  (fun e =>
                     ret (json_response
                            (PDict [("error", PStr "Internal server error");
                                    ("details", PStr e)])
                            500 cors_headers))
          | v =>
              raise (Exception ("'" ++ type_name v
                                ++ "' object has no attribute 'get'"))
          end
    end.
End Trigger.

(** A deployment with credentials, the file share of [mixed_share], a
    chat endpoint that cannot be reached and a storage that works. *)
Definition staging : deployment := {|
  environ := fun name =>
    if String.eqb name "AZURE_OPENAI_API_KEY" then Some "secret"
    else if String.eqb name "AZURE_OPENAI_ENDPOINT"
         then Some "https://example.openai.azure.com"
         else None;
  os_host := mixed_share;
  new_client := fun _ _ _ => Returns (chat_completions_create offline);
  new_storage := Returns (fun _ _ => Returns tt);
|}.

(** The same deployment without an API key. *)
Definition keyless : deployment := {|
  environ := fun name =>
    if String.eqb name "AZURE_OPENAI_ENDPOINT"
    then Some "https://example.openai.azure.com"
    else None;
  os_host := mixed_share;
  new_client := fun _ _ _ => Returns (chat_completions_create offline);
  new_storage := Returns (fun _ _ => Returns tt);
|}.

(** A server that has not served anything yet. *)
Definition idle : server := {| process := clean; outside := [] |}.

(** A request that only carries [sample_guid], under another
    [user_guid]. *)
Definition bootstrap_request : http_request := {|
  method := "POST";
  origin := Some "https://game.example";
  get_json := Some (PDict [("user_input", PStr sample_guid);
                           ("user_guid", PStr "someone-else")]);
|}.

(** A request with the utterance ["hello"]. *)
Definition hello_request : http_request := {|
  method := "POST";
  origin := None;
  get_json := Some (PDict [("user_input", PStr "hello")]);
|}.

(** A request whose body is the JSON array [\[1\]]. *)
Definition array_request : http_request := {|
  method := "POST";
  origin := None;
  get_json := Some (PList [PInt 1]);
|}.

(** A request whose utterance is blank. *)
Definition blank_request : http_request := {|
  method := "POST";
  origin := Some "https://game.example";
  get_json := Some (PDict [("user_input", PStr "   ")]);
|}.

(** ** The tools of the game ([src/agents])

    A tool reads and writes the player's memory through its storage
    manager, draws random numbers and reads the clock.  What it does to
    the outside is recorded in order. *)
Inductive effect : Type :=
  | FxReadJson
  | FxWriteJson (data : pyval)
  | FxRandom
  | FxChoice (n : nat)
  | FxNow.

(** The storage manager, the [random] module and the clock, as functions
    of what the tool has done so far.  [random_index] is the draw behind
    [random.choice], reduced modulo the length of the sequence;
    [datetime_now] is [str(datetime.now())]. *)
Class Surroundings : Type := {
  read_json : list effect -> outcome pyval;
  write_json : list effect -> pyval -> outcome unit;
  random_random : list effect -> float;
  random_index : list effect -> nat;
  datetime_now : list effect -> string;
}.

(** The interpreter on the operands the operations below do not spell
    out: arithmetic and comparison with a float, a string or a container,
    subscripts and membership on anything but a dictionary and a string
    key, slices of anything but a string or a list. *)
Class PyOperators : Type := {
  other_getitem : pyval -> pyval -> outcome pyval;
  other_setitem : pyval -> pyval -> pyval -> outcome pyval;
  other_contains : pyval -> pyval -> outcome bool;
  other_add : pyval -> pyval -> outcome pyval;
  other_iadd : pyval -> pyval -> outcome pyval;
  other_mod : pyval -> pyval -> outcome pyval;
  other_lt : pyval -> pyval -> outcome bool;
  other_eq : pyval -> pyval -> bool;
  other_slice : pyval -> nat -> outcome pyval;
}.

(** An effect on the outside: it is recorded, then answered from what
    happened before it. *)
Definition act {A : Type} (fx : effect) (answer : list effect -> outcome A)
  : M (list effect) A :=
  fun tr => lift_outcome (answer tr) (tr ++ [fx])%list.

Definition attribute_error (v : pyval) (attribute : string) : exn :=
  Exception ("'" ++ type_name v ++ "' object has no attribute '"
             ++ attribute ++ "'").

(** [v.get(key, default)] *)
Definition method_get (v : pyval) (key : string) (default : pyval)
  : outcome pyval :=
  match v with
  | PDict d =>
      Returns (match dict_get key d with Some x => x | None => default end)
  | _ => Raises (attribute_error v "get")
  end.

(** [v.append(x)]; the result is the list after the call. *)
Definition method_append (v x : pyval) : outcome (list pyval) :=
  match v with
  | PList l => Returns (l ++ [x])%list
  | _ => Raises (attribute_error v "append")
  end.

(** [for q in v]: the elements the loop visits. *)
Definition iterate (v : pyval) : outcome (list pyval) :=
  match v with
  | PList l => Returns l
  | PStr s =>
      Returns (map (fun c => PStr (String c EmptyString))
                 (list_ascii_of_string s))
  | PDict d => Returns (map PStr (dict_keys d))
  | _ => Raises (Exception ("'" ++ type_name v ++ "' object is not iterable"))
  end.

(** The integer a value is in arithmetic: [bool] is a subclass of [int]. *)
Definition as_int (v : pyval) : option Z :=
  match v with
  | PInt z => Some z
  | PBool b => Some (if b then 1 else 0)
  | _ => None
  end.

Section Operators.
Context `{PyOperators}.

(** [container\[key\]]; [str] of a [KeyError] is the [repr] of the key. *)
Definition py_getitem (container key : pyval) : outcome pyval :=
  match container, key with
  | PDict d, PStr k =>
      match dict_get k d with
      | Some x => Returns x
      | None => Raises (Exception (repr_str k))
      end
  | _, _ => other_getitem container key
  end.

(** [container\[key\] = x]; the result is the container after the
    assignment. *)
Definition py_setitem (container key x : pyval) : outcome pyval :=
  match container, key with
  | PDict d, PStr k => Returns (PDict (dict_set k x d))
  | _, _ => other_setitem container key x
  end.

(** [key in container] *)
Definition py_contains (key container : pyval) : outcome bool :=
  match container, key with
  | PDict d, PStr k => Returns (dict_has k d)
  | _, _ => other_contains key container
  end.

(** [v\['key'\]] and [v\['key'\] = x] for a literal key. *)
Definition subscript (v : pyval) (key : string) : outcome pyval :=
  py_getitem v (PStr key).

Definition assign (v : pyval) (key : string) (x : pyval) : outcome pyval :=
  py_setitem v (PStr key) x.

(** [a + b], [a += b], [a % n] for an integer literal [n] other than
    zero, [a < b] and [a == b]. *)
Definition py_add (a b : pyval) : outcome pyval :=
  match as_int a, as_int b with
  | Some x, Some y => Returns (PInt (x + y))
  | _, _ => other_add a b
  end.

Definition py_iadd (a b : pyval) : outcome pyval :=
  match as_int a, as_int b with
  | Some x, Some y => Returns (PInt (x + y))
  | _, _ => other_iadd a b
  end.

Definition py_mod (a : pyval) (n : Z) : outcome pyval :=
  match as_int a with
  | Some x => Returns (PInt (x mod n))
  | None => other_mod a (PInt n)
  end.

Definition py_lt (a b : pyval) : outcome bool :=
  match as_int a, as_int b with
  | Some x, Some y => Returns (x <? y)
  | _, _ => other_lt a b
  end.

Definition py_eq (a b : pyval) : bool :=
  match as_int a, as_int b with
  | Some x, Some y => x =? y
  | _, _ => other_eq a b
  end.

(** [v\[:n\]] *)
Definition slice_to (n : nat) (v : pyval) : outcome pyval :=
  match v with
  | PStr s => Returns (PStr (string_take n s))
  | PList l => Returns (PList (take n l))
  | _ => other_slice v n
  end.

(** [stats\[key\] += amount]; the result is [stats] after the statement. *)
Definition increase {S : Type} (stats : pyval) (key : string)
    (amount : pyval) : M S pyval :=
  let* old := lift_outcome (subscript stats key) in
  let* new := lift_outcome (py_iadd old amount) in
  lift_outcome (assign stats key new).
End Operators.

(** [d.get(key, default)] on a dictionary written in the code, whose keys
    are strings: a list or a dictionary cannot be hashed, any other key
    is not there. *)
Definition literal_get (d : list (string * pyval)) (key default : pyval)
  : outcome pyval :=
  match key with
  | PStr k =>
      Returns (match dict_get k d with Some x => x | None => default end)
  | PList _ | PDict _ =>
      Raises (Exception ("unhashable type: '" ++ type_name key ++ "'"))
  | _ => Returns default
  end.

Section Tools.
Context `{PyRuntime} `{PyOperators} `{Surroundings}.

(** [random.choice(l)] on a list of strings. *)
Definition random_choice (l : list string) : M (list effect) pyval :=
  act (FxChoice (length l))
    (fun tr =>
       match l with
       | [] => Raises (Exception "Cannot choose from an empty sequence")
       | _ => Returns (PStr (nth (random_index tr mod length l)%nat l ""))
       end).

(** *** [CombatNarratorAgent] *)

(** The statistics of a player who has not fought yet. *)
Definition new_combat_stats : list (string * pyval) :=
  [("total_damage_dealt", PInt 0); ("total_damage_taken", PInt 0);
   ("critical_hits", PInt 0); ("misses", PInt 0);
   ("victories", PInt 0); ("defeats", PInt 0);
   ("special_moves_used", PInt 0)].

(** What [update_combat_stats] is there to count: the events whose damage
    is dealt damage, and the counter of an event. *)
Definition damaging_events : list string :=
  ["attack"; "critical"; "special_move"].

Definition event_counters : list (string * string) :=
  [("critical", "critical_hits"); ("miss", "misses");
   ("victory", "victories"); ("death", "defeats");
   ("special_move", "special_moves_used")].

(** What an event adds to the statistic [key]. *)
Definition stat_gain (combat_event : string) (damage : Z) (key : string) : Z :=
  (if String.eqb key "total_damage_dealt"
      && existsb (String.eqb combat_event) damaging_events
   then damage else 0)
  + match dict_get combat_event event_counters with
    | Some counter => if String.eqb key counter then 1 else 0
    | None => 0
    end.

(** [CombatNarratorAgent.update_combat_stats(combat_event, damage)] *)
Definition update_combat_stats (combat_event damage : pyval)
  : M (list effect) unit :=
  let* memory_data := act FxReadJson read_json in
  let* combat_stats :=
    lift_outcome
      (method_get memory_data "combat_stats" (PDict new_combat_stats)) in
  let* combat_stats :=
    if eq_str combat_event "attack" then
      increase combat_stats "total_damage_dealt" damage
    else if eq_str combat_event "critical" then
      let* combat_stats := increase combat_stats "critical_hits" (PInt 1) in
      increase combat_stats "total_damage_dealt" damage
    else if eq_str combat_event "miss" then
      increase combat_stats "misses" (PInt 1)
    else if eq_str combat_event "victory" then
      increase combat_stats "victories" (PInt 1)
    else if eq_str combat_event "death" then
      increase combat_stats "defeats" (PInt 1)
    else if eq_str combat_event "special_move" then
      let* combat_stats :=
        increase combat_stats "special_moves_used" (PInt 1) in
      increase combat_stats "total_damage_dealt" damage
    else ret combat_stats in
  let* memory_data :=
    lift_outcome (assign memory_data "combat_stats" combat_stats) in
  act (FxWriteJson memory_data) (fun tr => write_json tr memory_data).

(** *** [GameWorldAgent] *)

Definition weather_types : list string :=
  ["clear"; "rain"; "storm"; "fog"; "snow"; "sandstorm"].

Definition seasons : list string := ["spring"; "summer"; "autumn"; "winter"].

(** [seasons.index(v)]: the message of the [ValueError] holds the [repr]
    of the value looked for. *)
Definition seasons_index (v : pyval) : outcome nat :=
  let position (s : string) :=
    list_find (fun x => bool_decide (x = s)) seasons in
  match v with
  | PStr s =>
      match position s with
      | Some (i, _) => Returns i
      | None => Raises (Exception (repr_str s ++ " is not in list"))
      end
  | _ => Raises (Exception (py_str v ++ " is not in list"))
  end.

#[local] Set Warnings "-inexact-float".

(** The block of [advance_time] that draws the events of the hour. *)
Definition time_events (time_of_day : pyval) : M (list effect) (list pyval) :=
  let draw (chance : float) (name : string) : M (list effect) (list pyval) :=
    let* x := act FxRandom (fun tr => Returns (random_random tr)) in
    ret (if PrimFloat.ltb x chance then [PStr name] else []) in
  if py_eq time_of_day (PInt 0) then draw 0.3%float "mysterious_visitor"
  else if py_eq time_of_day (PInt 6) then draw 0.2%float "merchant_arrival"
  else if py_eq time_of_day (PInt 18)
       then draw 0.25%float "monster_activity_increase"
       else ret [].

(** The block of [advance_time] that starts a new day, and a new season
    every 30 days. *)
Definition next_day (world_state : pyval) : M (list effect) pyval :=
  let* day_count :=
    lift_outcome (method_get world_state "day_count" (PInt 1)) in
  let* day_count := lift_outcome (py_add day_count (PInt 1)) in
  let* world_state :=
    lift_outcome (assign world_state "day_count" day_count) in
  let* day_count := lift_outcome (subscript world_state "day_count") in
  let* day_of_season := lift_outcome (py_mod day_count 30) in
  if py_eq day_of_season (PInt 0) then
    let* season :=
      lift_outcome (method_get world_state "season" (PStr "spring")) in
    let* current_season_idx := lift_outcome (seasons_index season) in
    lift_outcome
      (assign world_state "season"
         (PStr (nth ((current_season_idx + 1) mod 4)%nat seasons "")))
  else ret world_state.

(** The end of [advance_time]: the report on the world as it was
    written. *)
Definition time_report (world_state : pyval) (events : list pyval)
  : M (list effect) string :=
  let* time_of_day := lift_outcome (subscript world_state "time_of_day") in
  let* day_count := lift_outcome (subscript world_state "day_count") in
  let* season := lift_outcome (subscript world_state "season") in
  ret (json_dumps
         (PDict [("status", PStr "success");
                 ("time_of_day", time_of_day);
                 ("day_count", day_count);
                 ("season", season);
                 ("triggered_events", PList events);
                 ("description",
                  PStr ("Time advances to hour " ++ py_str time_of_day
                        ++ " of day " ++ py_str day_count ++ " in "
                        ++ py_str season ++ "."))])).

(** [GameWorldAgent.advance_time(parameters)] *)
Definition advance_time (parameters : pyval) : M (list effect) string :=
  let* hours := lift_outcome (method_get parameters "hours" (PInt 1)) in
  let* memory_data := act FxReadJson read_json in
  let* world_state :=
    lift_outcome (method_get memory_data "world_state" (PDict [])) in
  if negb (truthy world_state)
  then ret (json_dumps (PDict [("error", PStr "No world state found")]))
  else
    let* time_of_day :=
      lift_outcome (method_get world_state "time_of_day" (PInt 12)) in
    let* time_of_day := lift_outcome (py_add time_of_day hours) in
    let* time_of_day := lift_outcome (py_mod time_of_day 24) in
    let* world_state :=
      lift_outcome (assign world_state "time_of_day" time_of_day) in
    let* time_of_day := lift_outcome (subscript world_state "time_of_day") in
    let* day_changes := lift_outcome (py_lt time_of_day hours) in
    let* world_state :=
      if day_changes : bool then next_day world_state else ret world_state in
    let* time_of_day := lift_outcome (subscript world_state "time_of_day") in
    let* events := time_events time_of_day in
    let* world_state :=
      lift_outcome (assign world_state "active_events" (PList events)) in
    let* memory_data :=
      lift_outcome (assign memory_data "world_state" world_state) in
    act (FxWriteJson memory_data) (fun tr => write_json tr memory_data) ;;;
    time_report world_state events.

Definition weather_effects_table : list (string * pyval) :=
  [("rain", PDict [("visibility", PInt (-2)); ("fire_damage", PInt (-50));
                   ("water_magic", PInt 20)]);
   ("storm", PDict [("visibility", PInt (-4)); ("lightning_chance", PInt 30);
                    ("flying_disabled", PBool true)]);
   ("fog", PDict [("visibility", PInt (-5)); ("stealth", PInt 30);
                  ("ranged_accuracy", PInt (-20))]);
   ("snow", PDict [("movement_speed", PInt (-20)); ("ice_magic", PInt 30);
                   ("fire_resistance", PInt (-10))]);
   ("sandstorm", PDict [("visibility", PInt (-3)); ("earth_magic", PInt 20);
                        ("healing", PInt (-10))]);
   ("clear", PDict [("visibility", PInt 0); ("all_magic", PInt 5);
                    ("morale", PInt 10)])].

(** [GameWorldAgent.change_weather(parameters)] *)
Definition change_weather (parameters : pyval) : M (list effect) string :=
  let* new_weather := lift_outcome (method_get parameters "weather" PNone) in
  let* new_weather :=
    if negb (truthy new_weather) then random_choice weather_types
    else ret new_weather in
  let* memory_data := act FxReadJson read_json in
  let* world_state :=
    lift_outcome (method_get memory_data "world_state" (PDict [])) in
  let* old_weather :=
    lift_outcome (method_get world_state "weather" (PStr "clear")) in
  let* world_state :=
    lift_outcome (assign world_state "weather" new_weather) in
  let* weather_effects :=
    lift_outcome (literal_get weather_effects_table new_weather (PDict [])) in
  let* memory_data :=
    lift_outcome (assign memory_data "world_state" world_state) in
  act (FxWriteJson memory_data) (fun tr => write_json tr memory_data) ;;;
  ret (json_dumps
         (PDict [("status", PStr "success");
                 ("old_weather", old_weather);
                 ("new_weather", new_weather);
                 ("weather_effects", weather_effects);
                 ("description",
                  PStr ("The weather shifts from " ++ py_str old_weather
                        ++ " to " ++ py_str new_weather ++ "."))])).

(** *** [NPCDialogueAgent] *)

(** [NPCDialogueAgent.update_npc_memory(npc_name, player_action,
    dialogue_response)] *)
Definition update_npc_memory (npc_name player_action dialogue_response : pyval)
  : M (list effect) unit :=
  let* memory_data := act FxReadJson read_json in
  let* npcs := lift_outcome (method_get memory_data "npcs" (PDict [])) in
  let* known := lift_outcome (py_contains npc_name npcs) in
  if known : bool then
    let* npc_data := lift_outcome (py_getitem npcs npc_name) in
    let* dialogue_text :=
      lift_outcome (method_get dialogue_response "dialogue" (PStr "")) in
    let* dialogue_text :=
      if truthy dialogue_text then lift_outcome (slice_to 100 dialogue_text)
      else ret dialogue_text in
    let* emotion :=
      lift_outcome (method_get dialogue_response "emotion" (PStr "neutral")) in
    let* timestamp := act FxNow (fun tr => Returns (datetime_now tr)) in
    let memory_entry :=
      PDict [("action", player_action); ("response", dialogue_text);
             ("emotion", emotion); ("timestamp", PStr timestamp)] in
    let* memories :=
      lift_outcome (method_get npc_data "memories" (PList [])) in
    let* memories := lift_outcome (method_append memories memory_entry) in
    let* npc_data :=
      lift_outcome (assign npc_data "memories" (PList (last_n 10 memories))) in
    let* npcs := lift_outcome (py_setitem npcs npc_name npc_data) in
    let* memory_data := lift_outcome (assign memory_data "npcs" npcs) in
    act (FxWriteJson memory_data) (fun tr => write_json tr memory_data)
  else ret tt.

(** *** [QuestGeneratorAgent] *)

Definition objective (description type : string) : pyval :=
  PDict [("description", PStr description); ("type", PStr type)].

Definition main_quest_arc : list pyval :=
  [PDict [("title", PStr "The Awakening");
          ("narrative",
           PStr "Ancient forces stir. A prophecy speaks of a chosen hero...");
          ("objectives",
           PList [objective "Speak with the Elder Sage" "dialogue";
                  objective "Retrieve the Prophecy Scroll" "fetch";
                  objective "Activate the Ancient Beacon" "interact"])];
   PDict [("title", PStr "Gathering Allies");
          ("narrative",
           PStr "The darkness grows. You must unite the fractured kingdoms...");
          ("objectives",
           PList [objective "Gain favor with three factions" "reputation";
                  objective "Recruit a legendary warrior" "recruit";
                  objective "Forge an alliance treaty" "diplomacy"])];
   PDict [("title", PStr "The First Trial");
          ("narrative",
           PStr "To prove your worth, you must face the Trial of Elements...");
          ("objectives",
           PList [objective "Defeat the Fire Guardian" "boss";
                  objective "Solve the Water Temple puzzle" "puzzle";
                  objective "Survive the Earth Labyrinth" "survival"])];
   PDict [("title", PStr "The Shadow Rises");
          ("narrative",
           PStr "The enemy reveals itself. War comes to the realm...");
          ("objectives",
           PList [objective "Defend the capital from invasion" "defense";
                  objective "Infiltrate the enemy stronghold" "stealth";
                  objective "Discover the enemy's true identity"
                    "investigate"])];
   PDict [("title", PStr "The Final Battle");
          ("narrative",
           PStr ("All paths lead here. "
                 ++ "The fate of the world hangs in balance..."));
          ("objectives",
           PList [objective "Gather the legendary artifacts" "collect";
                  objective "Rally your allies for battle" "preparation";
                  objective "Defeat the Ancient Evil" "final_boss"])]].

(** [len(\[q for q in quest_history if q.get('type') == 'main'\])] on the
    elements the comprehension visits; the first element without a [get]
    method raises. *)
Fixpoint main_quests (quest_history : list pyval) : outcome nat :=
  match quest_history with
  | [] => Returns 0%nat
  | q :: rest =>
      match method_get q "type" PNone with
      | Raises e => Raises e
      | Returns type =>
          match main_quests rest with
          | Raises e => Raises e
          | Returns n => Returns (if eq_str type "main" then S n else n)
          end
      end
  end.

(** [QuestGeneratorAgent.generate_main_quest(context, quest_history)] *)
Definition generate_main_quest (context quest_history : pyval)
  : outcome pyval :=
  match iterate quest_history with
  | Raises e => Raises e
  | Returns visited =>
      match main_quests visited with
      | Raises e => Raises e
      | Returns n =>
          let chapter := Z.of_nat n + 1 in
          let quest_data :=
            match
              nth_error main_quest_arc
                (Z.to_nat (Z.min (chapter - 1)
                             (Z.of_nat (length main_quest_arc) - 1)))
            with
            | Some (PDict quest_data) => quest_data
            | _ => []
            end in
          Returns
            (PDict
               [("id", PStr ("main_quest_chapter_" ++ str_of_Z chapter));
                ("type", PStr "main");
                ("chapter", PInt chapter);
                ("title", py_get "title" quest_data);
                ("narrative", py_get "narrative" quest_data);
                ("objectives", py_get "objectives" quest_data);
                ("rewards",
                 PDict [("experience", PInt (1000 * chapter));
                        ("gold", PInt (500 * chapter));
                        ("items",
                         PList [PStr ("legendary_item_tier_"
                                      ++ str_of_Z chapter)]);
                        ("story_progression", PBool true)]);
                ("level_requirement", PInt (chapter * 10));
                ("time_limit", PNone);
                ("consequences",
                 PDict [("success",
                         PStr ("Chapter " ++ str_of_Z (chapter + 1)
                               ++ " unlocked"));
                        ("failure", PStr "The darkness grows stronger")])])
      end
  end.

(** [QuestGeneratorAgent.get_quest_history()] *)
Definition get_quest_history : M (list effect) pyval :=
  let* memory_data := act FxReadJson read_json in
  lift_outcome (method_get memory_data "quest_history" (PList [])).

(** [QuestGeneratorAgent.save_quest(quest)].  The quest is changed in
    place; the result is the quest after the call, as the caller sees
    it. *)
Definition save_quest (quest : pyval) : M (list effect) pyval :=
  let* memory_data := act FxReadJson read_json in
  let* active_quests :=
    lift_outcome (method_get memory_data "active_quests" (PList [])) in
  let* received_at := act FxNow (fun tr => Returns (datetime_now tr)) in
  let* quest := lift_outcome (assign quest "received_at" (PStr received_at)) in
  let* quest := lift_outcome (assign quest "status" (PStr "active")) in
  let* active_quests := lift_outcome (method_append active_quests quest) in
  let* memory_data :=
    lift_outcome (assign memory_data "active_quests" (PList active_quests)) in
  act (FxWriteJson memory_data) (fun tr => write_json tr memory_data) ;;;
  ret quest.
End Tools.

(** An interpreter for integers, strings and dictionaries: whatever is
    left to [PyOperators] raises. *)
Definition integers_only : PyOperators := {|
  other_getitem := fun _ _ => Raises (Exception "unsupported operand");
  other_setitem := fun _ _ _ => Raises (Exception "unsupported operand");
  other_contains := fun _ _ => Raises (Exception "unsupported operand");
  other_add := fun _ _ => Raises (Exception "unsupported operand");
  other_iadd := fun _ _ => Raises (Exception "unsupported operand");
  other_mod := fun _ _ => Raises (Exception "unsupported operand");
  other_lt := fun _ _ => Raises (Exception "unsupported operand");
  other_eq := fun _ _ => false;
  other_slice := fun _ _ => Raises (Exception "unsupported operand");
|}.

(** What a store that started with [initial] holds after [tr]. *)
Definition last_written (initial : pyval) (tr : list effect) : pyval :=
  fold_left (fun held fx =>
               match fx with FxWriteJson data => data | _ => held end)
    tr initial.

(** A store that keeps what is written to it, random draws that are
    always the lowest and a clock that stands still. *)
Definition quiet (initial : pyval) : Surroundings := {|
  read_json := fun tr => Returns (last_written initial tr);
  write_json := fun _ _ => Returns tt;
  random_random := fun _ => PrimFloat.zero;
  random_index := fun _ => 0%nat;
  datetime_now := fun _ => "2024-05-01 12:00:00.000000";
|}.

(** Whether an entry of the quest history is a main quest. *)
Definition is_main_quest (q : pyval) : bool :=
  match q with
  | PDict d => eq_str (py_get "type" d) "main"
  | _ => false
  end.

(** A storage is reliable when writing succeeds and a read that follows
    a write returns what was written. *)
Definition reliable `{Surroundings} : Prop :=
  (forall tr data, write_json tr data = Returns tt)
  /\ forall tr data, read_json (tr ++ [FxWriteJson data])%list = Returns data.

(** The memory of a player on the last evening of winter. *)
Definition late_winter : list (string * pyval) :=
  [("world_state",
    PDict [("time_of_day", PInt 23); ("day_count", PInt 29);
           ("season", PStr "winter")])].

(** The memory of a player who knows Aldric, an innkeeper with ten
    memories already. *)
Definition aldric : list (string * pyval) :=
  [("type", PStr "innkeeper");
   ("memories", PList (replicate 10 (PDict [("action", PStr "greet")])))].

Definition tavern : list (string * pyval) :=
  [("npcs", PDict [("Aldric", PDict aldric)])].

(** The quest history of a player who has completed six main quests and
    a side quest. *)
Definition veteran : list pyval :=
  PDict [("type", PStr "side")]
  :: replicate 6 (PDict [("type", PStr "main")]).

(** The memory of a player with one main quest in the history. *)
Definition novice : list (string * pyval) :=
  [("quest_history", PList [PDict [("type", PStr "main")]])].

(** * Properties *)

(** ** Dictionaries *)

Section DictFacts.
Context {V : Type}.
Implicit Types (d : list (string * V)) (k : string) (v : V).

Lemma dict_get_set_eq k v d : dict_get k (dict_set k v d) = Some v.
Proof.
  induction d as [|[k' v'] d IH]; simpl.
  - by rewrite String.eqb_refl.
  - destruct (String.eqb k' k) eqn:E; simpl; rewrite E; [done | apply IH].
Qed.

Lemma dict_get_set_ne k k' v d :
  k ≠ k' -> dict_get k' (dict_set k v d) = dict_get k' d.
Proof.
  intros Hne. induction d as [|[k0 v0] d IH]; simpl.
  - destruct (String.eqb_spec k k'); [done | done].
  - destruct (String.eqb_spec k0 k) as [->|Hk]; simpl.
    + destruct (String.eqb_spec k k'); [done | done].
    + destruct (String.eqb_spec k0 k'); [done | apply IH].
Qed.

Lemma dict_get_None_keys k d : dict_get k d = None <-> k ∉ dict_keys d.
Proof.
  induction d as [|[k' v'] d IH]; simpl.
  - split; [intros _; apply not_elem_of_nil | done].
  - rewrite not_elem_of_cons. destruct (String.eqb_spec k' k) as [->|Hk].
    + split; [done | intros [? _]; done].
    + rewrite IH. split; [intros ?; split; [congruence | done] | tauto].
Qed.

Lemma dict_keys_set k v d :
  dict_keys (dict_set k v d)
  = if dict_has k d then dict_keys d else (dict_keys d ++ [k])%list.
Proof.
  unfold dict_has. induction d as [|[k' v'] d IH]; simpl; [done |].
  destruct (String.eqb k' k) eqn:E; simpl; [done |].
  rewrite IH. by destruct (dict_get k d).
Qed.

Lemma dict_set_NoDup k v d :
  NoDup (dict_keys d) -> NoDup (dict_keys (dict_set k v d)).
Proof.
  intros Hd. rewrite dict_keys_set. unfold dict_has.
  destruct (dict_get k d) eqn:E; [done |].
  apply NoDup_app. split; [done |]. split; [| apply NoDup_singleton].
  intros x Hx ->%list_elem_of_singleton. by apply dict_get_None_keys in E.
Qed.


End DictFacts.

(** ** Conversation turns *)

(** C7: normalising a conversation turn never fails and yields a
    dictionary with a role and a content, the content always a string.  A
    [None] entry becomes an empty user turn; in a dictionary a missing role
    becomes ["user"] (a role that is present is kept), a missing or [None]
    content becomes the empty string and any other content its [str]; any
    other value becomes a user turn holding its [str]. *)
Theorem ensure_string_content_total `{PyRuntime} (message : pyval) :
  exists turn role content,
    ensure_string_content message = PDict turn
    /\ dict_get "role" turn = Some role
    /\ dict_get "content" turn = Some (PStr content)
    /\ match message with
       | PNone => turn = [("role", PStr "user"); ("content", PStr "")]
       | PDict d =>
           role = default (PStr "user") (dict_get "role" d)
           /\ content = match dict_get "content" d with
                        | None | Some PNone => ""
                        | Some c => py_str c
                        end
       | _ => role = PStr "user" /\ content = py_str message
       end.
Proof.
  destruct message as [| b | z | f | s | l | d];
    try (eexists _, _, _; repeat split; reflexivity).
  unfold ensure_string_content, dict_has.
  assert (Hc : forall c : pyval,
             (if is_none c then "" else py_str c)
             = match c with PNone => "" | _ => py_str c end)
    by (by intros []).
  destruct (dict_get "role" d) as [r|] eqn:Er.
  - destruct (dict_get "content" d) as [c|] eqn:Ec;
      eexists _, _, _; (split; [reflexivity |]);
      rewrite dict_get_set_eq, dict_get_set_ne, Er by done;
      rewrite ?Hc; done.
  - rewrite (dict_get_set_ne "role" "content") by done.
    destruct (dict_get "content" d) as [c|] eqn:Ec;
      eexists _, _, _; (split; [reflexivity |]);
      rewrite dict_get_set_eq, !dict_get_set_ne, dict_get_set_eq by done;
      rewrite ?Hc; done.
Qed.

(** ** Strings *)

Lemma string_app_cons (c : ascii) (a b : string) :
  String c a ++ b = String c (a ++ b).
Proof. reflexivity. Qed.

Lemma string_app_nil_l (b : string) : "" ++ b = b.
Proof. reflexivity. Qed.

Lemma string_app_assoc (a b c : string) : (a ++ b) ++ c = a ++ b ++ c.
Proof.
  induction a as [|x a IH]; [done |].
  rewrite !string_app_cons. f_equal. apply IH.
Qed.

Lemma string_length_app (a b : string) :
  String.length (a ++ b) = (String.length a + String.length b)%nat.
Proof.
  induction a as [|x a IH]; [done |].
  rewrite string_app_cons. simpl. f_equal. apply IH.
Qed.

(** A prefix of [x] is one of [x ++ y], and what follows it grows by [y]. *)
Lemma prefix_app_r (sep x y : string) :
  String.prefix sep x = true ->
  String.prefix sep (x ++ y) = true
  /\ string_drop (String.length sep) (x ++ y)
     = string_drop (String.length sep) x ++ y.
Proof.
  revert x. induction sep as [|c sep IH]; intros x; simpl.
  - intros _. split; [by destruct (x ++ y) | done].
  - destruct x as [|c' x]; [done |]. rewrite string_app_cons. simpl.
    destruct (ascii_dec c c'); [apply IH | done].
Qed.

Lemma prefix_length (sep x : string) :
  String.prefix sep x = true -> (String.length sep <= String.length x)%nat.
Proof.
  revert x. induction sep as [|c sep IH]; intros x; simpl; [lia |].
  destruct x as [|c' x]; simpl; [done |].
  destruct (ascii_dec c c'); [| done]. intros ?%IH. lia.
Qed.

(** A prefix of [x ++ y] that fits in [x] is a prefix of [x]. *)
Lemma prefix_app_inv (sep x y : string) :
  (String.length sep <= String.length x)%nat ->
  String.prefix sep (x ++ y) = true -> String.prefix sep x = true.
Proof.
  revert x. induction sep as [|c sep IH]; intros x; simpl.
  - by destruct x.
  - destruct x as [|c' x]; [simpl; lia |]. rewrite string_app_cons. simpl.
    destruct (ascii_dec c c'); [| done]. intros ?. apply IH. lia.
Qed.

Lemma partition_length (sep x a b : string) :
  partition sep x = Some (a, b) ->
  (String.length sep <= String.length x)%nat.
Proof.
  revert a b. induction x as [|c x IH]; intros a b.
  - cbn [partition]. destruct (String.prefix sep "") eqn:E; [| done].
    intros _. by apply prefix_length.
  - cbn [partition]. destruct (String.prefix sep (String c x)) eqn:E.
    + intros _. by apply prefix_length.
    + destruct (partition sep x) as [[a' b']|] eqn:E'; [| done].
      intros _. specialize (IH _ _ eq_refl). simpl. lia.
Qed.

(** The first occurrence of the separator in [x] is the first one in
    [x ++ y]. *)
Lemma partition_app (sep x y a b : string) :
  partition sep x = Some (a, b) -> partition sep (x ++ y) = Some (a, b ++ y).
Proof.
  revert a b. induction x as [|c x IH]; intros a b.
  - cbn [partition]. destruct (String.prefix sep "") eqn:E; [| done].
    intros [= <- <-]. destruct sep; [| done].
    rewrite !string_app_nil_l. by destruct y.
  - cbn [partition]. destruct (String.prefix sep (String c x)) eqn:E.
    + intros [= <- <-].
      destruct (prefix_app_r _ _ y E) as [E1 E2].
      rewrite string_app_cons in *.
      cbn [partition]. by rewrite E1, E2.
    + destruct (partition sep x) as [[a' b']|] eqn:E'; [| done].
      intros [= <- <-].
      rewrite string_app_cons.
      cbn [partition].
      destruct (String.prefix sep (String c (x ++ y))) eqn:E2.
      * rewrite <- string_app_cons in E2.
        apply (prefix_app_inv sep (String c x) y) in E2; [congruence |].
        apply partition_length in E'. simpl. lia.
      * by rewrite (IH _ _ eq_refl).
Qed.

Lemma split_fuel_None (fuel : nat) (sep s : string) :
  partition sep s = None -> split_fuel fuel sep s = [s].
Proof. intros E. destruct fuel; simpl; by rewrite E. Qed.

(** The pieces of a string with exactly one separator. *)
Lemma split_once (sep a b : string) :
  partition sep (a ++ sep) = Some (a, "") ->
  partition sep b = None ->
  sep <> "" ->
  split sep (a ++ sep ++ b) = [a; b].
Proof.
  intros Ha Hb Hsep. unfold split.
  pose proof (partition_app _ _ b _ _ Ha) as E.
  rewrite string_app_assoc, string_app_nil_l in E.
  destruct (String.length (a ++ sep ++ b)) as [|n] eqn:El.
  - rewrite !string_length_app in El. destruct sep; [done | simpl in El; lia].
  - cbn [split_fuel]. rewrite E. by rewrite split_fuel_None.
Qed.

(** ** Response codec *)

(** C6 (amended): decoding [narrative + "|||GAME_DATA|||" +
    json(structured)] gives back the narrative and the structured object
    when the narrative has no leading or trailing whitespace, the first
    delimiter of the encoded text is the one the encoding put there, the
    serialised object does not contain the delimiter, and [json.loads]
    reads the serialised object back. *)
Theorem decode_encode `{PyRuntime} (narrative : string) (structured : pyval) :
  strip narrative = narrative ->
  partition GAME_DATA (narrative ++ GAME_DATA) = Some (narrative, "") ->
  partition GAME_DATA (json_dumps structured) = None ->
  json_loads (strip (json_dumps structured)) = Some structured ->
  parse_response_with_game_data (encode_response narrative structured)
  = (narrative, structured).
Proof.
  intros Hstrip Hfirst Hfree Hloads.
  unfold parse_response_with_game_data, encode_response.
  destruct (String.eqb_spec (narrative ++ GAME_DATA ++ json_dumps structured)
              "") as [E|_].
  - apply (f_equal String.length) in E.
    rewrite !string_length_app in E. simpl in E. lia.
  - rewrite split_once by done. by rewrite Hstrip, Hloads.
Qed.

(** The round trip of a reply with a one-field payload. *)
Lemma decode_encode_witness :
  @parse_response_with_game_data python
    (@encode_response python "You see a door." (PDict [("door", PInt 1)]))
  = ("You see a door.", PDict [("door", PInt 1)]).
Proof.
  apply (@decode_encode python "You see a door." (PDict [("door", PInt 1)]));
    vm_compute; reflexivity.
Defined.

(** C6 as stated fails: the codec strips the narrative, and it cuts the
    serialised object at a delimiter inside it, which leaves text that is
    not JSON and decodes to the empty object. *)
Lemma decode_encode_counterexample :
  fst (@parse_response_with_game_data python
         (@encode_response python " hi" (PDict [])))
  <> " hi"
  /\ snd (@parse_response_with_game_data python
            (@encode_response python "hi"
               (PDict [("note", PStr "|||GAME_DATA|||")])))
     <> PDict [("note", PStr "|||GAME_DATA|||")].
Proof. split; vm_compute; discriminate. Qed.

(** ** The registry *)






(** ** Reasoning about computations *)

Section Mspec.
Context {S : Type} (R : S -> S -> Prop) `{!PreOrder R}.

Lemma mspec_ret {A : Type} (Q : A -> Prop) (a : A) : Q a -> mspec R Q (ret a).
Proof. intros HQ st. simpl. split; [reflexivity | done]. Qed.

Lemma mspec_raise {A : Type} (Q : A -> Prop) (e : exn) : mspec R Q (raise e).
Proof. intros st. simpl. reflexivity. Qed.

Lemma mspec_bind {A B : Type} (P : A -> Prop) (Q : B -> Prop) (m : M S A)
    (k : A -> M S B) :
  mspec R P m -> (forall a, P a -> mspec R Q (k a)) -> mspec R Q (bind m k).
Proof.
  intros Hm Hk st. unfold bind. specialize (Hm st).
  destruct (m st) as [[a | e |] st1]; [| done | done].
  destruct Hm as [HR HP]. specialize (Hk a HP st1).
  destruct (k a st1) as [[b | e |] st2].
  - destruct Hk. split; [by etrans | done].
  - by etrans.
  - by etrans.
Qed.

Lemma mspec_weaken {A : Type} (P Q : A -> Prop) (m : M S A) :
  mspec R P m -> (forall a, P a -> Q a) -> mspec R Q m.
Proof.
  intros Hm HPQ st. specialize (Hm st).
  destruct (m st) as [[a | e |] st1]; [| done | done].
  destruct Hm. split; [done | by apply HPQ].
Qed.

Lemma mspec_try_except {A : Type} (Q : A -> Prop) (m : M S A)
    (handler : string -> M S A) :
  mspec R Q m -> (forall msg, mspec R Q (handler msg)) ->
  mspec R Q (try_except m handler).
Proof.
  intros Hm Hh st. unfold try_except. specialize (Hm st).
  destruct (m st) as [[a | [msg | msg] |] st1]; [done | | done | done].
  specialize (Hh msg st1).
  destruct (handler msg st1) as [[b | e |] st2].
  - destruct Hh. split; [by etrans | done].
  - by etrans.
  - by etrans.
Qed.

Lemma mspec_get_state (Q : S -> Prop) :
  (forall st, Q st) -> mspec R Q get_state.
Proof. intros HQ st. simpl. split; [reflexivity | done]. Qed.

Lemma mspec_modify (Q : unit -> Prop) (f : S -> S) :
  (forall st, R st (f st)) -> Q tt -> mspec R Q (modify f).
Proof. intros Hf HQ st. simpl. done. Qed.

Lemma mspec_lift_outcome {A : Type} (Q : A -> Prop) (o : outcome A) :
  (forall a, o = Returns a -> Q a) -> mspec R Q (lift_outcome o).
Proof.
  intros HQ st. destruct o as [a | e]; simpl; [| reflexivity].
  split; [reflexivity | by apply HQ].
Qed.
End Mspec.

Lemma mspec_call {A : Type} (R : state -> state -> Prop) `{!PreOrder R}
    (Q : A -> Prop) (ev : event) (answer : list event -> outcome A) :
  (forall st, R st (emit ev st)) -> (forall a, Q a) -> mspec R Q (call ev answer).
Proof.
  intros Hev HQ st. unfold call.
  destruct (answer (trace st)) as [a | e]; simpl; [done | done].
Qed.

Lemma mspec_bind_any {S A B : Type} (R : S -> S -> Prop) `{!PreOrder R}
    (Q : B -> Prop) (m : M S A) (k : A -> M S B) :
  mspec R (fun _ => True) m -> (forall a, mspec R Q (k a)) ->
  mspec R Q (bind m k).
Proof. intros Hm Hk. apply (mspec_bind R (fun _ => True)); auto. Qed.

(** One step through the syntax of a computation. *)
Ltac mspec_step :=
  lazymatch goal with
  | |- PreOrder _ => typeclasses eauto
  | |- forall _, _ => intros
  | |- mspec _ _ (ret _) => apply mspec_ret
  | |- mspec _ _ (raise _) => apply mspec_raise
  | |- mspec _ _ get_state => apply mspec_get_state
  | |- mspec _ _ (modify _) => apply mspec_modify
  | |- mspec _ _ (lift_outcome _) => apply mspec_lift_outcome
  | |- mspec _ _ (call _ _) => apply mspec_call
  | |- mspec _ _ (try_except _ _) => apply mspec_try_except
  | |- mspec _ _ (bind _ _) => apply mspec_bind_any
  | |- mspec _ _ (if ?b then _ else _) => destruct b
  | |- mspec _ _ (match ?x with _ => _ end) => destruct x
  | |- mspec _ _ (let _ := _ in _) => lazy zeta
  end.

(** ** Identity signals *)

Lemma is_hex_not_space (c : ascii) : is_hex c = true -> is_space c = false.
Proof.
  destruct c as [[] [] [] [] [] [] [] []]; vm_compute; congruence.
Qed.

Lemma no_space_app (a b : string) :
  no_space (a ++ b) = no_space a && no_space b.
Proof.
  induction a as [|c a IH]; [done |].
  rewrite string_app_cons. simpl. rewrite IH. by destruct (is_space c).
Qed.

Lemma string_take_app (a b : string) :
  string_take (String.length a) (a ++ b) = a.
Proof.
  induction a as [|c a IH]; [by destruct b |].
  rewrite string_app_cons. simpl. f_equal. apply IH.
Qed.

Lemma hexes_app (n : nat) (s r : string) :
  hexes n s = Some r ->
  exists h, s = h ++ r /\ String.length h = n /\ no_space h = true.
Proof.
  revert s. induction n as [|n IH]; intros s; simpl.
  - intros [= ->]. by exists "".
  - destruct s as [|c s]; [done |].
    destruct (is_hex c) eqn:Hc; [| done].
    intros (h & -> & <- & Hh)%IH. exists (String c h).
    split; [done |]. split; [done |]. simpl.
    by rewrite (is_hex_not_space c Hc), Hh.
Qed.

Lemma hex_groups_app (groups : list nat) (s r : string) :
  hex_groups groups s = Some r ->
  exists b, s = b ++ r /\ String.length b = groups_length groups
            /\ no_space b = true.
Proof.
  revert s. induction groups as [|n groups IH]; intros s.
  - intros [= ->]. by exists "".
  - destruct groups as [|m groups].
    + apply hexes_app.
    + change (groups_length (n :: m :: groups))
        with (n + 1 + groups_length (m :: groups))%nat.
      cbn [hex_groups].
      destruct (hexes n s) as [r1|] eqn:E1; [| done].
      apply hexes_app in E1 as (h & -> & <- & Hh).
      destruct r1 as [|c r2]; [done |]. unfold dash.
      destruct (Ascii.eqb_spec c "-") as [->|Hc];
        [| by destruct c as [[] [] [] [] [] [] [] []]].
      intros (b & -> & Hlen & Hb)%IH.
      exists (h ++ String "-" b). split; [| split].
      * by rewrite string_app_assoc.
      * rewrite string_length_app, <- Hlen. simpl. lia.
      * rewrite no_space_app, Hh. simpl. by rewrite Hb.
Qed.

Lemma strip_no_space (s : string) : no_space s = true -> strip s = s.
Proof.
  intros Hs. unfold strip.
  assert (lstrip s = s) as ->.
  { destruct s as [|c s]; [done |]. simpl in *.
    by destruct (is_space c). }
  induction s as [|c s IH]; [done |]. simpl in *.
  destruct (is_space c); [done |]. rewrite IH by done.
  by destruct s.
Qed.

(** A string the GUID pattern matches in full has 36 characters, none of
    them whitespace. *)
Lemma guid_pattern_fixed (g : string) :
  guid_pattern g = Some g -> no_space g = true /\ String.length g = 36%nat.
Proof.
  unfold guid_pattern.
  destruct (hex_groups _ g) as [rest|] eqn:E; [| done].
  destruct (at_end rest); [| done]. intros Htake.
  apply hex_groups_app in E as (b & -> & Hlen & Hb).
  change (groups_length _) with 36%nat in Hlen.
  rewrite <- Hlen, string_take_app in Htake.
  assert (b = b ++ rest) as <- by congruence. done.
Qed.

Lemma extract_user_guid_guid `{PyRuntime} (g : string) :
  guid_pattern g = Some g ->
  extract_user_guid (PStr g) = Some g /\ strip g = g /\ g <> "".
Proof.
  intros Hg. destruct (guid_pattern_fixed g Hg) as [Hs Hl].
  pose proof (strip_no_space g Hs) as Hstrip.
  unfold extract_user_guid. simpl. rewrite Hstrip, Hg.
  split; [done |]. split; [done |]. by intros ->.
Qed.

#[local] Instance same_api_calls_preorder : PreOrder same_api_calls.
Proof.
  split; [done |]. intros a b c Hab Hbc. unfold same_api_calls in *.
  congruence.
Qed.

Lemma api_calls_emit (ev : event) (st : state) :
  api_calls (trace (emit ev st))
  = (api_calls (trace st)
     + match ev with EvApiCall _ _ => 1 | _ => 0 end)%nat.
Proof.
  unfold api_calls. simpl. rewrite List.filter_app, length_app.
  by destruct ev.
Qed.

Section Identity.
Context `{PyRuntime} (self : session).

(** Fetching the memory snapshots does not call the chat endpoint. *)
Lemma initialize_context_memory_api (g : pyval) :
  mspec same_api_calls (fun _ => True) (_initialize_context_memory self g).
Proof.
  unfold _initialize_context_memory.
  repeat mspec_step; try done; unfold same_api_calls;
    first [reflexivity | by rewrite api_calls_emit, Nat.add_0_r].
Qed.

(** Identity resolution yields what [extract_user_guid] finds in the
    prompt and does not call the chat endpoint. *)
Lemma resolve_identity_spec (prompt conversation_history : pyval) :
  mspec same_api_calls (fun gp => gp = extract_user_guid prompt)
    (resolve_identity self prompt conversation_history).
Proof.
  unfold resolve_identity.
  repeat first [apply initialize_context_memory_api | mspec_step]; done.
Qed.

(** C5: when the utterance is exactly a GUID-shaped string and identity
    resolution leaves that GUID as the active identity, [get_response]
    returns the fixed narrative, the serialised payload
    [{"event": "world_init", "status": "ready"}] and empty agent logs,
    without calling the chat endpoint: the state it leaves is the one
    identity resolution left. *)
Theorem bootstrap_fast_path (fuel : nat) (g : string)
    (conversation_history : pyval) (max_retries retry_delay : Z)
    (st st1 : state) (gp : option string) :
  guid_pattern g = Some g ->
  resolve_identity self (PStr g) (trim_history conversation_history) st
  = (Ret gp, st1) ->
  user_guid st1 = PStr g ->
  get_response self fuel (PStr g) conversation_history max_retries
    retry_delay st
  = (Ret ("Game world initialized. Your adventure awaits!",
          json_dumps (PDict [("event", PStr "world_init");
                             ("status", PStr "ready")]),
          ""), st1)
  /\ api_calls (trace st1) = api_calls (trace st).
Proof.
  intros Hg Hres Hactive.
  pose proof (resolve_identity_spec (PStr g)
                (trim_history conversation_history) st) as Hspec.
  rewrite Hres in Hspec. destruct Hspec as [Hapi ->].
  destruct (extract_user_guid_guid g Hg) as (Hgp & Hstrip & Hne).
  split; [| exact Hapi].
  unfold get_response, try_except, begin_turn, bind.
  rewrite Hres, Hgp. simpl. rewrite Hstrip, Hactive. simpl.
  rewrite String.eqb_refl.
  destruct (String.eqb_spec g ""); [done | done].
Qed.
End Identity.

(** Scenario 2: the fresh assistant is sent [sample_guid] and nothing
    else. *)
Lemma bootstrap_fast_path_witness :
  @get_response python offline 0 (PStr sample_guid) (PList []) 3 2 fresh
  = (Ret ("Game world initialized. Your adventure awaits!",
          @json_dumps python (PDict [("event", PStr "world_init");
                                     ("status", PStr "ready")]),
          ""), bootstrapped)
  /\ api_calls (trace bootstrapped) = api_calls (trace fresh).
Proof.
  apply (@bootstrap_fast_path python offline 0 sample_guid (PList []) 3 2
           fresh bootstrapped (Some sample_guid));
    vm_compute; reflexivity.
Defined.

(** ** The dispatch loop *)

Section Dispatch.
Context `{PyRuntime} (self : session).

(** When a turn reaches the loop, its counter is zero and its logs are
    empty. *)
Lemma begin_turn_None (prompt conversation_history : pyval) (st st1 : state) :
  begin_turn self prompt conversation_history st = (Ret None, st1) ->
  retry_count st1 = 0 /\ agent_logs st1 = [].
Proof.
  unfold begin_turn, bind.
  destruct (resolve_identity _ _ _ st) as [[gp | e |] st']; [| done | done].
  simpl. destruct (_ && _); [done |]. unfold bind.
  destruct (prepare_messages _ _ st') as [[ms | e |] st'']; [| done | done].
  simpl. by intros [= <-].
Qed.

Lemma get_openai_api_call_eq (st : state) :
  get_openai_api_call self st
  = lift_outcome
      (chat_completions_create self (trace st) (messages st)
         (get_agent_metadata self))
      (emit (api_call self st) st).
Proof. reflexivity. Qed.

(** An attempt in which the chat endpoint raises. *)
Lemma attempt_raises (st : state) (e : exn) :
  chat_completions_create self (trace st) (messages st)
    (get_agent_metadata self) = Raises e ->
  attempt self st = (Raise e, emit (api_call self st) st).
Proof.
  intros Hcall. unfold attempt. unfold bind at 1.
  rewrite get_openai_api_call_eq, Hcall. done.
Qed.

(** An attempt in which the model selects a tool that is not registered. *)
Lemma attempt_unknown_agent (st : state) (content : option string)
    (name : string) (arguments : pyval) (choices : list assistant_message) :
  chat_completions_create self (trace st) (messages st)
    (get_agent_metadata self)
  = Returns ({| msg_content := content;
                msg_function_call :=
                  Some {| fc_name := name; fc_arguments := arguments |} |}
             :: choices) ->
  dict_get name (known_agents self) = None ->
  attempt self st
  = (Ret (Some ("Agent '" ++ name ++ "' does not exist", "{}", "")),
     emit (api_call self st) st).
Proof.
  intros Hcall Hget. unfold attempt. unfold bind at 1.
  rewrite get_openai_api_call_eq, Hcall.
  cbn [lift_outcome ret]. unfold bind at 1. cbn [first_choice ret].
  cbn [msg_function_call fc_name]. by rewrite Hget.
Qed.

(** One iteration of the loop in which the chat endpoint raises. *)
Lemma dispatch_loop_raises (max_retries retry_delay : Z) (fuel : nat)
    (st : state) (msg : string) :
  retry_count st < max_retries ->
  0 <= retry_delay ->
  chat_completions_create self (trace st) (messages st)
    (get_agent_metadata self) = Raises (Exception msg) ->
  let st' := set_retry_count (retry_count st + 1) (emit (api_call self st) st) in
  dispatch_loop self max_retries retry_delay (S fuel) st
  = if retry_count st + 1 <? max_retries
    then dispatch_loop self max_retries retry_delay fuel
           (emit (EvSleep retry_delay) st')
    else (Ret ("An error occurred. Please try again.", "{}", ""), st').
Proof.
  intros Hlt Hdelay Hcall st'. cbn [dispatch_loop]. unfold bind at 1.
  simpl. destruct (Z.ltb_spec (retry_count st) max_retries); [| lia].
  unfold bind at 1, try_except.
  rewrite (attempt_raises st _ Hcall).
  unfold on_error, bind, modify, get_state, sleep. simpl.
  destruct (retry_count st + 1 <? max_retries); [| done].
  destruct (Z.ltb_spec retry_delay 0); [lia | done].
Qed.

(** C8: when the model's answer at the head of the loop selects a tool
    whose name is not registered, the loop returns
    [("Agent '<name>' does not exist", "{}", "")] at once: after that one
    call to the chat endpoint nothing else happens, no retry, no sleep, no
    tool invocation.  So does [get_response] when this is the first
    answer of the model in a turn that reached the loop. *)
Theorem unknown_agent_is_terminal (fuel : nat) (max_retries retry_delay : Z)
    (st1 : state) (content : option string) (name : string)
    (arguments : pyval) (choices : list assistant_message) :
  retry_count st1 < max_retries ->
  chat_completions_create self (trace st1) (messages st1)
    (get_agent_metadata self)
  = Returns ({| msg_content := content;
                msg_function_call :=
                  Some {| fc_name := name; fc_arguments := arguments |} |}
             :: choices) ->
  dict_get name (known_agents self) = None ->
  dispatch_loop self max_retries retry_delay (S fuel) st1
  = (Ret ("Agent '" ++ name ++ "' does not exist", "{}", ""),
     emit (api_call self st1) st1)
  /\ forall (prompt conversation_history : pyval) (st : state),
       begin_turn self prompt conversation_history st = (Ret None, st1) ->
       get_response self (S fuel) prompt conversation_history max_retries
         retry_delay st
       = (Ret ("Agent '" ++ name ++ "' does not exist", "{}", ""),
          emit (api_call self st1) st1).
Proof.
  intros Hmax Hcall Hget.
  assert (Hloop : dispatch_loop self max_retries retry_delay (S fuel) st1
                  = (Ret ("Agent '" ++ name ++ "' does not exist", "{}", ""),
                     emit (api_call self st1) st1)).
  { cbn [dispatch_loop]. unfold bind at 1. cbn [get_state].
    destruct (Z.ltb_spec (retry_count st1) max_retries); [| lia].
    unfold bind at 1, try_except.
    by rewrite (attempt_unknown_agent st1 _ _ _ _ Hcall Hget). }
  split; [exact Hloop |].
  intros prompt conversation_history st Hbegin.
  unfold get_response, try_except. unfold bind at 1.
  by rewrite Hbegin, Hloop.
Qed.

(** C1 (amended): when a turn reaches the loop, the delay is not negative,
    every call to the chat endpoint raises an exception and [max_retries]
    is 3, [get_response] calls the endpoint three times, sleeps for the
    fixed delay between the calls, and returns
    [("An error occurred. Please try again.", "{}", "")]. *)
Theorem retries_exhausted (fuel : nat) (prompt conversation_history : pyval)
    (retry_delay : Z) (st st1 : state) :
  begin_turn self prompt conversation_history st = (Ret None, st1) ->
  0 <= retry_delay ->
  (forall tr ms fs,
     exists msg, chat_completions_create self tr ms fs = Raises (Exception msg)) ->
  exists st2,
    get_response self (3 + fuel) prompt conversation_history 3 retry_delay st
    = (Ret ("An error occurred. Please try again.", "{}", ""), st2)
    /\ trace st2
       = (trace st1
          ++ [api_call self st1; EvSleep retry_delay; api_call self st1;
              EvSleep retry_delay; api_call self st1])%list.
Proof.
  intros Hbegin Hdelay Hdown.
  destruct (begin_turn_None _ _ _ _ Hbegin) as [Hcount _].
  unfold get_response, try_except. unfold bind at 1. rewrite Hbegin.
  change (3 + fuel)%nat with (S (S (S fuel))).
  destruct (Hdown (trace st1) (messages st1) (get_agent_metadata self))
    as [m1 H1].
  rewrite (dispatch_loop_raises 3 retry_delay _ st1 m1) by (done || lia).
  rewrite Hcount. simpl (0 + 1 <? 3).
  set (s1 := emit (EvSleep retry_delay) _).
  destruct (Hdown (trace s1) (messages s1) (get_agent_metadata self))
    as [m2 H2].
  rewrite (dispatch_loop_raises 3 retry_delay _ s1 m2) by (done || (simpl; lia)).
  simpl (retry_count s1 + 1 <? 3).
  set (s2 := emit (EvSleep retry_delay) _).
  destruct (Hdown (trace s2) (messages s2) (get_agent_metadata self))
    as [m3 H3].
  rewrite (dispatch_loop_raises 3 retry_delay _ s2 m3) by (done || (simpl; lia)).
  simpl (retry_count s2 + 1 <? 3).
  eexists. split; [reflexivity |].
  simpl. by rewrite <- !app_assoc.
Qed.
End Dispatch.

(** Scenario 3: the model selects [DoesNotExist]. *)
Lemma unknown_agent_is_terminal_witness :
  @get_response python confused 1 (PStr "hello") (PList []) 3 2 fresh
  = (Ret ("Agent 'DoesNotExist' does not exist", "{}", ""),
     emit (EvApiCall (messages (greeted confused))
             (get_agent_metadata confused))
       (greeted confused)).
Proof.
  apply (@unknown_agent_is_terminal python confused 0 3 2 (greeted confused)
           None "DoesNotExist" (PStr "{}") []);
    [vm_compute; reflexivity | reflexivity | reflexivity |
     vm_compute; reflexivity].
Defined.

(** Scenario 5: three calls, two sleeps of two seconds, and the reply of
    the last failed attempt. *)
Lemma retries_exhausted_witness :
  exists st2,
    @get_response python offline 3 (PStr "hello") (PList []) 3 2 fresh
    = (Ret ("An error occurred. Please try again.", "{}", ""), st2)
    /\ trace st2
       = (trace (greeted offline)
          ++ [EvApiCall (messages (greeted offline)) [];
              EvSleep 2;
              EvApiCall (messages (greeted offline)) [];
              EvSleep 2;
              EvApiCall (messages (greeted offline)) []])%list.
Proof.
  apply (@retries_exhausted python offline 0 (PStr "hello") (PList []) 2
           fresh (greeted offline));
    [vm_compute; reflexivity | lia |].
  intros tr ms fs. by exists "Connection error.".
Defined.

(** C1 as stated fails: with every call to the chat endpoint raising and
    [max_retries = 3], the reply is the one of the [except] clause, not
    the "service temporarily unavailable" one after the loop. *)
Lemma retries_exhausted_counterexample :
  (forall tr ms fs,
     chat_completions_create offline tr ms fs
     = Raises (Exception "Connection error."))
  /\ fst (@get_response python offline 3 (PStr "hello") (PList []) 3 2 fresh)
     = Ret ("An error occurred. Please try again.", "{}", "")
  /\ fst (@get_response python offline 3 (PStr "hello") (PList []) 3 2 fresh)
     <> Ret ("Service temporarily unavailable. Please try again later.",
             "{}", "").
Proof.
  split; [done |].
  assert (E : fst (@get_response python offline 3 (PStr "hello") (PList [])
                     3 2 fresh)
              = Ret ("An error occurred. Please try again.", "{}", ""))
    by (vm_compute; reflexivity).
  split; [exact E |]. rewrite E. discriminate.
Qed.

(** ** Tool chains *)

Section Chaining.
Context `{PyRuntime} (self : session).

(** An attempt in which the model selects a registered tool whose result
    asks for a follow-up: the loop goes round again, with the result
    appended to the messages and the retry counter as it was. *)
Lemma attempt_follow_up (st : state) (content : option string)
    (name : string) (arguments : pyval) (choices : list assistant_message)
    (a : agent) (d : list (string * pyval)) (v : pyval) :
  chat_completions_create self (trace st) (messages st)
    (get_agent_metadata self)
  = Returns ({| msg_content := content;
                msg_function_call :=
                  Some {| fc_name := name; fc_arguments := arguments |} |}
             :: choices) ->
  dict_get name (known_agents self) = Some a ->
  safe_json_loads (ensure_string_function_args arguments)
  = Returns (PDict d) ->
  (forall tr kwargs, agent_perform a tr kwargs = Returns v) ->
  needs_follow_up
    (if is_none v then "Agent completed successfully" else py_str v) = true ->
  exists st',
    attempt self st = (Ret None, st')
    /\ retry_count st' = retry_count st
    /\ api_calls (trace st') = S (api_calls (trace st)).
Proof.
  intros Hcall Hget Hargs Hperform Hfollow.
  unfold attempt. unfold bind at 1.
  rewrite get_openai_api_call_eq, Hcall.
  cbn [lift_outcome ret]. unfold bind at 1. cbn [first_choice ret].
  cbn [msg_function_call fc_name fc_arguments]. rewrite Hget.
  unfold bind at 1, run_agent, try_except. unfold bind at 1.
  rewrite Hargs. cbn [lift_outcome ret]. unfold bind at 1. cbn [ret].
  unfold bind at 1. cbn [get_state]. unfold bind at 1, call.
  rewrite Hperform. cbn [lift_outcome ret]. unfold bind at 1.
  cbn [modify ret]. unfold bind at 1. cbn [modify].
  rewrite Hfollow. cbn [ret].
  eexists. split; [reflexivity |]. split; [reflexivity |].
  cbn [trace set_messages set_agent_logs].
  rewrite !api_calls_emit. unfold api_call. lia.
Qed.

(** A model that keeps selecting a tool whose result keeps asking for a
    follow-up keeps the loop going for as long as there is fuel: the
    number of calls to the chat endpoint is the fuel, whatever
    [max_retries] is. *)
Lemma dispatch_loop_stalls (max_retries retry_delay : Z)
    (content : option string) (name : string) (arguments : pyval)
    (choices : list assistant_message) (a : agent)
    (d : list (string * pyval)) (v : pyval) :
  (forall tr ms fs,
     chat_completions_create self tr ms fs
     = Returns ({| msg_content := content;
                   msg_function_call :=
                     Some {| fc_name := name; fc_arguments := arguments |} |}
                :: choices)) ->
  dict_get name (known_agents self) = Some a ->
  safe_json_loads (ensure_string_function_args arguments)
  = Returns (PDict d) ->
  (forall tr kwargs, agent_perform a tr kwargs = Returns v) ->
  needs_follow_up
    (if is_none v then "Agent completed successfully" else py_str v) = true ->
  forall (fuel : nat) (st : state),
    retry_count st < max_retries ->
    exists st',
      dispatch_loop self max_retries retry_delay fuel st = (OutOfFuel, st')
      /\ api_calls (trace st') = (api_calls (trace st) + fuel)%nat.
Proof.
  intros Hcall Hget Hargs Hperform Hfollow.
  induction fuel as [|fuel IH]; intros st Hlt.
  - cbn [dispatch_loop]. unfold bind, get_state.
    destruct (Z.ltb_spec (retry_count st) max_retries); [| lia].
    exists st. split; [done | lia].
  - cbn [dispatch_loop]. unfold bind at 1. cbn [get_state].
    destruct (Z.ltb_spec (retry_count st) max_retries); [| lia].
    destruct (attempt_follow_up st content name arguments choices a d v)
      as (st1 & Hattempt & Hcount & Hapi); try done.
    unfold bind at 1, try_except. rewrite Hattempt.
    destruct (IH st1) as (st' & Hloop & Hapi'); [lia |].
    exists st'. split; [exact Hloop | lia].
Qed.
End Chaining.

(** C2 fails on the code: the iterations that loop back to the model on a
    tool result do not count against [max_retries].  With a model that
    keeps selecting the tool [Stall], whose result is always
    [{"status": "incomplete"}], and [max_retries = 3], [get_response] is
    still in its loop after any number of iterations, having called the
    chat endpoint once in each. *)
Theorem tool_chain_unbounded (fuel : nat) :
  exists st',
    @get_response python stalling fuel (PStr "hello") (PList []) 3 2 fresh
    = (OutOfFuel, st')
    /\ api_calls (trace st') = fuel.
Proof.
  assert (Hbegin : @begin_turn python stalling (PStr "hello") (PList []) fresh
                   = (Ret None, greeted stalling))
    by (vm_compute; reflexivity).
  destruct (@dispatch_loop_stalls python stalling 3 2 None "Stall" (PStr "{}")
              [] stalling_tool [] (PStr incomplete_status))
    with (fuel := fuel) (st := greeted stalling)
    as (st' & Hloop & Hapi);
    try (vm_compute; reflexivity); try done.
  exists st'. split; [| exact Hapi].
  unfold get_response, try_except. unfold bind at 1.
  by rewrite Hbegin, Hloop.
Qed.

(** ** Shape of the reply *)

#[local] Instance any_state_preorder : PreOrder any_state.
Proof. by split. Qed.

(** ** The [json] instance

    What [Json.dumps] prints for a plain value, [Json.loads] reads back,
    and whatever [Json.loads] reads is plain. *)

Module JsonFacts.
Import Json.

Ltac str_norm := repeat (rewrite string_app_cons || rewrite string_app_nil_l).

Lemma chars_escape_char (c : ascii) (t : string) :
  chars (escape_char c ++ t)
  = match chars t with
    | Some (body, rest) => Some (String c body, rest)
    | None => None
    end.
Proof.
  destruct c as [[] [] [] [] [] [] [] []]; reflexivity.
Qed.

Lemma chars_escape (s tail : string) :
  chars (escape s ++ String (ascii_of_nat 34) tail) = Some (s, tail).
Proof.
  induction s as [|c s IH]; [reflexivity |].
  cbn [escape]. rewrite string_app_assoc, chars_escape_char, IH. done.
Qed.

Lemma digits_stop (acc : Z) (rest : string) :
  token_end rest = true -> digits acc rest = (acc, rest).
Proof.
  destruct rest as [|c rest]; [done |]. cbn [token_end digits].
  by destruct (is_digit c).
Qed.

Lemma digits_string_of_uint (d : Decimal.uint) (acc : positive) (rest : string) :
  token_end rest = true ->
  digits (Z.pos acc) (NilEmpty.string_of_uint d ++ rest)
  = (Z.pos (Pos.of_uint_acc d acc), rest).
Proof.
  intros Hrest. revert acc.
  induction d as [|d IH|d IH|d IH|d IH|d IH|d IH|d IH|d IH|d IH|d IH];
    intros acc; cbn [NilEmpty.string_of_uint Pos.of_uint_acc]; str_norm;
    [by apply digits_stop |..];
    cbn [digits]; change (is_digit _) with true; cbv iota;
    match goal with |- digits ?a _ = (Z.pos (Pos.of_uint_acc _ ?b), _) =>
      replace a with (Z.pos b) by (simpl; lia) end;
    apply IH.
Qed.

Lemma to_uint_head (p : positive) :
  match Pos.to_uint p with
  | Decimal.Nil | Decimal.D0 _ => False
  | _ => True
  end.
Proof.
  pose proof (DecimalPos.Unsigned.to_of (Pos.to_uint p)) as Hnorm.
  rewrite DecimalPos.Unsigned.of_to in Hnorm.
  change (N.to_uint (N.pos p)) with (Pos.to_uint p) in Hnorm.
  pose proof (DecimalPos.Unsigned.to_uint_nonzero p) as Hnz.
  pose proof (DecimalPos.Unsigned.to_uint_nonnil p) as Hnn.
  destruct (Pos.to_uint p) as [|d| | | | | | | | |] eqn:E; try done.
  unfold Decimal.unorm in Hnorm. cbn [Decimal.nzhead] in Hnorm.
  pose proof (DecimalFacts.nb_digits_nzhead d) as Hlen.
  destruct (Decimal.nzhead d) eqn:En;
    first [ done | discriminate
          | injection Hnorm as ->; simpl in Hlen; lia ].
Qed.

(** The text of an integer reads back as the integer. *)
Lemma number_str_of_Z (z : Z) (rest : string) :
  token_end rest = true ->
  exists c t,
    str_of_Z z ++ rest = String c t
    /\ (is_digit c || Ascii.eqb c "-") = true
    /\ number (String c t) = Some (PInt z, rest).
Proof.
  intros Hrest.
  assert (Hfrac : starts_fraction rest = false).
  { destruct rest as [|c rest]; [done |]. cbn [token_end] in Hrest.
    by destruct (is_digit c), (starts_fraction (String c rest)). }
  assert (Hpos : forall p (negative : bool),
             exists c t,
               NilEmpty.string_of_uint (Pos.to_uint p) ++ rest = String c t
               /\ is_digit c = true /\ Ascii.eqb c "-" = false
               /\ (let '(n, rest') :=
                      if Ascii.eqb c "0" then (0, t) else digits 0 (String c t)
                    in if starts_fraction rest' then None
                       else Some (PInt (if negative then - n else n), rest'))
                  = Some (PInt (if negative then Z.neg p else Z.pos p), rest)).
  { intros p negative. pose proof (to_uint_head p) as Hhead.
    pose proof (DecimalPos.Unsigned.of_to p) as Hof.
    destruct (Pos.to_uint p) as [|d|d|d|d|d|d|d|d|d|d]; try done;
      cbn [NilEmpty.string_of_uint]; str_norm;
      (eexists _, _; split; [reflexivity |]; split; [reflexivity |];
       split; [reflexivity |]);
      change (Ascii.eqb _ "0") with false; cbv iota;
      cbn [digits]; change (is_digit _) with true; cbv iota;
      match goal with |- context [digits ?a _] =>
        match type of Hof with Pos.of_uint (_ ?d) = _ =>
          let k := eval vm_compute in (Z.to_pos a) in
          replace a with (Z.pos k) by (vm_compute; reflexivity);
          rewrite (digits_string_of_uint d k rest Hrest)
        end
      end;
      rewrite Hfrac; cbn [Pos.of_uint] in Hof; injection Hof as ->;
      by destruct negative. }
  unfold str_of_Z. destruct z as [|p|p]; cbn [Z.to_int NilZero.string_of_int].
  - exists "0"%char, rest. split; [reflexivity |]. split; [reflexivity |].
    unfold number. cbn. by rewrite Hfrac.
  - destruct (Hpos p false) as (c & t & Heq & Hd & Hm & Hn).
    exists c, t. assert (NilZero.string_of_uint (Pos.to_uint p)
                         = NilEmpty.string_of_uint (Pos.to_uint p)) as ->.
    { pose proof (to_uint_head p). by destruct (Pos.to_uint p). }
    split; [exact Heq |]. split; [by rewrite Hd |].
    unfold number. cbn [String.prefix]. 
    destruct (ascii_dec "-" c) as [<-|_]; [done |].
    by rewrite Hd.
  - destruct (Hpos p true) as (c & t & Heq & Hd & Hm & Hn).
    exists "-"%char, (String c t).
    assert (NilZero.string_of_uint (Pos.to_uint p)
            = NilEmpty.string_of_uint (Pos.to_uint p)) as ->.
    { pose proof (to_uint_head p). by destruct (Pos.to_uint p). }
    str_norm. rewrite Heq. split; [reflexivity |]. split; [reflexivity |].
    unfold number. cbn [String.prefix]. 
    destruct (ascii_dec "-" "-") as [_|]; [| done].
    cbn [string_drop]. destruct t; by rewrite Hd.
Qed.


Lemma string_app_nil_r (s : string) : s ++ "" = s.
Proof.
  induction s as [|c s IH]; [done |]. rewrite string_app_cons. by f_equal.
Qed.

Lemma digit_or_minus (c : ascii) :
  (is_digit c || Ascii.eqb c "-") = true ->
  is_ws c = false /\ Ascii.eqb c "[" = false /\ Ascii.eqb c "{" = false
  /\ Ascii.eqb c (ascii_of_nat 34) = false /\ Ascii.eqb c "]" = false
  /\ Ascii.eqb c "}" = false.
Proof. destruct c as [[] [] [] [] [] [] [] []]; vm_compute; intuition congruence. Qed.

(** The text of a value starts with a character that is neither
    whitespace nor a closing bracket. *)
Lemma dumps_head (v : pyval) :
  exists c t,
    dumps v = String c t /\ is_ws c = false /\ Ascii.eqb c "]" = false
    /\ Ascii.eqb c "}" = false.
Proof.
  destruct v as [| [] | z | f | s | l | d]; try by eexists _, _.
  destruct (number_str_of_Z z "" eq_refl) as (c & t & Heq & Hc & _).
  rewrite string_app_nil_r in Heq. exists c, t.
  split; [exact Heq |]. apply digit_or_minus in Hc. tauto.
Qed.

Lemma skip_ws_head (c : ascii) (t : string) :
  is_ws c = false -> skip_ws (String c t) = String c t.
Proof. intros Hc. cbn [skip_ws]. by rewrite Hc. Qed.

Lemma value_skip_space (fuel : nat) (t : string) :
  value fuel (String " " t) = value fuel t.
Proof. by destruct fuel. Qed.

Lemma elements_skip_space (fuel : nat) (t : string) :
  elements fuel (String " " t) = elements fuel t.
Proof. destruct fuel; [done |]. cbn [elements]. by rewrite value_skip_space. Qed.

Lemma members_skip_space (fuel : nat) (t : string) (d : list (string * pyval)) :
  members fuel (String " " t) d = members fuel t d.
Proof. by destruct fuel. Qed.

Lemma elements_dumps (l : list pyval) :
  Forall reads_back l ->
  forallb plain l = true ->
  l <> [] ->
  forall fuel rest,
    (list_sum (map (fun x => S (size x)) l) <= fuel)%nat ->
    elements fuel (join ", " (map dumps l) ++ String "]" rest)
    = Some (l, rest).
Proof.
  induction 1 as [|x l Hx Hl IH]; [done |].
  cbn [forallb]. intros [Hpx Hpl]%andb_prop _ fuel rest Hfuel.
  cbn [map list_sum fold_right] in Hfuel. destruct fuel as [|fuel]; [lia |].
  destruct l as [|y l].
  - cbn [map join elements].
    rewrite (Hx Hpx fuel (String "]" rest)) by (done || (simpl in *; lia)).
    reflexivity.
  - cbn [map join elements].
    change (join ", " (dumps y :: map dumps l))
      with (join ", " (map dumps (y :: l))).
    rewrite !string_app_assoc. str_norm.
    rewrite (Hx Hpx fuel) by (done || (simpl in *; lia)).
    cbn [skip_ws]. change (is_ws ",") with false. cbv iota.
    change (Ascii.eqb "," ",") with true. cbv iota.
    rewrite elements_skip_space, IH; [done | done | done |].
    cbn [map list_sum fold_right] in *. lia.
Qed.

Lemma dict_set_fresh {V : Type} (k : string) (v : V) (d : list (string * V)) :
  k ∉ dict_keys d -> dict_set k v d = (d ++ [(k, v)])%list.
Proof.
  induction d as [|[k' v'] d IH]; [done |]. cbn [dict_keys map fst].
  rewrite not_elem_of_cons. intros [Hk Hd]. cbn [dict_set].
  destruct (String.eqb_spec k' k); [congruence |]. simpl. f_equal.
  by apply IH.
Qed.

Lemma distinct_NoDup (l : list string) : distinct l = true -> NoDup l.
Proof.
  induction l as [|x l IH]; [intros; apply NoDup_nil_2 |].
  cbn [distinct]. intros [Hx Hl]%andb_prop. apply NoDup_cons_2; [| auto].
  intros Hin. apply negb_true_iff in Hx.
  assert (existsb (String.eqb x) l = true); [| congruence].
  apply existsb_exists. exists x. split; [by apply list_elem_of_In |].
  apply String.eqb_refl.
Qed.

Lemma members_dumps (d : list (string * pyval)) :
  Forall (fun kv => reads_back (snd kv)) d ->
  forallb (fun kv => match kv with (_, x) => plain x end) d = true ->
  d <> [] ->
  forall fuel rest acc,
    (list_sum (map (fun kv => match kv with (_, x) => S (size x) end) d)
     <= fuel)%nat ->
    NoDup (dict_keys acc ++ dict_keys d) ->
    members fuel (join ", " (map member_text d) ++ String "}" rest) acc
    = Some ((acc ++ d)%list, rest).
Proof.
  induction 1 as [|[k x] d Hx Hd IH]; [done |].
  cbn [snd] in Hx. cbn [forallb]. intros [Hpx Hpd]%andb_prop _ fuel rest acc Hfuel Hkeys.
  cbn [map list_sum fold_right] in Hfuel.
  destruct fuel as [|fuel]; [lia |].
  assert (Hfresh : k ∉ dict_keys acc).
  { cbn [dict_keys map fst] in Hkeys.
    apply NoDup_app in Hkeys as (_ & Hdisj & _). intros Hin.
    apply (Hdisj k Hin). apply list_elem_of_here. }
  assert (Hkeys' : NoDup (dict_keys (acc ++ [(k, x)]) ++ dict_keys d)).
  { unfold dict_keys in *. rewrite map_app, <- app_assoc. exact Hkeys. }
  assert (Hstep : forall tail,
             token_end tail = true ->
             members (S fuel) (member_text (k, x) ++ tail) acc
             = match skip_ws tail with
               | String c' rest4 =>
                   if Ascii.eqb c' ","
                   then members fuel rest4 (acc ++ [(k, x)])%list
                   else if Ascii.eqb c' "}"
                        then Some ((acc ++ [(k, x)])%list, rest4)
                        else None
               | EmptyString => None
               end).
  { intros tail Htail. unfold member_text, quoted, dq.
    rewrite !string_app_assoc. str_norm. cbn [members skip_ws].
    change (is_ws (ascii_of_nat 34)) with false. cbv iota.
    change (Ascii.eqb (ascii_of_nat 34) (ascii_of_nat 34)) with true.
    cbv iota. rewrite chars_escape. cbn [skip_ws].
    change (is_ws ":") with false. cbv iota.
    change (Ascii.eqb ":" ":") with true. cbv iota.
    rewrite value_skip_space.
    rewrite (Hx Hpx fuel tail) by (done || lia).
    by rewrite (dict_set_fresh k x acc Hfresh). }
  destruct d as [|kv d].
  - cbn [map join]. rewrite Hstep by done. reflexivity.
  - cbn [map join].
    change (join ", " (member_text kv :: map member_text d))
      with (join ", " (map member_text (kv :: d))).
    rewrite !string_app_assoc. rewrite Hstep by done. str_norm.
    cbn [skip_ws]. change (is_ws ",") with false. cbv iota.
    change (Ascii.eqb "," ",") with true. cbv iota.
    rewrite members_skip_space, IH;
      [| done | done | unfold list_sum in *; cbn [map fold_right] in *; lia
       | done].
    by rewrite <- app_assoc.
Qed.

Lemma join_head {A : Type} (f : A -> string) (x : A) (l : list A)
    (c : ascii) (t : string) :
  f x = String c t -> exists t', join ", " (map f (x :: l)) = String c t'.
Proof.
  intros Hx. cbn [map join]. rewrite Hx.
  destruct (map f l); [eauto |]. str_norm. eauto.
Qed.

(** A plain value is read back from its text, whatever follows it. *)
Lemma value_dumps (v : pyval) : reads_back v.
Proof.
  induction v as [| b | z | f | s | l IH | d IH] using pyval_ind';
    intros Hplain fuel rest Hfuel Hrest;
    (destruct fuel as [|fuel]; [simpl in Hfuel; lia |]).
  - cbn [dumps]. str_norm. by destruct rest.
  - destruct b; cbn [dumps]; str_norm; by destruct rest.
  - destruct (number_str_of_Z z rest Hrest) as (c & t & Heq & Hc & Hnum).
    cbn [dumps]. rewrite Heq. cbn [value].
    destruct (digit_or_minus c Hc) as (Hws & H1 & H2 & H3 & _).
    rewrite (skip_ws_head c t Hws), H1, H2, H3, Hc. exact Hnum.
  - done.
  - cbn [dumps]. unfold quoted, dq. rewrite !string_app_assoc. str_norm.
    cbn [value skip_ws]. change (is_ws (ascii_of_nat 34)) with false.
    cbv iota. change (Ascii.eqb (ascii_of_nat 34) "[") with false.
    change (Ascii.eqb (ascii_of_nat 34) "{") with false.
    change (Ascii.eqb (ascii_of_nat 34) (ascii_of_nat 34)) with true.
    cbv iota. by rewrite chars_escape.
  - cbn [dumps plain size] in *. rewrite !string_app_assoc. str_norm.
    cbn [value skip_ws]. change (is_ws "[") with false. cbv iota.
    change (Ascii.eqb "[" "[") with true. cbv iota.
    destruct l as [|x l]; [reflexivity |].
    rewrite (elements_dumps (x :: l) IH Hplain) by (done || lia).
    destruct (dumps_head x) as (c & t & Hhead & Hws & Hclose & _).
    destruct (join_head dumps x l c t Hhead) as [t' ->]. str_norm.
    by rewrite (skip_ws_head _ _ Hws), Hclose.
  - cbn [dumps plain size] in *. apply andb_prop in Hplain as [Hkeys Hplain].
    change (fun kv : string * pyval =>
              match kv with (k, x) => quoted k ++ ": " ++ dumps x end)
      with member_text.
    rewrite !string_app_assoc. str_norm.
    cbn [value skip_ws]. change (is_ws "{") with false. cbv iota.
    change (Ascii.eqb "{" "[") with false.
    change (Ascii.eqb "{" "{") with true. cbv iota.
    destruct d as [|[k x] d]; [reflexivity |].
    rewrite (members_dumps ((k, x) :: d) IH Hplain) by
      (done || lia || (by apply distinct_NoDup)).
    destruct (join_head member_text (k, x) d (ascii_of_nat 34)
                (escape k ++ dq ++ ": " ++ dumps x)) as [t' ->].
    { unfold member_text, quoted, dq. rewrite !string_app_assoc.
      by str_norm. }
    str_norm. reflexivity.
Qed.

Lemma distinct_NoDup_iff (l : list string) : distinct l = true <-> NoDup l.
Proof.
  split; [apply distinct_NoDup |].
  induction 1 as [|x l Hx Hl IH]; [done |]. cbn [distinct].
  rewrite IH, andb_true_r. apply negb_true_iff.
  destruct (existsb (String.eqb x) l) eqn:E; [| done].
  apply existsb_exists in E as (y & Hy & ->%String.eqb_eq).
  by apply list_elem_of_In in Hy.
Qed.

Lemma size_join (A : Type) (f : A -> string) (g : A -> nat) (l : list A) :
  Forall (fun x => (g x <= String.length (f x))%nat) l ->
  (list_sum (map (fun x => S (g x)) l)
   <= S (String.length (join ", " (map f l))))%nat.
Proof.
  induction 1 as [|x l Hx Hl IH]; [simpl; lia |].
  cbn [map list_sum fold_right join].
  change (fold_right Nat.add 0%nat (map (fun x => S (g x)) l))
    with (list_sum (map (fun x => S (g x)) l)).
  destruct l as [|y l]; [simpl; lia |].
  change (match map f (y :: l) with
          | [] => f x
          | _ :: _ => f x ++ ", " ++ join ", " (map f (y :: l))
          end) with (f x ++ ", " ++ join ", " (map f (y :: l))).
  rewrite !string_length_app. simpl String.length at 2. lia.
Qed.

(** The text of a value is at least as long as the value is deep. *)
Lemma size_dumps (v : pyval) : (size v <= String.length (dumps v))%nat.
Proof.
  induction v as [| b | z | f | s | l IH | d IH] using pyval_ind'.
  - simpl; lia.
  - destruct b; simpl; lia.
  - destruct (number_str_of_Z z "" eq_refl) as (c & t & Heq & _).
    rewrite string_app_nil_r in Heq. cbn [dumps size]. rewrite Heq.
    simpl; lia.
  - simpl; lia.
  - cbn [dumps size]. unfold quoted. rewrite string_length_app.
    simpl; lia.
  - cbn [dumps size]. rewrite !string_length_app.
    pose proof (size_join _ dumps size l IH). simpl String.length. lia.
  - cbn [dumps size]. rewrite !string_length_app.
    assert (Hle : Forall (fun kv : string * pyval =>
                            (size (snd kv)
                             <= String.length (member_text kv))%nat) d).
    { eapply Forall_impl; [exact IH |]. intros [k x] Hx.
      unfold member_text. rewrite !string_length_app. simpl in *. lia. }
    pose proof (size_join _ member_text (fun kv => size (snd kv)) d Hle)
      as Hj.
    cbv beta in Hj.
    rewrite (map_ext (fun kv : string * pyval => S (size (snd kv)))
               (fun kv => match kv with (_, x) => S (size x) end)) in Hj
      by (by intros []).
    change (fun kv : string * pyval =>
              match kv with (k, x) => quoted k ++ ": " ++ dumps x end)
      with member_text.
    simpl String.length. lia.
Qed.

(** T1: what [dumps] prints for a plain value, [loads] reads back. *)
Lemma loads_dumps (v : pyval) : plain v = true -> loads (dumps v) = Some v.
Proof.
  intros Hplain. unfold loads.
  rewrite <- (string_app_nil_r (dumps v)) at 2.
  rewrite (value_dumps v Hplain (S (String.length (dumps v))) "");
    [done | | done].
  pose proof (size_dumps v). lia.
Qed.

Lemma number_plain (s : string) (v : pyval) (rest : string) :
  number s = Some (v, rest) -> plain v = true.
Proof.
  unfold number. destruct (if String.prefix "-" s then _ else _); [done |].
  destruct (is_digit _); [| done].
  destruct (if Ascii.eqb _ _ then _ else _) as [n rest'].
  destruct (starts_fraction rest'); [done |]. by intros [= <- _].
Qed.

Lemma literal_plain (s : string) (v : pyval) (rest : string) :
  literal s = Some (v, rest) -> plain v = true.
Proof.
  unfold literal. repeat destruct (String.prefix _ _); by intros [= <- _].
Qed.

Lemma plain_dict_set (k : string) (v : pyval) (d : list (string * pyval)) :
  plain (PDict d) = true -> plain v = true ->
  plain (PDict (dict_set k v d)) = true.
Proof.
  cbn [plain]. intros [Hkeys Hd]%andb_prop Hv. apply andb_true_intro. split.
  - apply distinct_NoDup_iff, dict_set_NoDup. by apply distinct_NoDup_iff.
  - clear Hkeys. induction d as [|[k' v'] d IH]; cbn [dict_set forallb].
    + by rewrite Hv.
    + cbn [forallb] in Hd. apply andb_prop in Hd as [Hv' Hd].
      destruct (String.eqb k' k); cbn [forallb].
      * by rewrite Hv, Hd.
      * by rewrite Hv', IH.
Qed.

(** T2: whatever the reader accepts is a plain value. *)
Lemma reads_plain (fuel : nat) :
  (forall s v rest, value fuel s = Some (v, rest) -> plain v = true)
  /\ (forall s l rest,
        elements fuel s = Some (l, rest) -> forallb plain l = true)
  /\ (forall s acc d rest,
        members fuel s acc = Some (d, rest) ->
        plain (PDict acc) = true -> plain (PDict d) = true).
Proof.
  induction fuel as [|fuel (IHv & IHe & IHm)]; [done |].
  split; [| split].
  - intros s v rest. cbn [value].
    destruct (skip_ws s) as [|c t]; [done |].
    destruct (Ascii.eqb c "[").
    { destruct (skip_ws t) as [|c' t']; [done |].
      destruct (Ascii.eqb c' "]"); [by intros [= <- _] |].
      destruct (elements fuel t) as [[l r]|] eqn:E; [| done].
      intros [= <- _]. cbn [plain]. by eapply IHe. }
    destruct (Ascii.eqb c "{").
    { destruct (skip_ws t) as [|c' t']; [done |].
      destruct (Ascii.eqb c' "}"); [by intros [= <- _] |].
      destruct (members fuel t []) as [[d r]|] eqn:E; [| done].
      intros [= <- _]. by eapply IHm. }
    destruct (Ascii.eqb c (ascii_of_nat 34)).
    { destruct (chars t) as [[body r]|]; [| done]. by intros [= <- _]. }
    destruct (is_digit c || Ascii.eqb c "-");
      [apply number_plain | apply literal_plain].
  - intros s l rest. cbn [elements].
    destruct (value fuel s) as [[v r]|] eqn:Ev; [| done].
    apply IHv in Ev. destruct (skip_ws r) as [|c t]; [done |].
    destruct (Ascii.eqb c ",").
    { destruct (elements fuel t) as [[l' r']|] eqn:E; [| done].
      intros [= <- _]. cbn [forallb]. rewrite Ev. by eapply IHe. }
    destruct (Ascii.eqb c "]"); [| done].
    intros [= <- _]. cbn [forallb]. by rewrite Ev.
  - intros s acc d rest. cbn [members].
    destruct (skip_ws s) as [|q t]; [done |].
    destruct (Ascii.eqb q (ascii_of_nat 34)); [| done].
    destruct (chars t) as [[key r1]|]; [| done].
    destruct (skip_ws r1) as [|c r2]; [done |].
    destruct (Ascii.eqb c ":"); [| done].
    destruct (value fuel r2) as [[v r3]|] eqn:Ev; [| done].
    apply IHv in Ev. destruct (skip_ws r3) as [|c' r4]; [done |].
    intros Hm Hacc. pose proof (plain_dict_set key v acc Hacc Ev) as Hset.
    destruct (Ascii.eqb c' ","); [by eapply IHm |].
    destruct (Ascii.eqb c' "}"); [| done].
    by injection Hm as <- _.
Qed.

Lemma loads_plain (s : string) (v : pyval) :
  loads s = Some v -> plain v = true.
Proof.
  unfold loads.
  destruct (value _ s) as [[v' rest]|] eqn:E; [| done].
  destruct (skip_ws rest); [| done].
  intros [= <-]. by eapply (proj1 (reads_plain _)).
Qed.
End JsonFacts.

(** The executable instance honours the contract. *)
Lemma python_lawful : @lawful_json python.
Proof.
  split; [| split].
  - apply JsonFacts.loads_dumps.
  - intros s v Hv. cbn [json_loads json_dumps python] in *.
    by rewrite (JsonFacts.loads_dumps v (JsonFacts.loads_plain s v Hv)).
  - by vm_compute.
Qed.


Section Reply.
Context `{PyRuntime} (self : session).

Lemma parse_game_data_value (content : string) :
  game_data_value (snd (parse_response_with_game_data content)).
Proof.
  unfold parse_response_with_game_data, game_data_value.
  destruct (String.eqb content ""); [by right; left |].
  destruct (split GAME_DATA content) as [|part0 [|part1 parts]];
    [by right; left | by right; left |].
  cbn [snd]. destruct (json_loads (strip part1)) as [v|] eqn:E.
  - left. by exists (strip part1).
  - by right; left.
Qed.

Lemma finalize_payload (content : string) :
  mspec any_state json_payload (finalize content).
Proof.
  unfold finalize. pose proof (parse_game_data_value content) as Hv.
  destruct (parse_response_with_game_data content) as [n v].
  repeat mspec_step; try done. right. by exists v.
Qed.

(** Under the contract of [json], such a payload parses. *)
Lemma json_payload_parses (r : reply) :
  lawful_json -> json_payload r -> json_loads (snd (fst r)) <> None.
Proof.
  intros (Hplain & Hread & Hempty) [-> | (v & Hv & ->)]; [done |].
  destruct Hv as [[s Hs] | [-> | ->]].
  - by eapply Hread.
  - by rewrite Hplain.
  - by rewrite Hplain.
Qed.

Lemma run_agent_payload (name : string) (a : agent) (json_data : option string) :
  mspec any_state (fun r => forall t, r = inl t -> json_payload t)
    (run_agent name a json_data).
Proof.
  unfold run_agent. repeat mspec_step; try done.
  match goal with E : inl _ = inl _ |- _ => injection E as <- end.
  by left.
Qed.

Lemma api_call_payload :
  mspec any_state (fun _ => True) (get_openai_api_call self).
Proof. unfold get_openai_api_call. repeat mspec_step; done. Qed.

Lemma first_choice_payload (response : list assistant_message) :
  mspec any_state (fun _ => True) (first_choice response).
Proof. unfold first_choice. repeat mspec_step; done. Qed.

Lemma attempt_payload : mspec any_state early_payload (attempt self).
Proof.
  unfold attempt, early_payload.
  apply mspec_bind_any; [typeclasses eauto | apply api_call_payload |].
  intros response.
  apply mspec_bind_any; [typeclasses eauto | apply first_choice_payload |].
  intros assistant_msg.
  destruct (msg_function_call _) as [fc|].
  - destruct (dict_get _ _) as [ag|].
    + eapply mspec_bind; [typeclasses eauto | apply run_agent_payload |].
      intros [t | result] Ht.
      * apply mspec_ret; [typeclasses eauto |]. intros r [= <-]. by apply Ht.
      * apply mspec_bind_any; [typeclasses eauto | by repeat mspec_step |].
        intros _. destruct (needs_follow_up result).
        { by apply mspec_ret; [typeclasses eauto |]. }
        apply mspec_bind_any;
          [typeclasses eauto | apply api_call_payload |].
        intros final_response.
        apply mspec_bind_any;
          [typeclasses eauto | apply first_choice_payload |].
        intros final_msg.
        eapply mspec_bind; [typeclasses eauto | apply finalize_payload |].
        intros r Hr. apply mspec_ret; [typeclasses eauto |].
        by intros ? [= <-].
    + apply mspec_ret; [typeclasses eauto |]. intros r [= <-]. by left.
  - eapply mspec_bind; [typeclasses eauto | apply finalize_payload |].
    intros r Hr. apply mspec_ret; [typeclasses eauto |]. by intros ? [= <-].
Qed.

Lemma on_error_payload (max_retries retry_delay : Z) :
  mspec any_state early_payload (on_error max_retries retry_delay).
Proof.
  unfold on_error, sleep, early_payload. repeat mspec_step; try done.
  match goal with E : Some _ = Some _ |- _ => injection E as <- end.
  by left.
Qed.

Lemma dispatch_loop_payload (max_retries retry_delay : Z) (fuel : nat) :
  mspec any_state json_payload
    (dispatch_loop self max_retries retry_delay fuel).
Proof.
  induction fuel as [|fuel IH]; cbn [dispatch_loop].
  - apply mspec_bind_any; [typeclasses eauto | by repeat mspec_step |].
    intros st. destruct (_ <? _); [by intros ? |].
    apply mspec_ret; [typeclasses eauto |]. by left.
  - apply mspec_bind_any; [typeclasses eauto | by repeat mspec_step |].
    intros st. destruct (_ <? _).
    + apply (mspec_bind any_state early_payload).
      * apply mspec_try_except; [typeclasses eauto | apply attempt_payload |].
        intros _. apply on_error_payload.
      * intros [r|] Hr; [| apply IH].
        apply mspec_ret; [typeclasses eauto |]. by apply Hr.
    + apply mspec_ret; [typeclasses eauto |]. by left.
Qed.

Lemma begin_turn_payload (prompt conversation_history : pyval) :
  mspec any_state early_payload
    (begin_turn self prompt conversation_history).
Proof.
  unfold begin_turn, early_payload.
  apply mspec_bind_any; [typeclasses eauto | | intros gp].
  { intros st. by destruct (resolve_identity _ _ _ st) as [[] ?]. }
  apply mspec_bind_any; [typeclasses eauto | by repeat mspec_step |].
  intros st. destruct (_ && _).
  - apply mspec_ret; [typeclasses eauto |]. intros r [= <-]. right.
    eexists. split; [| reflexivity]. by right; right.
  - apply mspec_bind_any; [typeclasses eauto | | intros ms].
    { intros st'. by destruct (prepare_messages _ _ st') as [[] ?]. }
    repeat mspec_step; done.
Qed.

(** C10: whatever the model, the tools and the storage do, a reply of
    [get_response], on any of its return paths, is a triple of strings
    whose game data is the literal [{}] or the text [json.dumps] printed
    for an object, and [json.loads] parses it. *)
Theorem reply_payload_is_json (fuel : nat)
    (prompt conversation_history : pyval) (max_retries retry_delay : Z)
    (st st' : state) (r : reply) :
  lawful_json ->
  get_response self fuel prompt conversation_history max_retries retry_delay
    st = (Ret r, st') ->
  json_payload r /\ json_loads (snd (fst r)) <> None.
Proof.
  intros Hjson Hrun.
  enough (json_payload r) by (split; [done | by apply json_payload_parses]).
  assert (Hspec : mspec any_state json_payload
                    (get_response self fuel prompt conversation_history
                       max_retries retry_delay)).
  { unfold get_response. apply mspec_try_except; [typeclasses eauto | |].
    - apply (mspec_bind any_state early_payload);
        [apply begin_turn_payload |].
      intros [r'|] Hr.
      + apply mspec_ret; [typeclasses eauto |]. by apply Hr.
      + apply dispatch_loop_payload.
    - intros _. apply mspec_ret; [typeclasses eauto |]. by left. }
  specialize (Hspec st). rewrite Hrun in Hspec. by destruct Hspec.
Qed.
End Reply.

(** Scenario 1: the model answers in both channels, and the game data of
    the reply is what [json.dumps] prints for the object it sent; it
    parses. *)
Lemma reply_payload_is_json_witness :
  @lawful_json python
  /\ @get_response python narrating 1 (PStr "hello") (PList []) 3 2 fresh
     = (Ret ("You see a door.", "{" ++ dq ++ "door" ++ dq ++ ": 1}", ""),
        emit (EvApiCall (messages (greeted narrating)) [])
          (greeted narrating))
  /\ @json_payload python
       ("You see a door.", "{" ++ dq ++ "door" ++ dq ++ ": 1}", "")
  /\ Json.loads ("{" ++ dq ++ "door" ++ dq ++ ": 1}") <> None.
Proof.
  assert (Hrun :
    @get_response python narrating 1 (PStr "hello") (PList []) 3 2 fresh
    = (Ret ("You see a door.", "{" ++ dq ++ "door" ++ dq ++ ": 1}", ""),
       emit (EvApiCall (messages (greeted narrating)) [])
         (greeted narrating)))
    by (vm_compute; reflexivity).
  split; [exact python_lawful |]. split; [exact Hrun |].
  exact (@reply_payload_is_json python narrating 1 (PStr "hello") (PList [])
           3 2 fresh _ _ python_lawful Hrun).
Defined.

(** ** Tool discovery *)

Section Totality.
Context {S : Type}.

Lemma total_no_escape {A : Type} (m : M S A) : total m -> no_escape m.
Proof. intros Hm st. left. apply Hm. Qed.

Lemma total_ret {A : Type} (a : A) : total (ret (S := S) a).
Proof. intros st. by eexists _, _. Qed.

Lemma total_modify (f : S -> S) : total (modify f).
Proof. intros st. by eexists _, _. Qed.

Lemma total_get_state : total (get_state (S := S)).
Proof. intros st. by eexists _, _. Qed.

Lemma total_bind {A B : Type} (m : M S A) (k : A -> M S B) :
  total m -> (forall a, total (k a)) -> total (bind m k).
Proof.
  intros Hm Hk st. unfold bind.
  destruct (Hm st) as (a & st1 & ->). apply Hk.
Qed.

Lemma no_escape_bind {A B : Type} (m : M S A) (k : A -> M S B) :
  no_escape m -> (forall a, no_escape (k a)) -> no_escape (bind m k).
Proof.
  intros Hm Hk st. unfold bind.
  destruct (Hm st) as [(a & st1 & ->) | (msg & st1 & ->)]; [apply Hk |].
  right. by eexists _, _.
Qed.

Lemma no_escape_raise {A : Type} (msg : string) :
  no_escape (raise (S := S) (A := A) (Exception msg)).
Proof. intros st. right. by eexists _, _. Qed.

Lemma no_escape_lift_outcome {A : Type} (o : outcome A) :
  catchable o -> no_escape (lift_outcome (S := S) o).
Proof.
  intros Ho st. destruct o as [a | [msg | msg]]; simpl.
  - left. by eexists _, _.
  - right. by eexists _, _.
  - by destruct (Ho msg).
Qed.

Lemma total_try_except {A : Type} (m : M S A) (handler : string -> M S A) :
  no_escape m -> (forall msg, total (handler msg)) ->
  total (try_except m handler).
Proof.
  intros Hm Hh st. unfold try_except.
  destruct (Hm st) as [(a & st1 & ->) | (msg & st1 & ->)].
  - by eexists _, _.
  - apply Hh.
Qed.
End Totality.

Section DiscoveryFacts.
Context (os : host).

Lemma total_logging (r : log_record) : total (logging r).
Proof. apply total_modify. Qed.

Lemma no_escape_declare (class_name : string) (a : agent) :
  no_escape (declare class_name a).
Proof.
  unfold declare. destruct (agent_name a); [| apply no_escape_raise].
  apply total_no_escape, total_bind; [apply total_modify |].
  intros _. apply total_ret.
Qed.

Lemma no_escape_register_members (members : list member) :
  Forall catchable_member members -> no_escape (register_members members).
Proof.
  induction 1 as [|[class_name construct|] members Hm _ IH];
    cbn [register_members].
  - apply total_no_escape, total_ret.
  - apply no_escape_bind; [by apply no_escape_lift_outcome |]. intros a.
    apply no_escape_bind; [apply no_escape_declare | done].
  - done.
Qed.

Lemma no_escape_register_multi_members (members : list member) :
  Forall catchable_member members ->
  no_escape (register_multi_members members).
Proof.
  induction 1 as [|[class_name construct|] members Hm _ IH];
    cbn [register_multi_members].
  - apply total_no_escape, total_ret.
  - apply no_escape_bind; [by apply no_escape_lift_outcome |]. intros a.
    apply no_escape_bind; [apply no_escape_declare |]. intros name.
    apply no_escape_bind; [apply total_no_escape, total_logging | done].
  - done.
Qed.

Lemma no_escape_os_remove (temp_file : string) : no_escape (os_remove temp_file).
Proof.
  unfold os_remove. apply no_escape_bind.
  - apply total_no_escape, total_get_state.
  - intros st. destruct (files st !! temp_file).
    + apply total_no_escape, total_modify.
    + apply no_escape_raise.
Qed.

(** Loading the members of a module that was found. *)
Lemma no_escape_module (o : outcome (list member))
    (k : list member -> M loader unit) :
  catchable_module o ->
  (forall ms, Forall catchable_member ms -> no_escape (k ms)) ->
  no_escape (bind (lift_outcome o) k).
Proof.
  intros [Ho Hms] Hk st. unfold bind.
  destruct o as [ms | [msg | msg]]; simpl.
  - by apply Hk, Hms.
  - right. by eexists _, _.
  - by destruct (Ho msg).
Qed.

Context (Hos : well_behaved os).

(** A bundled agent file never stops discovery. *)
Lemma total_load_bundled (file : string) : total (load_bundled os file).
Proof.
  destruct Hos as (Himport & _).
  unfold load_bundled. apply total_try_except; [| intros; apply total_logging].
  apply no_escape_module; [apply Himport |].
  apply no_escape_register_members.
Qed.

(** A file of the [agents] share never stops discovery. *)
Lemma total_load_shared (file_name : string) :
  total (load_shared os file_name).
Proof.
  destruct Hos as (_ & _ & Hread & Hexec).
  unfold load_shared. destruct (negb _); [apply total_ret |].
  apply total_try_except; [| intros; apply total_logging].
  apply no_escape_bind; [apply no_escape_lift_outcome, Hread |].
  intros [file_content|]; [| apply total_no_escape, total_ret].
  apply no_escape_bind; [apply total_no_escape, total_modify | intros _].
  apply no_escape_bind; [apply total_no_escape, total_modify | intros _].
  apply no_escape_module; [apply Hexec |]. intros ms Hms.
  apply no_escape_bind; [by apply no_escape_register_members | intros _].
  apply no_escape_os_remove.
Qed.

(** A file of the [multi_agents] share never stops discovery. *)
Lemma total_load_shared_multi (file_name : string) :
  total (load_shared_multi os file_name).
Proof.
  destruct Hos as (_ & _ & Hread & Hexec).
  unfold load_shared_multi. destruct (negb _); [apply total_ret |].
  apply total_try_except; [| intros; apply total_logging].
  apply no_escape_bind; [apply no_escape_lift_outcome, Hread |].
  intros [file_content|]; [| apply total_no_escape, total_ret].
  do 4 (apply no_escape_bind;
        [apply total_no_escape, total_modify | intros _]).
  apply no_escape_module; [apply Hexec |]. intros ms Hms.
  apply no_escape_bind;
    [by apply no_escape_register_multi_members | intros _].
  apply no_escape_os_remove.
Qed.

Lemma total_for_each {A : Type} (body : A -> M loader unit) (l : list A) :
  (forall x, total (body x)) -> total (for_each body l).
Proof.
  intros Hbody. induction l as [|x l IH]; cbn [for_each].
  - apply total_ret.
  - apply total_bind; [apply Hbody | done].
Qed.

(** Listing a share and loading its files never stops discovery. *)
Lemma total_share (directory error : string)
    (body : string -> M loader unit) :
  (forall x, total (body x)) ->
  total (try_except
           (let* agent_files := lift_outcome (list_files os directory) in
            for_each body agent_files)
           (fun e => logging (LogError (error ++ e)))).
Proof.
  intros Hbody. destruct Hos as (_ & Hlist & _).
  apply total_try_except; [| intros; apply total_logging].
  apply no_escape_bind; [apply no_escape_lift_outcome, Hlist |].
  intros l. by apply total_no_escape, total_for_each.
Qed.

(** Once the bundled directory is listed and the storage client is
    constructed, discovery returns a registry. *)
Lemma total_load_agents_from_folder (bundled : list string) :
  listdir os = Returns bundled ->
  new_storage_manager os = Returns tt ->
  total (load_agents_from_folder os).
Proof.
  intros Hlistdir Hnew. unfold load_agents_from_folder.
  rewrite Hlistdir, Hnew.
  apply total_bind; [apply total_ret | intros fs].
  apply total_bind; [apply total_modify | intros _].
  apply total_bind;
    [apply total_for_each, total_load_bundled | intros _].
  apply total_bind; [apply total_ret | intros _].
  apply total_bind; [apply total_share, total_load_shared | intros _].
  apply total_bind; [apply total_share, total_load_shared_multi | intros _].
  apply total_bind; [apply total_get_state | intros st].
  apply total_ret.
Qed.
End DiscoveryFacts.

(** The steps of discovery that reduce by themselves. *)
Ltac run :=
  cbn [for_each register_members register_multi_members];
  cbv beta iota zeta delta
    [bind ret raise modify get_state try_except lift_outcome declare
     logging write_file add_to_sys_path os_remove set_files
     set_declared_agents set_sys_path set_sys_modules negb];
  cbn [files declared_agents log sys_path sys_modules].

Section Scratch.
Context (os : host).

(** C3 fails on the code: [os.remove] is the last statement of the [try]
    block, so when executing a fetched module raises, or instantiating its
    first agent class does, the [except] clause logs the error and the
    scratch file written for the module stays in [/tmp/agents]. *)
Theorem scratch_file_left_behind (st : loader)
    (file_name file_content e : string) :
  endswith file_name "_agent.py" = true ->
  read_file os "agents" file_name = Returns (Some file_content) ->
  exec_module os (drop_suffix3 file_name) file_content
  = Raises (Exception e)
  \/ (exists class_name members,
        exec_module os (drop_suffix3 file_name) file_content
        = Returns (AgentClass class_name (Raises (Exception e)) :: members)) ->
  exists st',
    load_shared os file_name st = (Ret tt, st')
    /\ files st' !! ("/tmp/agents" ++ "/" ++ file_name) = Some file_content.
Proof.
  intros Hname Hread Hexec. unfold load_shared. rewrite Hname. run.
  rewrite Hread. run.
  destruct Hexec as [Hexec | (class_name & members & Hexec)];
    rewrite Hexec; run;
    (eexists; split; [reflexivity |]); run;
    destruct (existsb _ _); run; apply lookup_insert_eq.
Qed.

(** The same happens to a module of the [multi_agents] share. *)
Lemma scratch_file_left_behind_multi (st : loader)
    (file_name file_content e : string) :
  endswith file_name "_agent.py" = true ->
  read_file os "multi_agents" file_name = Returns (Some file_content) ->
  exec_module os ("multi_agents." ++ drop_suffix3 file_name) file_content
  = Raises (Exception e) ->
  exists st',
    load_shared_multi os file_name st = (Ret tt, st')
    /\ files st' !! ("/tmp/multi_agents" ++ "/" ++ file_name)
       = Some file_content.
Proof.
  intros Hname Hread Hexec. unfold load_shared_multi. rewrite Hname. run.
  rewrite Hread. run. rewrite Hexec. run.
  eexists. split; [reflexivity |].
  repeat (destruct (existsb _ _); run); apply lookup_insert_eq.
Qed.

(** When the module loads and its classes are instantiated, the scratch
    file is removed. *)
Lemma scratch_file_removed (st : loader) (file_name file_content : string)
    (members : list member) :
  endswith file_name "_agent.py" = true ->
  read_file os "agents" file_name = Returns (Some file_content) ->
  exec_module os (drop_suffix3 file_name) file_content = Returns members ->
  (forall st0, exists st1, register_members members st0 = (Ret tt, st1)
                           /\ files st1 = files st0) ->
  exists st',
    load_shared os file_name st = (Ret tt, st')
    /\ files st' !! ("/tmp/agents" ++ "/" ++ file_name) = None.
Proof.
  intros Hname Hread Hexec Hreg. unfold load_shared. rewrite Hname. run.
  rewrite Hread. run. rewrite Hexec. run.
  match goal with |- context [register_members members ?s] =>
    destruct (Hreg s) as (s1 & -> & Hfiles) end.
  run. rewrite Hfiles.
  destruct (existsb _ _); run; rewrite lookup_insert_eq; run;
    (eexists; split; [reflexivity |]); run; apply lookup_delete_eq.
Qed.
End Scratch.

(** The [agents] share holds [broken_agent.py], which raises when it is
    executed: after discovery its copy is still in [/tmp/agents]. *)
Lemma scratch_file_left_behind_witness :
  exists st',
    load_shared leaky_share "broken_agent.py" clean = (Ret tt, st')
    /\ files st' !! "/tmp/agents/broken_agent.py" = Some broken_source.
Proof.
  exact (scratch_file_left_behind leaky_share clean "broken_agent.py"
           broken_source "boom" eq_refl eq_refl (or_introl eq_refl)).
Defined.

(** The whole of discovery on that share: an empty registry, one error in
    the log, and the scratch file. *)
Lemma discovery_leaves_scratch_file :
  fst (load_agents_from_folder leaky_share clean) = Ret []
  /\ files (snd (load_agents_from_folder leaky_share clean))
       !! "/tmp/agents/broken_agent.py" = Some broken_source
  /\ log (snd (load_agents_from_folder leaky_share clean))
     = [LogError ("Error loading agent broken_agent.py "
                  ++ "from Azure File Share: boom")].
Proof. vm_compute. done. Qed.

(** *** What discovery keeps *)

#[local] Instance only_grows_preorder : PreOrder only_grows.
Proof.
  split; [by intros st |].
  intros a b c [Hab Hab'] [Hbc Hbc']. split; eauto.
Qed.

Lemma dict_keys_set_mono {V : Type} (k k' : string) (v : V)
    (d : list (string * V)) :
  k ∈ dict_keys d -> k ∈ dict_keys (dict_set k' v d).
Proof.
  intros Hk. rewrite dict_keys_set. destruct (dict_has k' d); [done |].
  apply elem_of_app. by left.
Qed.

Lemma dict_keys_set_in {V : Type} (k : string) (v : V)
    (d : list (string * V)) :
  k ∈ dict_keys (dict_set k v d).
Proof.
  destruct (decide (k ∈ dict_keys (dict_set k v d))) as [|Hk]; [done |].
  apply dict_get_None_keys in Hk. by rewrite dict_get_set_eq in Hk.
Qed.

(** A step that leaves the registry and the log alone. *)
Lemma grows_modify (f : loader -> loader) :
  (forall st, declared_agents (f st) = declared_agents st) ->
  (forall st, log (f st) = log st) ->
  mspec only_grows (fun _ => True) (modify f).
Proof.
  intros Hd Hl. apply mspec_modify; [| done]. intros st.
  split; intros x; by rewrite ?Hd, ?Hl.
Qed.

Lemma grows_logging (r : log_record) :
  mspec only_grows (fun _ => True) (logging r).
Proof.
  apply mspec_modify; [| done]. intros st. split; [done |].
  intros r' Hr. cbn [log]. apply elem_of_app. by left.
Qed.

Lemma grows_write_file (f c : string) :
  mspec only_grows (fun _ => True) (write_file f c).
Proof. by apply grows_modify. Qed.

Lemma grows_add_to_sys_path (d : string) :
  mspec only_grows (fun _ => True) (add_to_sys_path d).
Proof.
  apply grows_modify; intros st; by destruct (existsb _ _).
Qed.

(** One step through a computation of discovery. *)
Ltac grows_step :=
  first
    [ exact I
    | apply grows_logging | apply grows_write_file
    | apply grows_add_to_sys_path
    | by apply grows_modify
    | mspec_step ].

Lemma grows_os_remove (f : string) :
  mspec only_grows (fun _ => True) (os_remove f).
Proof. unfold os_remove. repeat grows_step. Qed.

Lemma grows_declare (class_name : string) (a : agent) :
  mspec only_grows (fun _ => True) (declare class_name a).
Proof.
  unfold declare. destruct (agent_name a) as [name|]; repeat grows_step.
  split; [| done]. intros k Hk. by apply dict_keys_set_mono.
Qed.

Lemma grows_register_members (members : list member) :
  mspec only_grows (fun _ => True) (register_members members).
Proof.
  induction members as [|[class_name construct|] members IH];
    cbn [register_members]; [| | done];
    repeat first [exact IH | apply grows_declare | grows_step].
Qed.

Lemma grows_register_multi_members (members : list member) :
  mspec only_grows (fun _ => True) (register_multi_members members).
Proof.
  induction members as [|[class_name construct|] members IH];
    cbn [register_multi_members]; [| | done];
    repeat first [exact IH | apply grows_declare | grows_step].
Qed.

Section Growth.
Context (os : host).

Lemma grows_load_bundled (file : string) :
  mspec only_grows (fun _ => True) (load_bundled os file).
Proof.
  unfold load_bundled.
  repeat first [apply grows_register_members | apply grows_os_remove
               | grows_step].
Qed.

Lemma grows_load_shared (file_name : string) :
  mspec only_grows (fun _ => True) (load_shared os file_name).
Proof.
  unfold load_shared.
  repeat first [apply grows_register_members | apply grows_os_remove
               | grows_step].
Qed.

Lemma grows_load_shared_multi (file_name : string) :
  mspec only_grows (fun _ => True) (load_shared_multi os file_name).
Proof.
  unfold load_shared_multi.
  repeat first [apply grows_register_multi_members | apply grows_os_remove
               | grows_step].
Qed.

Lemma grows_for_each {A : Type} (body : A -> M loader unit) (l : list A) :
  (forall x, mspec only_grows (fun _ => True) (body x)) ->
  mspec only_grows (fun _ => True) (for_each body l).
Proof.
  intros Hbody. induction l as [|x l IH]; cbn [for_each];
    repeat first [exact IH | apply Hbody | grows_step].
Qed.
End Growth.

Section Survival.
Context (os : host).

(** A fetched module whose first agent class raises when instantiated is
    logged and skipped: the registry is as it was. *)
Lemma load_shared_skips (st : loader) (file_name file_content : string)
    (class_name e : string) (members : list member) :
  endswith file_name "_agent.py" = true ->
  read_file os "agents" file_name = Returns (Some file_content) ->
  exec_module os (drop_suffix3 file_name) file_content
  = Returns (AgentClass class_name (Raises (Exception e)) :: members) ->
  exists st',
    load_shared os file_name st = (Ret tt, st')
    /\ declared_agents st' = declared_agents st
    /\ log st'
       = (log st ++ [LogError ("Error loading agent " ++ file_name
                               ++ " from Azure File Share: " ++ e)])%list.
Proof.
  intros Hname Hread Hexec. unfold load_shared. rewrite Hname. run.
  rewrite Hread. run. rewrite Hexec. run.
  eexists. split; [reflexivity |]. by destruct (existsb _ _).
Qed.

(** A fetched module with one agent class that can be instantiated
    registers the instance under its name and logs nothing. *)
Lemma load_shared_registers (st : loader) (file_name file_content : string)
    (class_name name : string) (a : agent) :
  endswith file_name "_agent.py" = true ->
  read_file os "agents" file_name = Returns (Some file_content) ->
  exec_module os (drop_suffix3 file_name) file_content
  = Returns [AgentClass class_name (Returns a)] ->
  agent_name a = Some name ->
  exists st',
    load_shared os file_name st = (Ret tt, st')
    /\ declared_agents st' = dict_set name a (declared_agents st)
    /\ log st' = log st.
Proof.
  intros Hname Hread Hexec Ha. unfold load_shared. rewrite Hname. run.
  rewrite Hread. run. rewrite Hexec. run. rewrite Ha. run.
  destruct (existsb _ _); run; rewrite lookup_insert_eq; run;
    by eexists.
Qed.

(** Scenario 6: with no bundled agents and a share that holds, in either
    order, one module whose agent class raises when instantiated and one
    module with an agent class that can be instantiated, the registry
    holds that agent only, and the log the error of the other. *)
Lemma one_throwing_one_succeeding (st : loader) (bundled : list string) :
  listdir os = Returns bundled ->
  new_storage_manager os = Returns tt ->
  well_behaved os ->
  exists registry st',
    load_agents_from_folder os st = (Ret registry, st')
    /\ forall (bad good source_bad source_good class_bad class_good e name
                 : string) (a : agent) (others : list member),
         bundled_agent_files bundled = [] ->
         list_files os "agents" = Returns [bad; good]
         \/ list_files os "agents" = Returns [good; bad] ->
         list_files os "multi_agents" = Returns [] ->
         endswith bad "_agent.py" = true ->
         endswith good "_agent.py" = true ->
         read_file os "agents" bad = Returns (Some source_bad) ->
         read_file os "agents" good = Returns (Some source_good) ->
         exec_module os (drop_suffix3 bad) source_bad
         = Returns (AgentClass class_bad (Raises (Exception e)) :: others) ->
         exec_module os (drop_suffix3 good) source_good
         = Returns [AgentClass class_good (Returns a)] ->
         agent_name a = Some name ->
         registry = [(name, a)]
         /\ log st'
            = (log st ++ [LogError ("Error loading agent " ++ bad
                                    ++ " from Azure File Share: " ++ e)])%list.
Proof.
  intros Hlistdir Hnew Hos.
  destruct (total_load_agents_from_folder os Hos bundled Hlistdir Hnew st)
    as (registry & st' & Hrun).
  exists registry, st'. split; [exact Hrun |].
  intros bad good source_bad source_good class_bad class_good e name a others
    Hbundled Hlist Hmulti Hbad Hgood Hrbad Hrgood Hxbad Hxgood Ha.
  revert Hrun. unfold load_agents_from_folder.
  rewrite Hlistdir. run. rewrite Hbundled, Hnew, Hmulti. run.
  set (st0 := {| declared_agents := []; files := files st;
                 sys_path := sys_path st; sys_modules := sys_modules st;
                 log := log st |}).
  destruct Hlist as [-> | ->]; run.
  - destruct (load_shared_skips st0 bad source_bad class_bad e others)
      as (s1 & -> & Hd1 & Hl1); [done.. |].
    destruct (load_shared_registers s1 good source_good class_good name a)
      as (s2 & -> & Hd2 & Hl2); [done.. |].
    intros [= <- <-]. run. by rewrite Hd2, Hd1, Hl2, Hl1.
  - destruct (load_shared_registers st0 good source_good class_good name a)
      as (s1 & -> & Hd1 & Hl1); [done.. |].
    destruct (load_shared_skips s1 bad source_bad class_bad e others)
      as (s2 & -> & Hd2 & Hl2); [done.. |].
    intros [= <- <-]. run. by rewrite Hd2, Hd1, Hl2, Hl1.
Qed.

(** *** Every candidate is settled *)

Lemma settled_grows (module : outcome (list member))
    (error : string -> log_record) (st st' : loader) :
  settled module error (declared_agents st) (log st) ->
  only_grows st st' ->
  settled module error (declared_agents st') (log st').
Proof.
  intros Hst [Hkeys Hlog].
  destruct module as [members | [e | e]]; cbn [settled] in *;
    [| by apply Hlog | done].
  destruct Hst as [Hloads Hfails]. split.
  - intros Hm name Hname. by apply Hkeys, Hloads.
  - intros e He. by apply Hlog, Hfails.
Qed.

Lemma loads_cons (m : member) (members : list member) :
  loads (m :: members) ->
  match m with
  | AgentClass _ (Returns a) => agent_name a <> None
  | AgentClass _ (Raises _) => False
  | OtherMember => True
  end /\ loads members.
Proof. intros Hm. by apply Forall_cons in Hm. Qed.

Lemma declares_cons (m : member) (members : list member) (name : string) :
  declares (m :: members) name ->
  (exists class_name a,
     m = AgentClass class_name (Returns a) /\ agent_name a = Some name)
  \/ declares members name.
Proof.
  intros (class_name & a & Hin & Ha). apply elem_of_cons in Hin as [<- | Hin].
  - left. by exists class_name, a.
  - right. by exists class_name, a.
Qed.

(** The classes of a module that loads are all registered. *)
Lemma register_members_loads (members : list member) (st : loader) :
  loads members ->
  exists st',
    register_members members st = (Ret tt, st')
    /\ forall name, declares members name ->
         name ∈ dict_keys (declared_agents st').
Proof.
  revert st.
  induction members as [|[class_name [a | e]|] members IH]; intros st Hm.
  - exists st. split; [done |].
    intros name (? & ? & Hin & _). by apply elem_of_nil in Hin.
  - apply loads_cons in Hm as [Ha Hm].
    destruct (agent_name a) as [n|] eqn:En; [| done].
    cbn [register_members]. run. rewrite En. run.
    match goal with |- context [register_members members ?s] =>
      set (st1 := s) end.
    destruct (IH st1 Hm) as (st' & Hrun & Hnames).
    exists st'. split; [done |].
    intros name [(c & a' & [= <- <-] & Ha') | Hname]%declares_cons;
      [| by apply Hnames].
    assert (n = name) as -> by congruence.
    pose proof (grows_register_members members st1) as Hgrows.
    rewrite Hrun in Hgrows. destruct Hgrows as [[Hkeys _] _].
    apply Hkeys. subst st1. cbn [declared_agents]. apply dict_keys_set_in.
  - by apply loads_cons in Hm as [[] _].
  - apply loads_cons in Hm as [_ Hm]. cbn [register_members].
    destruct (IH st Hm) as (st' & Hrun & Hnames).
    exists st'. split; [done |].
    intros name [(c & a' & [=] & _) | Hname]%declares_cons.
    by apply Hnames.
Qed.

Lemma register_multi_members_loads (members : list member) (st : loader) :
  loads members ->
  exists st',
    register_multi_members members st = (Ret tt, st')
    /\ forall name, declares members name ->
         name ∈ dict_keys (declared_agents st').
Proof.
  revert st.
  induction members as [|[class_name [a | e]|] members IH]; intros st Hm.
  - exists st. split; [done |].
    intros name (? & ? & Hin & _). by apply elem_of_nil in Hin.
  - apply loads_cons in Hm as [Ha Hm].
    destruct (agent_name a) as [n|] eqn:En; [| done].
    cbn [register_multi_members]. run. rewrite En. run.
    match goal with |- context [register_multi_members members ?s] =>
      set (st1 := s) end.
    destruct (IH st1 Hm) as (st' & Hrun & Hnames).
    exists st'. split; [done |].
    intros name [(c & a' & [= <- <-] & Ha') | Hname]%declares_cons;
      [| by apply Hnames].
    assert (n = name) as -> by congruence.
    pose proof (grows_register_multi_members members st1) as Hgrows.
    rewrite Hrun in Hgrows. destruct Hgrows as [[Hkeys _] _].
    apply Hkeys. subst st1. cbn [declared_agents]. apply dict_keys_set_in.
  - by apply loads_cons in Hm as [[] _].
  - apply loads_cons in Hm as [_ Hm]. cbn [register_multi_members].
    destruct (IH st Hm) as (st' & Hrun & Hnames).
    exists st'. split; [done |].
    intros name [(c & a' & [=] & _) | Hname]%declares_cons.
    by apply Hnames.
Qed.

(** The first class that cannot be instantiated stops the module. *)
Lemma register_members_fails (before after : list member)
    (class_name e : string) (st : loader) :
  loads before ->
  exists st',
    register_members
      (before ++ AgentClass class_name (Raises (Exception e)) :: after) st
    = (Raise (Exception e), st').
Proof.
  revert st.
  induction before as [|[c [a | e']|] before IH]; intros st Hm.
  - by eexists.
  - apply loads_cons in Hm as [Ha Hm].
    destruct (agent_name a) as [n|] eqn:En; [| done].
    cbn [app register_members]. run. rewrite En. run. apply IH, Hm.
  - by apply loads_cons in Hm as [[] _].
  - apply loads_cons in Hm as [_ Hm]. cbn [app register_members].
    apply IH, Hm.
Qed.

Lemma register_multi_members_fails (before after : list member)
    (class_name e : string) (st : loader) :
  loads before ->
  exists st',
    register_multi_members
      (before ++ AgentClass class_name (Raises (Exception e)) :: after) st
    = (Raise (Exception e), st').
Proof.
  revert st.
  induction before as [|[c [a | e']|] before IH]; intros st Hm.
  - by eexists.
  - apply loads_cons in Hm as [Ha Hm].
    destruct (agent_name a) as [n|] eqn:En; [| done].
    cbn [app register_multi_members]. run. rewrite En. run. apply IH, Hm.
  - by apply loads_cons in Hm as [[] _].
  - apply loads_cons in Hm as [_ Hm]. cbn [app register_multi_members].
    apply IH, Hm.
Qed.

Lemma settled_nothing (error : string -> log_record)
    (registry : list (string * agent)) (records : list log_record) :
  settled (Returns []) error registry records.
Proof.
  split.
  - intros _ name (? & ? & Hin & _). by apply elem_of_nil in Hin.
  - intros e (before & ? & ? & Heq & _). by destruct before.
Qed.

(** The loop body settles the bundled file it is given. *)
Lemma load_bundled_settles (file : string) (st : loader) :
  settled (import_module os ("agents." ++ drop_suffix3 file))
    (fun e => LogError ("Error loading agent " ++ file ++ ": " ++ e))
    (declared_agents (snd (load_bundled os file st)))
    (log (snd (load_bundled os file st))).
Proof.
  unfold load_bundled. cbv zeta.
  destruct (import_module os _) as [members | [e | e]]; cbn [settled];
    [| run; apply elem_of_app; right; apply list_elem_of_singleton; done
     | done].
  split.
  - intros Hm name Hname.
    destruct (register_members_loads members st Hm) as (st' & Hrun & Hnames).
    run. rewrite Hrun. by apply Hnames.
  - intros e (before & class_name & after & -> & Hm).
    destruct (register_members_fails before after class_name e st Hm)
      as (st' & Hrun).
    run. rewrite Hrun. cbn [snd log]. apply elem_of_app. right.
    by apply list_elem_of_singleton.
Qed.

(** The loop body settles the file of the [agents] share it is given. *)
Lemma load_shared_settles (file_name : string) (st : loader) :
  endswith file_name "_agent.py" = true ->
  settled
    match read_file os "agents" file_name with
    | Returns (Some file_content) =>
        exec_module os (drop_suffix3 file_name) file_content
    | Returns None => Returns []
    | Raises e => Raises e
    end
    (fun e => LogError ("Error loading agent " ++ file_name
                        ++ " from Azure File Share: " ++ e))
    (declared_agents (snd (load_shared os file_name st)))
    (log (snd (load_shared os file_name st))).
Proof.
  intros Hname. unfold load_shared. rewrite Hname. cbn [negb]. cbv zeta.
  destruct (read_file os "agents" file_name) as [[file_content|] | [e | e]];
    [| apply settled_nothing
     | run; apply elem_of_app; right; by apply list_elem_of_singleton
     | done].
  run.
  destruct (exec_module os _ file_content) as [members | [e | e]];
    cbn [settled];
    [| run; destruct (existsb _ _); cbn [snd log];
       apply elem_of_app; right; by apply list_elem_of_singleton
     | done].
  split.
  - intros Hm name Hname'. run.
    match goal with |- context [register_members members ?s] =>
      destruct (register_members_loads members s Hm)
        as (st' & Hrun & Hnames); rewrite Hrun end.
    run. destruct (files st' !! _); run; by apply Hnames.
  - intros e (before & class_name & after & -> & Hm). run.
    match goal with |- context [register_members ?ms ?s] =>
      destruct (register_members_fails before after class_name e s Hm)
        as (st' & Hrun); rewrite Hrun end.
    cbn [snd log]. apply elem_of_app. right.
    by apply list_elem_of_singleton.
Qed.

(** The loop body settles the file of the [multi_agents] share it is
    given. *)
Lemma load_shared_multi_settles (file_name : string) (st : loader) :
  endswith file_name "_agent.py" = true ->
  settled
    match read_file os "multi_agents" file_name with
    | Returns (Some file_content) =>
        exec_module os ("multi_agents." ++ drop_suffix3 file_name)
          file_content
    | Returns None => Returns []
    | Raises e => Raises e
    end
    (fun e => LogError ("Error loading multi-agent " ++ file_name
                        ++ " from Azure File Share: " ++ e))
    (declared_agents (snd (load_shared_multi os file_name st)))
    (log (snd (load_shared_multi os file_name st))).
Proof.
  intros Hname. unfold load_shared_multi. rewrite Hname. cbn [negb].
  cbv zeta.
  destruct (read_file os "multi_agents" file_name)
    as [[file_content|] | [e | e]];
    [| apply settled_nothing
     | run; apply elem_of_app; right; by apply list_elem_of_singleton
     | done].
  run.
  destruct (exec_module os _ file_content) as [members | [e | e]];
    cbn [settled];
    [| run; repeat (destruct (existsb _ _); run); cbn [snd log];
       apply elem_of_app; right; by apply list_elem_of_singleton
     | done].
  split.
  - intros Hm name Hname'. run.
    match goal with |- context [register_multi_members members ?s] =>
      destruct (register_multi_members_loads members s Hm)
        as (st' & Hrun & Hnames); rewrite Hrun end.
    run. destruct (files st' !! _); run; by apply Hnames.
  - intros e (before & class_name & after & -> & Hm). run.
    match goal with |- context [register_multi_members ?ms ?s] =>
      destruct (register_multi_members_fails before after class_name e s Hm)
        as (st' & Hrun); rewrite Hrun end.
    cbn [snd log]. apply elem_of_app. right.
    by apply list_elem_of_singleton.
Qed.

(** What the body establishes for one element of a loop holds when the
    loop is over, whatever the bodies of the other elements do. *)
Lemma for_each_settles {A : Type} (body : A -> M loader unit) (l : list A)
    (x : A) (P : loader -> Prop) :
  (forall y, total (body y)) ->
  (forall y, mspec only_grows (fun _ => True) (body y)) ->
  (forall st st', P st -> only_grows st st' -> P st') ->
  (forall st, P (snd (body x st))) ->
  x ∈ l ->
  forall st, P (snd (for_each body l st)).
Proof.
  intros Htotal Hgrows Hmono Hx Hin.
  induction l as [|y l IH]; [by apply elem_of_nil in Hin |].
  intros st. cbn [for_each]. unfold bind.
  destruct (Htotal y st) as (u & st1 & Hrun). rewrite Hrun.
  apply elem_of_cons in Hin as [-> | Hin]; [| by apply IH].
  specialize (Hx st). rewrite Hrun in Hx.
  pose proof (grows_for_each body l Hgrows st1) as Hrest.
  destruct (for_each body l st1) as [[[] | e |] st2];
    apply (Hmono st1); [done | by destruct Hrest | done..].
Qed.

Lemma try_except_returns {S A : Type} (m : M S A) (handler : string -> M S A)
    (st st' : S) (a : A) :
  m st = (Ret a, st') -> try_except m handler st = (Ret a, st').
Proof. intros Hm. unfold try_except. by rewrite Hm. Qed.

(** C4 (amended): when the bundled directory can be listed, the storage
    client can be constructed, and the candidate sources and the file
    share raise only exceptions that derive from [Exception], discovery
    returns a registry, and it has settled every candidate, whatever
    happens to the others: each bundled agent file, and each file of the
    [agents] and of the [multi_agents] share whose name ends in
    [_agent.py].  A candidate that cannot be imported, read or executed,
    or one of whose classes cannot be instantiated, has its error in the
    log; a candidate whose module loads has the name of each of its agents
    in the registry.  With no bundled agents and a share that holds, in
    either order, one module whose agent class raises when instantiated
    and one module with an agent class that can be instantiated, the
    registry holds that agent only, and the log the error of the other. *)
Theorem discovery_survives_failures (st : loader) (bundled : list string) :
  listdir os = Returns bundled ->
  new_storage_manager os = Returns tt ->
  well_behaved os ->
  exists registry st',
    load_agents_from_folder os st = (Ret registry, st')
    /\ (forall file,
          file ∈ bundled_agent_files bundled ->
          settled (import_module os ("agents." ++ drop_suffix3 file))
            (fun e => LogError ("Error loading agent " ++ file ++ ": " ++ e))
            registry (log st'))
    /\ (forall agent_files file_name,
          list_files os "agents" = Returns agent_files ->
          file_name ∈ agent_files ->
          endswith file_name "_agent.py" = true ->
          settled
            match read_file os "agents" file_name with
            | Returns (Some file_content) =>
                exec_module os (drop_suffix3 file_name) file_content
            | Returns None => Returns []
            | Raises e => Raises e
            end
            (fun e => LogError ("Error loading agent " ++ file_name
                                ++ " from Azure File Share: " ++ e))
            registry (log st'))
    /\ (forall multi_agent_files file_name,
          list_files os "multi_agents" = Returns multi_agent_files ->
          file_name ∈ multi_agent_files ->
          endswith file_name "_agent.py" = true ->
          settled
            match read_file os "multi_agents" file_name with
            | Returns (Some file_content) =>
                exec_module os ("multi_agents." ++ drop_suffix3 file_name)
                  file_content
            | Returns None => Returns []
            | Raises e => Raises e
            end
            (fun e => LogError ("Error loading multi-agent " ++ file_name
                                ++ " from Azure File Share: " ++ e))
            registry (log st'))
    /\ forall (bad good source_bad source_good class_bad class_good e name
                 : string) (a : agent) (others : list member),
         bundled_agent_files bundled = [] ->
         list_files os "agents" = Returns [bad; good]
         \/ list_files os "agents" = Returns [good; bad] ->
         list_files os "multi_agents" = Returns [] ->
         endswith bad "_agent.py" = true ->
         endswith good "_agent.py" = true ->
         read_file os "agents" bad = Returns (Some source_bad) ->
         read_file os "agents" good = Returns (Some source_good) ->
         exec_module os (drop_suffix3 bad) source_bad
         = Returns (AgentClass class_bad (Raises (Exception e)) :: others) ->
         exec_module os (drop_suffix3 good) source_good
         = Returns [AgentClass class_good (Returns a)] ->
         agent_name a = Some name ->
         registry = [(name, a)]
         /\ log st'
            = (log st ++ [LogError ("Error loading agent " ++ bad
                                    ++ " from Azure File Share: " ++ e)])%list.
Proof.
  intros Hlistdir Hnew Hos.
  destruct (one_throwing_one_succeeding st bundled Hlistdir Hnew Hos)
    as (registry & st' & Hrun & Hscenario).
  exists registry, st'. split; [exact Hrun |].
  split; [| split; [| split; [| exact Hscenario]]].
  all: clear Hscenario.
  all: set (st0 := set_declared_agents [] st).
  all: destruct (total_for_each (load_bundled os)
                   (bundled_agent_files bundled) (total_load_bundled os Hos)
                   st0) as ([] & s1 & Hone).
  all: destruct (total_share os Hos "agents"
                   "Error loading agents from Azure File Share: "
                   (load_shared os) (total_load_shared os Hos) s1)
         as ([] & s2 & Htwo).
  all: destruct (total_share os Hos "multi_agents"
                   "Error loading multi-agents from Azure File Share: "
                   (load_shared_multi os) (total_load_shared_multi os Hos) s2)
         as ([] & s3 & Hthree).
  all: assert (registry = declared_agents s3 /\ st' = s3) as [-> ->]
         by (revert Hrun; unfold load_agents_from_folder;
             rewrite Hlistdir, Hnew;
             unfold bind at 1; cbn [lift_outcome ret];
             unfold bind at 1; cbn [modify]; fold st0;
             unfold bind at 1; rewrite Hone;
             unfold bind at 1; cbn [lift_outcome ret];
             unfold bind at 1; rewrite Htwo;
             unfold bind at 1; rewrite Hthree;
             unfold bind at 1; cbn [get_state ret];
             by intros [= <- <-]).
  all: assert (Hgrows2 : only_grows s1 s2)
         by (assert (Hm : mspec only_grows (fun _ => True)
                            (try_except
                               (let* agent_files :=
                                  lift_outcome (list_files os "agents") in
                                for_each (load_shared os) agent_files)
                               (fun e =>
                                  logging
                                    (LogError
                                       ("Error loading agents from Azure File Share: "
                                        ++ e)))))
               by (repeat first [apply grows_for_each
                                | apply grows_load_shared | grows_step]);
             specialize (Hm s1); rewrite Htwo in Hm; by destruct Hm).
  all: assert (Hgrows3 : only_grows s2 s3)
         by (assert (Hm : mspec only_grows (fun _ => True)
                            (try_except
                               (let* multi_agent_files :=
                                  lift_outcome (list_files os "multi_agents") in
                                for_each (load_shared_multi os)
                                  multi_agent_files)
                               (fun e =>
                                  logging
                                    (LogError
                                       ("Error loading multi-agents from Azure File Share: "
                                        ++ e)))))
               by (repeat first [apply grows_for_each
                                | apply grows_load_shared_multi | grows_step]);
             specialize (Hm s2); rewrite Hthree in Hm; by destruct Hm).
  - intros file Hfile.
    apply settled_grows with s2; [| done].
    apply settled_grows with s1; [| done].
    replace s1 with (snd (for_each (load_bundled os)
                            (bundled_agent_files bundled) st0))
      by (by rewrite Hone).
    apply (for_each_settles (load_bundled os) _ file
             (fun s => settled _ _ (declared_agents s) (log s)));
      [apply total_load_bundled, Hos | apply grows_load_bundled
      | intros; by eapply settled_grows
      | apply load_bundled_settles | done].
  - intros agent_files file_name Hfiles Hfile Hname.
    apply settled_grows with s2; [| done].
    destruct (total_for_each (load_shared os) agent_files
                (total_load_shared os Hos) s1) as ([] & s2' & Hloop).
    assert (s2 = s2') as <-.
    { revert Htwo. unfold try_except, bind. rewrite Hfiles. cbn.
      rewrite Hloop. by intros [= <-]. }
    replace s2 with (snd (for_each (load_shared os) agent_files s1))
      by (by rewrite Hloop).
    apply (for_each_settles (load_shared os) _ file_name
             (fun s => settled _ _ (declared_agents s) (log s)));
      [apply total_load_shared, Hos | apply grows_load_shared
      | intros; by eapply settled_grows
      | intros; by apply load_shared_settles | done].
  - intros multi_agent_files file_name Hfiles Hfile Hname.
    destruct (total_for_each (load_shared_multi os) multi_agent_files
                (total_load_shared_multi os Hos) s2) as ([] & s3' & Hloop).
    assert (s3 = s3') as <-.
    { revert Hthree. unfold try_except, bind. rewrite Hfiles. cbn.
      rewrite Hloop. by intros [= <-]. }
    replace s3 with (snd (for_each (load_shared_multi os)
                            multi_agent_files s2))
      by (by rewrite Hloop).
    apply (for_each_settles (load_shared_multi os) _ file_name
             (fun s => settled _ _ (declared_agents s) (log s)));
      [apply total_load_shared_multi, Hos | apply grows_load_shared_multi
      | intros; by eapply settled_grows
      | intros; by apply load_shared_multi_settles | done].
Qed.
End Survival.

Lemma mixed_share_well_behaved : well_behaved mixed_share.
Proof.
  unfold well_behaved, catchable_module, catchable. simpl.
  repeat split; intros;
    repeat match goal with
      | |- context [String.eqb ?a ?b] => destruct (String.eqb a b)
      | E : context [String.eqb ?a ?b] |- _ => destruct (String.eqb a b)
      end;
    try discriminate;
    match goal with E : Returns _ = Returns _ |- _ => injection E as <- end;
    repeat constructor; discriminate.
Qed.

Lemma rough_host_well_behaved : well_behaved rough_host.
Proof.
  unfold well_behaved, catchable_module, catchable. simpl.
  repeat split; intros;
    repeat match goal with
      | |- context [String.eqb ?a ?b] => destruct (String.eqb a b)
      | E : context [String.eqb ?a ?b] |- _ => destruct (String.eqb a b)
      end;
    try discriminate;
    match goal with E : Returns _ = Returns _ |- _ => injection E as <- end;
    repeat constructor; discriminate.
Qed.

(** Scenario 6: of [broken_agent.py], whose class raises when
    instantiated, and [stall_agent.py], discovery registers the tool of
    the second and logs the error of the first.  On [rough_host], where a
    bundled file cannot be imported, the first file of the share cannot be
    read and the second raises when executed, the tool of the third is
    registered all the same, and each failure is in the log, as are those
    of the [multi_agents] share. *)
Lemma discovery_survives_failures_witness :
  (exists registry st',
     load_agents_from_folder mixed_share clean = (Ret registry, st')
     /\ registry = [("Stall", stalling_tool)]
     /\ log st'
        = [LogError ("Error loading agent broken_agent.py"
                     ++ " from Azure File Share: boom")])
  /\ exists registry st',
       load_agents_from_folder rough_host clean = (Ret registry, st')
       /\ "Stall" ∈ dict_keys registry
       /\ LogError "Error loading agent broken_agent.py: No module named 'numpy'"
          ∈ log st'
       /\ LogError ("Error loading agent lost_agent.py"
                    ++ " from Azure File Share: share is offline") ∈ log st'
       /\ LogError ("Error loading agent broken_agent.py"
                    ++ " from Azure File Share: boom") ∈ log st'
       /\ LogError ("Error loading multi-agent broken_agent.py"
                    ++ " from Azure File Share: boom") ∈ log st'
       /\ LogError ("Error loading multi-agent crew_agent.py"
                    ++ " from Azure File Share: no crew") ∈ log st'.
Proof.
  split.
  - destruct (discovery_survives_failures mixed_share clean
                ["__init__.py"; "basic_agent.py"] eq_refl eq_refl
                mixed_share_well_behaved)
      as (registry & st' & Hrun & _ & _ & _ & Hscenario).
    exists registry, st'. split; [exact Hrun |].
    exact (Hscenario "broken_agent.py" "stall_agent.py" broken_source
             stall_source "BrokenAgent" "StallAgent" "boom" "Stall"
             stalling_tool [] eq_refl (or_introl eq_refl) eq_refl eq_refl
             eq_refl eq_refl eq_refl eq_refl eq_refl eq_refl).
  - destruct (discovery_survives_failures rough_host clean
                ["__init__.py"; "broken_agent.py"] eq_refl eq_refl
                rough_host_well_behaved)
      as (registry & st' & Hrun & Hbundled & Hshare & Hmulti & _).
    exists registry, st'. split; [exact Hrun |].
    assert (Hin1 : forall x y z : string, x ∈ [x; y; z])
      by (intros; apply list_elem_of_here).
    assert (Hin2 : forall x y z : string, y ∈ [x; y; z])
      by (intros; apply list_elem_of_further, list_elem_of_here).
    assert (Hin3 : forall x y z : string, z ∈ [x; y; z])
      by (intros; do 2 apply list_elem_of_further; apply list_elem_of_here).
    split.
    { refine (proj1 (Hshare _ "stall_agent.py" eq_refl (Hin3 _ _ _) eq_refl)
                _ "Stall" _).
      - repeat constructor. done.
      - exists "StallAgent", stalling_tool. split; [| done].
        apply list_elem_of_further, list_elem_of_here. }
    split.
    { exact (Hbundled "broken_agent.py" (list_elem_of_here _ _)). }
    split.
    { exact (Hshare _ "lost_agent.py" eq_refl (Hin1 _ _ _) eq_refl). }
    split.
    { exact (Hshare _ "broken_agent.py" eq_refl (Hin2 _ _ _) eq_refl). }
    split.
    { exact (Hmulti _ "broken_agent.py" eq_refl (Hin1 _ _ _) eq_refl). }
    refine (proj2 (Hmulti _ "crew_agent.py" eq_refl (Hin2 _ _ _) eq_refl)
              "no crew" _).
    exists [], "CrewAgent", []. split; [reflexivity | constructor].
Defined.

(** C4 as stated fails: the storage client is constructed outside every
    [try], so when its construction raises, discovery raises. *)
Lemma discovery_survives_failures_counterexample :
  new_storage_manager unconfigured
  = Raises (Exception "Connection string is required")
  /\ fst (load_agents_from_folder unconfigured clean)
     = Raise (Exception "Connection string is required").
Proof. split; reflexivity. Qed.

(** * Further properties of the engine *)

(** ** Identity signals, continued *)

Lemma rstrip_last (s b : string) (c : ascii) :
  rstrip s = b ++ String c "" -> is_space c = false.
Proof.
  revert b. induction s as [|a s IH]; intros b; cbn [rstrip].
  - by destruct b.
  - destruct (rstrip s) as [|x r] eqn:E.
    + destruct (is_space a) eqn:Ha; [by destruct b |].
      destruct b as [|a' b]; [| by destruct b].
      rewrite string_app_nil_l. by intros [= <-].
    + destruct b as [|a' b]; [rewrite string_app_nil_l; done |].
      rewrite string_app_cons. intros [= _ Hr]. by apply (IH b).
Qed.

Lemma strip_last (s b : string) (c : ascii) :
  strip s = b ++ String c "" -> is_space c = false.
Proof. apply rstrip_last. Qed.

Lemma is_hex_guid_char (c : ascii) : is_hex c = true -> is_guid_char c = true.
Proof. unfold is_guid_char. by intros ->. Qed.

Lemma all_chars_app (p : ascii -> bool) (a b : string) :
  all_chars p (a ++ b) = all_chars p a && all_chars p b.
Proof.
  induction a as [|c a IH]; [done |].
  rewrite string_app_cons. cbn [all_chars]. by rewrite IH, andb_assoc.
Qed.

Lemma hexes_chars (n : nat) (s r : string) :
  hexes n s = Some r ->
  exists h, s = h ++ r /\ String.length h = n /\ all_chars is_hex h = true.
Proof.
  revert s. induction n as [|n IH]; intros s; simpl.
  - intros [= ->]. by exists "".
  - destruct s as [|c s]; [done |].
    destruct (is_hex c) eqn:Hc; [| done].
    intros (h & -> & <- & Hh)%IH. exists (String c h).
    split; [done |]. split; [done |]. simpl. by rewrite Hc, Hh.
Qed.

Lemma all_chars_impl (p q : ascii -> bool) (s : string) :
  (forall c, p c = true -> q c = true) ->
  all_chars p s = true -> all_chars q s = true.
Proof.
  intros Hpq. induction s as [|c s IH]; [done |]. cbn [all_chars].
  intros [Hc Hs]%andb_prop. by rewrite (Hpq c Hc), IH.
Qed.

Lemma hex_groups_chars (groups : list nat) (s r : string) :
  hex_groups groups s = Some r ->
  exists b, s = b ++ r /\ String.length b = groups_length groups
            /\ all_chars is_guid_char b = true.
Proof.
  revert s. induction groups as [|n groups IH]; intros s.
  - intros [= ->]. by exists "".
  - destruct groups as [|m groups].
    + intros (h & -> & Hlen & Hh)%hexes_chars. exists h.
      split; [done |]. split; [done |].
      exact (all_chars_impl is_hex is_guid_char h is_hex_guid_char Hh).
    + change (groups_length (n :: m :: groups))
        with (n + 1 + groups_length (m :: groups))%nat.
      cbn [hex_groups].
      destruct (hexes n s) as [r1|] eqn:E1; [| done].
      apply hexes_chars in E1 as (h & -> & <- & Hh).
      destruct r1 as [|c r2]; [done |]. unfold dash.
      destruct (Ascii.eqb_spec c "-") as [->|Hc];
        [| by destruct c as [[] [] [] [] [] [] [] []]].
      intros (b & -> & Hlen & Hb)%IH.
      exists (h ++ String "-" b). split; [| split].
      * by rewrite string_app_assoc.
      * rewrite string_length_app, <- Hlen. simpl. lia.
      * rewrite all_chars_app. cbn [all_chars].
        rewrite (all_chars_impl is_hex is_guid_char h is_hex_guid_char Hh).
        by rewrite Hb.
Qed.

Lemma guid_char_not_space (c : ascii) :
  is_guid_char c = true -> is_space c = false /\ is_label_sep c = false.
Proof.
  destruct c as [[] [] [] [] [] [] [] []]; vm_compute; intuition congruence.
Qed.

Lemma at_end_cases (rest : string) :
  at_end rest = true -> rest = "" \/ rest = String "010" "".
Proof.
  destruct rest as [|c [|c' rest]]; [by left | | ].
  - destruct c as [[] [] [] [] [] [] [] []]; try done. by right.
  - by destruct c as [[] [] [] [] [] [] [] []].
Qed.

(** What the GUID pattern matches in a stripped text is the whole text:
    36 hexadecimal digits and dashes. *)
Lemma guid_pattern_strip (x g : string) :
  guid_pattern (strip x) = Some g ->
  g = strip x /\ String.length g = 36%nat
  /\ all_chars is_guid_char g = true /\ guid_pattern g = Some g.
Proof.
  intros Hg. pose proof Hg as Hg'. revert Hg. unfold guid_pattern at 1.
  destruct (hex_groups _ (strip x)) as [rest|] eqn:E; [| done].
  destruct (at_end rest) eqn:Hend; [| done].
  apply hex_groups_chars in E as (b & Hb & Hlen & Hchars).
  change (groups_length _) with 36%nat in Hlen.
  apply at_end_cases in Hend as [-> | ->].
  - rewrite JsonFacts.string_app_nil_r in Hb. rewrite Hb.
    rewrite <- Hlen at 1. rewrite <- (JsonFacts.string_app_nil_r b) at 2.
    rewrite string_take_app. intros [= <-].
    split; [done |]. split; [done |]. split; [done |]. by rewrite Hb in Hg'.
  - by apply strip_last in Hb.
Qed.

Lemma guid_chars_chars (n : nat) (s r : string) :
  guid_chars n s = Some r ->
  exists h, s = h ++ r /\ String.length h = n
            /\ all_chars is_guid_char h = true.
Proof.
  revert s. induction n as [|n IH]; intros s; simpl.
  - intros [= ->]. by exists "".
  - destruct s as [|c s]; [done |].
    destruct (is_guid_char c) eqn:Hc; [| done].
    intros (h & -> & <- & Hh)%IH. exists (String c h).
    split; [done |]. split; [done |]. simpl. by rewrite Hc, Hh.
Qed.

Lemma skip_label_seps_suffix (s : string) :
  exists seps, s = seps ++ skip_label_seps s.
Proof.
  induction s as [|c s [seps IH]]; [by exists "" |]. cbn [skip_label_seps].
  destruct (is_label_sep c); [| by exists ""].
  exists (String c seps). by rewrite string_app_cons, <- IH.
Qed.

(** X1: whatever [extract_user_guid] finds is the end of the stripped
    text, 36 characters long, all of them hexadecimal digits or dashes;
    when it is the whole stripped text it has the shape of a GUID. *)
Theorem extract_user_guid_shape `{PyRuntime} (text : pyval) (g : string) :
  extract_user_guid text = Some g ->
  String.length g = 36%nat
  /\ all_chars is_guid_char g = true
  /\ exists label,
       strip (py_str text) = label ++ g
       /\ (label = "" -> guid_pattern g = Some g).
Proof.
  unfold extract_user_guid. destruct (is_none text); [done |].
  destruct (guid_pattern (strip (py_str text))) as [g'|] eqn:E.
  - intros [= ->]. apply guid_pattern_strip in E as (-> & Hlen & Hc & Hg).
    split; [done |]. split; [done |]. by exists "".
  - unfold labeled_guid_pattern.
    destruct (strip (py_str text)) as [|c1 [|c2 [|c3 [|c4 [|c5 r]]]]] eqn:Et;
      try done.
    destruct (_ && _); [| done].
    destruct (guid_chars 36 (skip_label_seps r)) as [rest|] eqn:Eg; [| done].
    destruct (at_end rest) eqn:Hend; [| done]. intros Hg.
    assert (g = string_take 36 (skip_label_seps r)) as -> by congruence.
    clear Hg. apply guid_chars_chars in Eg as (h & Hh & Hlen & Hchars).
    destruct (skip_label_seps_suffix r) as [seps Hr].
    rewrite Hh, <- Hlen, string_take_app.
    split; [done |]. split; [done |].
    apply at_end_cases in Hend as [-> | ->].
    + rewrite JsonFacts.string_app_nil_r in Hh.
      exists (String c1 (String c2 (String c3 (String c4 (String c5 seps))))).
      split; [| done]. rewrite !string_app_cons. by rewrite Hr, Hh.
    + exfalso.
      assert (Hlast : strip (py_str text)
                      = (String c1 (String c2 (String c3 (String c4
                           (String c5 (seps ++ h))))))
                        ++ String "010" "").
      { rewrite Et, !string_app_cons, string_app_assoc. by rewrite Hr, Hh. }
      by apply strip_last in Hlast.
Qed.

Lemma extract_user_guid_shape_witness :
  String.length sample_guid = 36%nat
  /\ all_chars is_guid_char sample_guid = true
  /\ exists label,
       strip (@py_str python (PStr ("  " ++ sample_guid ++ " ")))
       = label ++ sample_guid
       /\ (label = "" -> guid_pattern sample_guid = Some sample_guid).
Proof.
  apply (@extract_user_guid_shape python (PStr ("  " ++ sample_guid ++ " "))).
  vm_compute; reflexivity.
Defined.

Lemma rstrip_app_no_space (a b : string) :
  b <> "" -> no_space b = true -> rstrip (a ++ b) = a ++ b.
Proof.
  intros Hb Hs. induction a as [|c a IH].
  - rewrite string_app_nil_l.
    clear Hb. induction b as [|c b IH]; [done |]. cbn [no_space] in Hs.
    apply andb_prop in Hs as [Hc Hs]. cbn [rstrip]. rewrite (IH Hs).
    destruct b; [| done]. by destruct (is_space c).
  - rewrite string_app_cons. cbn [rstrip]. rewrite IH.
    destruct (a ++ b) eqn:E; [| done].
    apply (f_equal String.length) in E. rewrite string_length_app in E.
    destruct b; [done | simpl in E; lia].
Qed.

Lemma guid_chars_no_space (g : string) :
  all_chars is_guid_char g = true -> no_space g = true.
Proof.
  induction g as [|c g IH]; [done |]. cbn [all_chars no_space].
  intros [Hc Hg]%andb_prop.
  by rewrite (proj1 (guid_char_not_space c Hc)), IH.
Qed.

Lemma skip_label_seps_app (seps g : string) :
  all_chars is_label_sep seps = true ->
  all_chars is_guid_char g = true ->
  skip_label_seps (seps ++ g) = g.
Proof.
  intros Hseps Hg. induction seps as [|c seps IH].
  - rewrite string_app_nil_l. destruct g as [|c g]; [done |].
    cbn [all_chars] in Hg. apply andb_prop in Hg as [Hc _].
    cbn [skip_label_seps]. by rewrite (proj2 (guid_char_not_space c Hc)).
  - cbn [all_chars] in Hseps. apply andb_prop in Hseps as [Hc Hseps].
    rewrite string_app_cons. cbn [skip_label_seps]. rewrite Hc. by apply IH.
Qed.

Lemma guid_chars_all (g : string) :
  all_chars is_guid_char g = true ->
  guid_chars (String.length g) g = Some "".
Proof.
  induction g as [|c g IH]; [done |]. cbn [all_chars].
  intros [Hc Hg]%andb_prop. cbn [String.length guid_chars].
  rewrite Hc. by apply IH.
Qed.

(** X2: the labelled form does not ask for the shape of a GUID: after
    [guid] and a run of colons, equal signs and whitespace, any 36
    hexadecimal digits and dashes are taken as the identity. *)
Theorem labelled_guid_accepted `{PyRuntime} (seps g : string) :
  seps <> "" ->
  all_chars is_label_sep seps = true ->
  String.length g = 36%nat ->
  all_chars is_guid_char g = true ->
  extract_user_guid (PStr ("guid" ++ seps ++ g)) = Some g.
Proof.
  intros Hne Hseps Hlen Hg. unfold extract_user_guid.
  cbn [is_none py_str].
  assert (Hstrip : strip ("guid" ++ seps ++ g) = "guid" ++ seps ++ g).
  { unfold strip. rewrite !string_app_cons, string_app_nil_l.
    cbn [lstrip]. change (is_space "g") with false. cbv iota.
    change (String "g" (String "u" (String "i" (String "d" (seps ++ g)))))
      with ("guid" ++ (seps ++ g)).
    rewrite <- string_app_assoc.
    apply rstrip_app_no_space; [| by apply guid_chars_no_space].
    intros ->. done. }
  rewrite Hstrip. rewrite !string_app_cons, string_app_nil_l.
  change (guid_pattern _) with (@None string).
  destruct seps as [|c seps]; [done |]. cbn [all_chars] in Hseps.
  apply andb_prop in Hseps as [Hc Hseps].
  rewrite string_app_cons. unfold labeled_guid_pattern.
  change (eq_nocase "g" "G" "g") with true.
  change (eq_nocase "u" "U" "u") with true.
  change (eq_nocase "i" "I" "i") with true.
  change (eq_nocase "d" "D" "d") with true.
  rewrite Hc. cbn [andb].
  rewrite (skip_label_seps_app seps g Hseps Hg).
  rewrite <- Hlen at 1. rewrite (guid_chars_all g Hg). cbn [at_end].
  rewrite <- Hlen. rewrite <- (JsonFacts.string_app_nil_r g) at 2.
  by rewrite string_take_app.
Qed.

Lemma labelled_guid_accepted_witness :
  @extract_user_guid python
    (PStr ("guid" ++ ": " ++ "------------------------------------"))
  = Some "------------------------------------".
Proof.
  apply (@labelled_guid_accepted python ": "
           "------------------------------------");
    [done | reflexivity | reflexivity | reflexivity].
Defined.

(** X3: the first turn of a history is taken as an identity only when the
    history is a list, the turn a dictionary with the role [user], and its
    content, once stripped, a GUID in full; the identity is that stripped
    content. *)
Theorem first_message_guid `{PyRuntime} (conversation_history : pyval)
    (g : string) :
  _check_first_message_for_guid conversation_history = Returns (Some g) ->
  exists m rest,
    conversation_history = PList (PDict m :: rest)
    /\ py_get "role" m = PStr "user"
    /\ g = strip (py_str (py_get "content" m))
    /\ guid_pattern g = Some g
    /\ String.length g = 36%nat.
Proof.
  unfold _check_first_message_for_guid.
  destruct (truthy conversation_history); [| done]. cbn [negb].
  destruct conversation_history as [| b | z | f | s | l | d]; try done.
  - by destruct s.
  - destruct l as [|first rest]; [done |].
    destruct first as [| b | z | f | s | l | m]; try done.
    destruct (eq_str (py_get "role" m) "user") eqn:Hrole; [| done].
    destruct (is_none (py_get "content" m)); [done |].
    destruct (guid_pattern _) as [g'|] eqn:E; [| done].
    intros [= <-]. apply guid_pattern_strip in E as (-> & Hlen & _ & Hg).
    exists m, rest. split; [done |]. split; [| done].
    destruct (py_get "role" m); try done. simpl in Hrole.
    by apply String.eqb_eq in Hrole as ->.
Qed.

Lemma first_message_guid_witness :
  exists m rest,
    PList [PDict [("role", PStr "user");
                  ("content", PStr (" " ++ sample_guid))]]
    = PList (PDict m :: rest)
    /\ py_get "role" m = PStr "user"
    /\ sample_guid = strip (@py_str python (py_get "content" m))
    /\ guid_pattern sample_guid = Some sample_guid
    /\ String.length sample_guid = 36%nat.
Proof.
  apply (@first_message_guid python
           (PList [PDict [("role", PStr "user");
                          ("content", PStr (" " ++ sample_guid))]])).
  vm_compute; reflexivity.
Defined.

(** ** The messages of a turn *)

Lemma ensure_string_content_turn `{PyRuntime} (message : pyval) :
  well_formed_turn (ensure_string_content message).
Proof.
  unfold well_formed_turn.
  destruct message as [| b | z | f | s | l | d];
    try (eexists _, _, _; repeat split; reflexivity).
  unfold ensure_string_content, dict_has.
  destruct (dict_get "role" d) as [r|] eqn:Er.
  - destruct (dict_get "content" d) as [c|] eqn:Ec;
      eexists _, _, _; (split; [reflexivity |]);
      rewrite dict_get_set_eq, dict_get_set_ne, Er by done; done.
  - rewrite (dict_get_set_ne "role" "content") by done.
    destruct (dict_get "content" d) as [c|] eqn:Ec;
      eexists _, _, _; (split; [reflexivity |]);
      rewrite dict_get_set_eq, !dict_get_set_ne, dict_get_set_eq by done;
      done.
Qed.

Lemma check_first_message_truthy `{PyRuntime} (h : pyval) (o : option string) :
  _check_first_message_for_guid h = Returns o ->
  opt_truthy o = match o with Some _ => true | None => false end.
Proof.
  destruct o as [g|]; [| done]. unfold _check_first_message_for_guid.
  destruct (truthy h); [| done]. cbn [negb].
  destruct h as [| b | z | f | s | l | d]; try done; [by destruct s |].
  destruct l as [|first rest]; [done |].
  destruct first as [| b | z | f | s | l | m]; try done.
  destruct (eq_str _ _); [| done]. destruct (is_none _); [done |].
  destruct (guid_pattern _) as [g'|] eqn:E; [| done].
  intros [= <-]. apply guid_pattern_strip in E as (<- & Hlen & _).
  cbn [opt_truthy]. by destruct g'.
Qed.

Section Messages.
Context `{PyRuntime} (self : session).

Lemma ensure_system_message (st : state) :
  ensure_string_content (system_message self st) = system_message self st.
Proof. reflexivity. Qed.

(** [prepare_messages] as an equation. *)
Lemma prepare_messages_eq (conversation_history : pyval) (st : state)
    (ms : list pyval) (st' : state) :
  prepare_messages self conversation_history st = (Ret ms, st') ->
  let l := match conversation_history with PList l => l | _ => [] end in
  st' = st
  /\ ms = system_message self st
          :: map ensure_string_content
               (match _check_first_message_for_guid (PList l) with
                | Returns (Some _) => drop 1 l
                | _ => l
                end).
Proof.
  unfold prepare_messages, bind. cbn [get_state].
  set (l := match conversation_history with PList l => l | _ => [] end).
  destruct (_check_first_message_for_guid (PList l)) as [o|e] eqn:E;
    cbn [lift_outcome ret raise]; [| done].
  rewrite (check_first_message_truthy _ _ E).
  intros [= <- <-]. split; [done |]. by destruct o.
Qed.

(** X4: when [prepare_messages] returns, it has changed nothing; the
    messages are the system turn followed by the normalised turns of the
    history, without the first one when that turn only carries a GUID
    (none when the history is not a list); every message is a
    well-formed turn. *)
Theorem prepare_messages_turns (conversation_history : pyval) (st : state)
    (ms : list pyval) (st' : state) :
  prepare_messages self conversation_history st = (Ret ms, st') ->
  st' = st
  /\ Forall well_formed_turn ms
  /\ ms = system_message self st
          :: map ensure_string_content
               (match conversation_history with
                | PList l =>
                    match _check_first_message_for_guid (PList l) with
                    | Returns (Some _) => drop 1 l
                    | _ => l
                    end
                | _ => []
                end).
Proof.
  intros Hrun. apply prepare_messages_eq in Hrun as [-> ->].
  split; [done |]. split.
  - apply Forall_cons. split.
    + rewrite <- ensure_system_message. apply ensure_string_content_turn.
    + apply Forall_map, Forall_true. intros x.
      apply ensure_string_content_turn.
  - by destruct conversation_history.
Qed.

Lemma trim_history_length (l : list pyval) :
  exists l', trim_history (PList l) = PList l' /\ (length l' <= 20)%nat
             /\ l' = last_n 20 l.
Proof.
  unfold trim_history. destruct (Nat.ltb_spec 20 (length l)).
  - exists (last_n 20 l). split; [done |]. split; [| done].
    unfold last_n. rewrite length_drop. lia.
  - exists l. split; [done |]. split; [done |].
    unfold last_n. replace (length l - 20)%nat with 0%nat by lia. done.
Qed.

(** The messages with which a turn reaches the loop. *)
Lemma begin_turn_messages (prompt conversation_history : pyval)
    (st st1 : state) :
  begin_turn self prompt conversation_history st = (Ret None, st1) ->
  exists st0 ms,
    prepare_messages self (trim_history conversation_history) st0
    = (Ret ms, st0)
    /\ messages st1
       = (ms ++ [PDict [("role", PStr "user");
                        ("content",
                         PStr (if is_none prompt then ""
                               else py_str prompt))]])%list
    /\ user_guid st1 = user_guid st0
    /\ trace st1 = trace st0.
Proof.
  unfold begin_turn, bind.
  destruct (resolve_identity _ _ _ st) as [[gp | e |] st0]; [| done | done].
  cbn [get_state]. destruct (_ && _); [done |].
  destruct (prepare_messages _ _ st0) as [[ms | e |] st0'] eqn:E;
    [| done | done].
  pose proof (prepare_messages_eq _ _ _ _ E) as [-> _].
  cbn [modify ret]. intros [= <-]. by exists st0, ms.
Qed.

(** X5: only the last 20 entries of the history reach the model: the
    first call of a turn carries the system turn, at most 20 turns of
    history and the turn of the prompt, the prompt being its own [str]
    (empty for [None]). *)
Theorem history_is_bounded (prompt conversation_history : pyval)
    (st st1 : state) :
  begin_turn self prompt conversation_history st = (Ret None, st1) ->
  (length (messages st1) <= 22)%nat
  /\ last (messages st1)
     = Some (PDict [("role", PStr "user");
                    ("content",
                     PStr (if is_none prompt then "" else py_str prompt))])
  /\ forall l,
       conversation_history = PList l ->
       exists skipped,
         (skipped <= 1)%nat
         /\ tail (removelast (messages st1))
            = map ensure_string_content (drop skipped (last_n 20 l)).
Proof.
  intros Hbegin.
  apply begin_turn_messages in Hbegin as (st0 & ms & Hms & -> & _).
  apply prepare_messages_eq in Hms as [_ ->].
  split; [| split].
  - rewrite length_app. cbn [length]. rewrite length_map.
    destruct conversation_history as [| b | z | f | s | l | d];
      try (cbn; lia).
    destruct (trim_history_length l) as (l' & -> & Hlen & _).
    destruct (_check_first_message_for_guid _) as [[g|]|];
      rewrite ?length_drop; lia.
  - apply last_snoc.
  - intros l ->. destruct (trim_history_length l) as (l' & -> & _ & ->).
    rewrite removelast_last. cbn [tail].
    destruct (_check_first_message_for_guid _) as [[g|]|];
      [exists 1%nat | exists 0%nat | exists 0%nat]; (split; [lia | done]).
Qed.
End Messages.

(** ** Return paths of the loop *)

Section Paths.
Context `{PyRuntime} (self : session).

(** An iteration whose attempt returns a reply ends the loop. *)
Lemma dispatch_loop_returns (max_retries retry_delay : Z) (fuel : nat)
    (st st' : state) (r : reply) :
  retry_count st < max_retries ->
  attempt self st = (Ret (Some r), st') ->
  dispatch_loop self max_retries retry_delay (S fuel) st = (Ret r, st').
Proof.
  intros Hlt Hattempt. cbn [dispatch_loop]. unfold bind at 1.
  cbn [get_state]. destruct (Z.ltb_spec (retry_count st) max_retries); [| lia].
  unfold bind at 1, try_except. by rewrite Hattempt.
Qed.

(** A turn that reaches the loop ends as the loop does. *)
Lemma get_response_loop (fuel : nat) (prompt conversation_history : pyval)
    (max_retries retry_delay : Z) (st st1 st2 : state) (r : reply) :
  begin_turn self prompt conversation_history st = (Ret None, st1) ->
  dispatch_loop self max_retries retry_delay fuel st1 = (Ret r, st2) ->
  get_response self fuel prompt conversation_history max_retries retry_delay
    st = (Ret r, st2).
Proof.
  intros Hbegin Hloop. unfold get_response, try_except. unfold bind at 1.
  by rewrite Hbegin, Hloop.
Qed.

(** An attempt in which the model answers without selecting a tool. *)
Lemma attempt_direct (st : state) (content : option string)
    (choices : list assistant_message) :
  chat_completions_create self (trace st) (messages st)
    (get_agent_metadata self)
  = Returns ({| msg_content := content; msg_function_call := None |}
             :: choices) ->
  attempt self st
  = (Ret (Some (fst (parse_response_with_game_data (default "" content)),
                json_dumps
                  (snd (parse_response_with_game_data (default "" content))),
                join nl (agent_logs st))),
     emit (api_call self st) st).
Proof.
  intros Hcall. unfold attempt. unfold bind at 1.
  rewrite get_openai_api_call_eq, Hcall.
  cbn [lift_outcome ret]. unfold bind at 1. cbn [first_choice ret].
  cbn [msg_function_call msg_content]. unfold finalize.
  by destruct (parse_response_with_game_data _).
Qed.

(** X6: when the model's first answer of a turn selects no tool, the
    reply is that answer decoded: the narrative, the serialised game data
    and empty logs, after one call to the chat endpoint and nothing
    else. *)
Theorem direct_reply (fuel : nat) (prompt conversation_history : pyval)
    (max_retries retry_delay : Z) (st st1 : state) (content : option string)
    (choices : list assistant_message) :
  begin_turn self prompt conversation_history st = (Ret None, st1) ->
  0 < max_retries ->
  chat_completions_create self (trace st1) (messages st1)
    (get_agent_metadata self)
  = Returns ({| msg_content := content; msg_function_call := None |}
             :: choices) ->
  get_response self (S fuel) prompt conversation_history max_retries
    retry_delay st
  = (Ret (fst (parse_response_with_game_data (default "" content)),
          json_dumps
            (snd (parse_response_with_game_data (default "" content))),
          ""),
     emit (api_call self st1) st1).
Proof.
  intros Hbegin Hmax Hcall.
  destruct (begin_turn_None self _ _ _ _ Hbegin) as [Hcount Hlogs].
  apply (get_response_loop _ _ _ _ _ _ st1); [done |].
  apply dispatch_loop_returns; [lia |].
  rewrite (attempt_direct st1 content choices Hcall). by rewrite Hlogs.
Qed.

(** The keyword arguments a tool is called with. *)
Lemma run_agent_perform (name : string) (a : agent)
    (json_data : option string) (d : list (string * pyval)) (st : state) :
  safe_json_loads json_data = Returns (PDict d) ->
  let kwargs :=
    if existsb (String.eqb name) identity_sensitive
    then dict_set "user_guid" (user_guid st) (sanitize d)
    else sanitize d in
  run_agent name a json_data st
  = match agent_perform a (trace st) kwargs with
    | Returns result =>
        let result := if is_none result then "Agent completed successfully"
                      else py_str result in
        (Ret (inr result),
         set_agent_logs
           (agent_logs st
            ++ ["Performed " ++ name ++ " and got result: " ++ result])
           (emit (EvPerform name kwargs) st))
    | Raises (Exception msg) =>
        (Ret (inl ("Error executing agent: " ++ msg, "{}", "")),
         emit (EvPerform name kwargs) st)
    | Raises (BaseException msg) =>
        (Raise (BaseException msg), emit (EvPerform name kwargs) st)
    end.
Proof.
  intros Hargs kwargs. unfold run_agent, try_except. unfold bind at 1.
  rewrite Hargs. cbn [lift_outcome ret]. unfold bind at 1. cbn [ret].
  unfold bind at 1. cbn [get_state]. unfold bind at 1, call.
  fold kwargs. destruct (agent_perform a (trace st) kwargs) as [v | [msg | msg]];
    done.
Qed.

(** An attempt in which the model selects a registered tool. *)
Lemma attempt_tool (st : state) (content : option string) (name : string)
    (arguments : pyval) (choices : list assistant_message) (a : agent) :
  chat_completions_create self (trace st) (messages st)
    (get_agent_metadata self)
  = Returns ({| msg_content := content;
                msg_function_call :=
                  Some {| fc_name := name; fc_arguments := arguments |} |}
             :: choices) ->
  dict_get name (known_agents self) = Some a ->
  attempt self st
  = (let* r := run_agent name a (ensure_string_function_args arguments) in
     match r with
     | inl error_reply => ret (Some error_reply)
     | inr result =>
         modify (fun st =>
                   set_messages
                     (messages st
                      ++ [PDict [("role", PStr "function");
                                 ("name", PStr name);
                                 ("content", PStr result)]]) st) ;;;
         if needs_follow_up result then ret None
         else
           let* final_response := get_openai_api_call self in
           let* final_msg := first_choice final_response in
           let final_content := default "" (msg_content final_msg) in
           let* r := finalize final_content in
           ret (Some r)
     end) (emit (api_call self st) st).
Proof.
  intros Hcall Hget. unfold attempt. unfold bind at 1.
  rewrite get_openai_api_call_eq, Hcall.
  cbn [lift_outcome ret]. unfold bind at 1. cbn [first_choice ret].
  cbn [msg_function_call fc_name fc_arguments]. by rewrite Hget.
Qed.

(** X7: a tool that raises ends the turn at once with
    [("Error executing agent: <message>", "{}", "")]: one call to the
    chat endpoint, one call to the tool, no retry and no sleep, whatever
    [max_retries] allows. *)
Theorem tool_error_is_terminal (fuel : nat)
    (prompt conversation_history : pyval) (max_retries retry_delay : Z)
    (st st1 : state) (content : option string) (name : string)
    (arguments : pyval) (choices : list assistant_message) (a : agent)
    (d : list (string * pyval)) (msg : string) :
  begin_turn self prompt conversation_history st = (Ret None, st1) ->
  0 < max_retries ->
  chat_completions_create self (trace st1) (messages st1)
    (get_agent_metadata self)
  = Returns ({| msg_content := content;
                msg_function_call :=
                  Some {| fc_name := name; fc_arguments := arguments |} |}
             :: choices) ->
  dict_get name (known_agents self) = Some a ->
  safe_json_loads (ensure_string_function_args arguments)
  = Returns (PDict d) ->
  (forall tr kwargs, agent_perform a tr kwargs = Raises (Exception msg)) ->
  exists kwargs st2,
    get_response self (S fuel) prompt conversation_history max_retries
      retry_delay st
    = (Ret ("Error executing agent: " ++ msg, "{}", ""), st2)
    /\ trace st2
       = (trace st1 ++ [api_call self st1; EvPerform name kwargs])%list.
Proof.
  intros Hbegin Hmax Hcall Hget Hargs Hperform.
  destruct (begin_turn_None self _ _ _ _ Hbegin) as [Hcount _].
  eexists _, _. split.
  - apply (get_response_loop _ _ _ _ _ _ st1); [done |].
    apply dispatch_loop_returns; [lia |].
    rewrite (attempt_tool st1 _ _ _ _ a Hcall Hget). unfold bind at 1.
    rewrite (run_agent_perform _ _ _ d _ Hargs), Hperform. reflexivity.
  - cbn [trace emit]. by rewrite <- app_assoc.
Qed.

(** X8: after a tool result that asks for no follow-up, the reply is the
    second answer of the model decoded, with the tool's result in the
    logs; a tool selected by that second answer is not run.  The second
    call carries the messages of the first and the result as a
    [function] turn. *)
Theorem tool_result_is_narrated (fuel : nat)
    (prompt conversation_history : pyval) (max_retries retry_delay : Z)
    (st st1 : state) (content : option string) (name : string)
    (arguments : pyval) (choices : list assistant_message) (a : agent)
    (d : list (string * pyval)) (v : pyval)
    (final_msg : assistant_message) (final_choices : list assistant_message) :
  begin_turn self prompt conversation_history st = (Ret None, st1) ->
  0 < max_retries ->
  chat_completions_create self (trace st1) (messages st1)
    (get_agent_metadata self)
  = Returns ({| msg_content := content;
                msg_function_call :=
                  Some {| fc_name := name; fc_arguments := arguments |} |}
             :: choices) ->
  dict_get name (known_agents self) = Some a ->
  safe_json_loads (ensure_string_function_args arguments)
  = Returns (PDict d) ->
  (forall tr kwargs, agent_perform a tr kwargs = Returns v) ->
  let result := if is_none v then "Agent completed successfully"
                else py_str v in
  let messages2 :=
    (messages st1 ++ [PDict [("role", PStr "function");
                             ("name", PStr name);
                             ("content", PStr result)]])%list in
  needs_follow_up result = false ->
  (forall tr, chat_completions_create self tr messages2
                (get_agent_metadata self)
              = Returns (final_msg :: final_choices)) ->
  let final_content := default "" (msg_content final_msg) in
  exists kwargs st2,
    get_response self (S fuel) prompt conversation_history max_retries
      retry_delay st
    = (Ret (fst (parse_response_with_game_data final_content),
            json_dumps (snd (parse_response_with_game_data final_content)),
            "Performed " ++ name ++ " and got result: " ++ result), st2)
    /\ trace st2
       = (trace st1
          ++ [api_call self st1; EvPerform name kwargs;
              EvApiCall messages2 (get_agent_metadata self)])%list.
Proof.
  intros Hbegin Hmax Hcall Hget Hargs Hperform result messages2 Hfollow
    Hfinal final_content.
  destruct (begin_turn_None self _ _ _ _ Hbegin) as [Hcount Hlogs].
  eexists _, _. split.
  - apply (get_response_loop _ _ _ _ _ _ st1); [done |].
    apply dispatch_loop_returns; [lia |].
    rewrite (attempt_tool st1 _ _ _ _ a Hcall Hget). unfold bind at 1.
    rewrite (run_agent_perform _ _ _ d _ Hargs), Hperform.
    cbv zeta. fold result. unfold bind at 1. cbn [modify].
    rewrite Hfollow. unfold bind at 1.
    rewrite get_openai_api_call_eq.
    cbn [messages set_messages set_agent_logs emit trace].
    fold messages2. rewrite Hfinal. cbn [lift_outcome ret].
    unfold bind at 1. cbn [first_choice ret]. fold final_content.
    unfold finalize.
    destruct (parse_response_with_game_data final_content) as [n g].
    unfold bind. cbn [get_state ret agent_logs set_messages set_agent_logs
                        emit fst snd].
    rewrite Hlogs. reflexivity.
  - cbn [trace emit set_messages set_agent_logs api_call messages].
    by rewrite <- !app_assoc.
Qed.
End Paths.

(** ** Retries *)

Section Retries.
Context `{PyRuntime} (self : session).

(** The trace after [k] failed attempts, each followed by a sleep. *)
Lemma failed_attempts_app (k : nat) (tr : list event) (ev sl : event) :
  ((tr ++ concat (replicate k [ev; sl])) ++ [ev; sl])%list
  = (tr ++ concat (replicate (S k) [ev; sl]))%list.
Proof.
  rewrite <- app_assoc. f_equal.
  induction k as [|k IH]; [done |].
  cbn [replicate concat]. rewrite <- !app_assoc. by rewrite IH.
Qed.

(** [k] failed attempts in a row, with retries left after them. *)
Lemma dispatch_loop_failures (max_retries retry_delay : Z) (k : nat) :
  0 <= retry_delay ->
  forall (fuel : nat) (st : state),
    retry_count st + Z.of_nat k < max_retries ->
    (forall i, (i < k)%nat ->
       exists msg,
         chat_completions_create self
           (trace st ++ concat (replicate i [api_call self st;
                                             EvSleep retry_delay]))
           (messages st) (get_agent_metadata self)
         = Raises (Exception msg)) ->
    exists st',
      dispatch_loop self max_retries retry_delay (k + fuel) st
      = dispatch_loop self max_retries retry_delay fuel st'
      /\ trace st'
         = (trace st ++ concat (replicate k [api_call self st;
                                             EvSleep retry_delay]))%list
      /\ messages st' = messages st
      /\ agent_logs st' = agent_logs st
      /\ retry_count st' = retry_count st + Z.of_nat k.
Proof.
  intros Hdelay. induction k as [|k IH]; intros fuel st Hlt Hfail.
  - exists st. cbn [replicate concat]. rewrite app_nil_r.
    repeat split; try done. lia.
  - destruct (IH (S fuel) st) as (st1 & Hloop & Htrace & Hms & Hlogs & Hcount);
      [lia | intros i Hi; apply Hfail; lia |].
    destruct (Hfail k) as [msg Hcall]; [lia |].
    rewrite <- Htrace, <- Hms in Hcall.
    replace (S k + fuel)%nat with (k + S fuel)%nat by lia.
    rewrite Hloop.
    rewrite (dispatch_loop_raises self max_retries retry_delay fuel st1 msg)
      by (done || lia).
    destruct (Z.ltb_spec (retry_count st1 + 1) max_retries); [| lia].
    eexists. split; [reflexivity |].
    cbn [trace emit set_retry_count messages agent_logs retry_count].
    split; [| split; [done | split; [done | lia]]].
    unfold api_call. rewrite Hms, Htrace, <- app_assoc.
    cbn [app]. rewrite <- (failed_attempts_app k). reflexivity.
Qed.

(** X9: transient failures are retried: when the first [k] calls to the
    chat endpoint raise, [k] being less than [max_retries], and the next
    one answers without selecting a tool, the reply is that answer
    decoded, after [k] sleeps of the fixed delay, one after each failed
    call. *)
Theorem retry_then_reply (fuel k : nat) (prompt conversation_history : pyval)
    (max_retries retry_delay : Z) (st st1 : state) (content : option string)
    (choices : list assistant_message) :
  begin_turn self prompt conversation_history st = (Ret None, st1) ->
  0 <= retry_delay ->
  Z.of_nat k < max_retries ->
  let failures :=
    concat (replicate k [api_call self st1; EvSleep retry_delay]) in
  (forall i, (i < k)%nat ->
     exists msg,
       chat_completions_create self
         (trace st1 ++ concat (replicate i [api_call self st1;
                                            EvSleep retry_delay]))
         (messages st1) (get_agent_metadata self)
       = Raises (Exception msg)) ->
  chat_completions_create self (trace st1 ++ failures) (messages st1)
    (get_agent_metadata self)
  = Returns ({| msg_content := content; msg_function_call := None |}
             :: choices) ->
  exists st2,
    get_response self (k + S fuel) prompt conversation_history max_retries
      retry_delay st
    = (Ret (fst (parse_response_with_game_data (default "" content)),
            json_dumps
              (snd (parse_response_with_game_data (default "" content))),
            ""), st2)
    /\ trace st2 = (trace st1 ++ failures ++ [api_call self st1])%list.
Proof.
  intros Hbegin Hdelay Hk failures Hfail Hcall.
  destruct (begin_turn_None self _ _ _ _ Hbegin) as [Hcount Hlogs].
  destruct (dispatch_loop_failures max_retries retry_delay k Hdelay
              (S fuel) st1)
    as (st' & Hloop & Htrace & Hms & Hlogs' & Hcount'); [lia | done |].
  fold failures in Htrace. rewrite <- Htrace, <- Hms in Hcall.
  eexists. split.
  - apply (get_response_loop self _ _ _ _ _ _ st1); [done |].
    rewrite Hloop. apply dispatch_loop_returns; [lia |].
    rewrite (attempt_direct self st' content choices Hcall).
    by rewrite Hlogs', Hlogs.
  - cbn [trace emit]. unfold api_call. rewrite Htrace, Hms.
    by rewrite <- app_assoc.
Qed.

(** X10: with [max_retries] at zero or below the loop is not entered:
    the reply is the "service temporarily unavailable" one, the chat
    endpoint is not called, whatever the fuel. *)
Theorem no_attempt_without_retries (fuel : nat)
    (prompt conversation_history : pyval) (max_retries retry_delay : Z)
    (st st1 : state) :
  begin_turn self prompt conversation_history st = (Ret None, st1) ->
  max_retries <= 0 ->
  get_response self fuel prompt conversation_history max_retries retry_delay
    st
  = (Ret ("Service temporarily unavailable. Please try again later.",
          "{}", ""), st1).
Proof.
  intros Hbegin Hmax.
  destruct (begin_turn_None self _ _ _ _ Hbegin) as [Hcount _].
  apply (get_response_loop self _ _ _ _ _ _ st1); [done |].
  destruct fuel; cbn [dispatch_loop]; unfold bind; cbn [get_state];
    (destruct (Z.ltb_spec (retry_count st1) max_retries); [lia | done]).
Qed.

(** X11: a negative [retry_delay] turns the first retry into a critical
    error: [time.sleep] raises inside the [except] clause of the loop, so
    the turn ends with the reply of the outer handler after one call to
    the chat endpoint. *)
Theorem negative_delay_is_critical (fuel : nat)
    (prompt conversation_history : pyval) (max_retries retry_delay : Z)
    (st st1 : state) (msg : string) :
  begin_turn self prompt conversation_history st = (Ret None, st1) ->
  1 < max_retries ->
  retry_delay < 0 ->
  chat_completions_create self (trace st1) (messages st1)
    (get_agent_metadata self) = Raises (Exception msg) ->
  exists st2,
    get_response self (S fuel) prompt conversation_history max_retries
      retry_delay st
    = (Ret ("A critical error occurred. Please try again.", "{}", ""), st2)
    /\ trace st2 = (trace st1 ++ [api_call self st1])%list.
Proof.
  intros Hbegin Hmax Hdelay Hcall.
  destruct (begin_turn_None self _ _ _ _ Hbegin) as [Hcount _].
  unfold get_response, try_except. unfold bind at 1. rewrite Hbegin.
  cbn [dispatch_loop]. unfold bind at 1. cbn [get_state].
  destruct (Z.ltb_spec (retry_count st1) max_retries); [| lia].
  unfold bind at 1, try_except.
  rewrite (attempt_raises self st1 _ Hcall).
  unfold on_error, bind, modify, get_state, sleep.
  cbn [retry_count set_retry_count emit].
  destruct (Z.ltb_spec (retry_count st1 + 1) max_retries); [| lia].
  destruct (Z.ltb_spec retry_delay 0); [| lia].
  eexists. split; reflexivity.
Qed.
End Retries.

(** ** What escapes a turn *)

Section Contained.
Context {S : Type}.

Lemma contained_ret {A : Type} (a : A) : contained (ret (S := S) a).
Proof. by intros st msg st'. Qed.

Lemma contained_raise {A : Type} (msg : string) :
  contained (raise (S := S) (A := A) (Exception msg)).
Proof. by intros st msg' st'. Qed.

Lemma contained_modify (f : S -> S) : contained (modify f).
Proof. by intros st msg st'. Qed.

Lemma contained_get_state : contained (get_state (S := S)).
Proof. by intros st msg st'. Qed.

Lemma contained_lift_outcome {A : Type} (o : outcome A) :
  catchable o -> contained (lift_outcome (S := S) o).
Proof.
  intros Ho st msg st'. destruct o as [a | [m | m]]; [done | done |].
  by destruct (Ho m).
Qed.

Lemma contained_bind {A B : Type} (m : M S A) (k : A -> M S B) :
  contained m -> (forall a, contained (k a)) -> contained (bind m k).
Proof.
  intros Hm Hk st msg st'. unfold bind.
  destruct (m st) as [[a | [e | e] |] st1] eqn:E; [apply Hk | done | | done].
  by destruct (Hm st e st1).
Qed.

Lemma contained_try_except {A : Type} (m : M S A) (handler : string -> M S A) :
  contained m -> (forall msg, contained (handler msg)) ->
  contained (try_except m handler).
Proof.
  intros Hm Hh st msg st'. unfold try_except.
  destruct (m st) as [[a | [e | e] |] st1] eqn:E; [done | apply Hh | | done].
  by destruct (Hm st e st1).
Qed.
End Contained.

Lemma contained_call {A : Type} (ev : event)
    (answer : list event -> outcome A) :
  (forall tr, catchable (answer tr)) -> contained (call ev answer).
Proof.
  intros Ha st msg st'. unfold call.
  apply contained_lift_outcome, Ha.
Qed.

(** One step through the syntax of a computation. *)
Ltac contained_step :=
  lazymatch goal with
  | |- forall _, _ => intros
  | |- contained (ret _) => apply contained_ret
  | |- contained (raise (Exception _)) => apply contained_raise
  | |- contained get_state => apply contained_get_state
  | |- contained (modify _) => apply contained_modify
  | |- contained (lift_outcome _) => apply contained_lift_outcome
  | |- contained (call _ _) => apply contained_call
  | |- contained (try_except _ _) => apply contained_try_except
  | |- contained (bind _ _) => apply contained_bind
  | |- contained (if ?b then _ else _) => destruct b
  | |- contained (match ?x with _ => _ end) => destruct x eqn:?
  | |- contained (let _ := _ in _) => lazy zeta
  end.

Section Escapes.
Context `{PyRuntime} (self : session).
Hypothesis Hself : catchable_session self.

Lemma contained_check_first (h : pyval) :
  catchable (_check_first_message_for_guid h).
Proof.
  intros msg. unfold _check_first_message_for_guid.
  destruct (negb (truthy h)); [done |].
  destruct h as [| b | z | f | s | l | d]; try done.
  - by destruct s.
  - destruct l as [|first rest]; [done |].
    destruct first as [| b | z | f | s | l | m]; try done.
    destruct (eq_str _ _); [| done]. destruct (is_none _); [done |].
    by destruct (guid_pattern _).
Qed.

Lemma contained_initialize_context_memory (g : pyval) :
  contained (_initialize_context_memory self g).
Proof.
  destruct Hself as (_ & Hstore & Htools & _).
  unfold _initialize_context_memory.
  destruct (dict_get "ContextMemory" (known_agents self)) as [a|] eqn:Ea.
  - repeat contained_step; first [apply Hstore | by eapply Htools].
  - repeat contained_step.
Qed.

Lemma contained_api_call : contained (get_openai_api_call self).
Proof.
  destruct Hself as (Hchat & _). unfold get_openai_api_call.
  repeat contained_step. apply Hchat.
Qed.

Lemma contained_first_choice (response : list assistant_message) :
  contained (first_choice response).
Proof. unfold first_choice. repeat contained_step. Qed.

Lemma contained_finalize (content : string) : contained (finalize content).
Proof.
  unfold finalize. destruct (parse_response_with_game_data content).
  repeat contained_step.
Qed.

Lemma contained_run_agent (name : string) (a : agent)
    (json_data : option string) :
  dict_get name (known_agents self) = Some a ->
  contained (run_agent name a json_data).
Proof.
  destruct Hself as (_ & _ & Htools & Hparse). intros Ha.
  unfold run_agent.
  repeat contained_step; first [apply Hparse | by eapply Htools].
Qed.

Lemma contained_attempt : contained (attempt self).
Proof.
  unfold attempt.
  apply contained_bind; [apply contained_api_call | intros response].
  apply contained_bind; [apply contained_first_choice | intros m].
  destruct (msg_function_call m) as [fc|].
  - destruct (dict_get _ _) as [a|] eqn:Ea; [| apply contained_ret].
    apply contained_bind; [by apply contained_run_agent | intros [r | result]].
    + apply contained_ret.
    + apply contained_bind; [apply contained_modify | intros _].
      destruct (needs_follow_up result); [apply contained_ret |].
      apply contained_bind; [apply contained_api_call | intros response'].
      apply contained_bind; [apply contained_first_choice | intros m'].
      apply contained_bind; [apply contained_finalize | intros r].
      apply contained_ret.
  - apply contained_bind; [apply contained_finalize | intros r].
    apply contained_ret.
Qed.

Lemma contained_on_error (max_retries retry_delay : Z) :
  contained (on_error max_retries retry_delay).
Proof. unfold on_error, sleep. repeat contained_step. Qed.

Lemma contained_dispatch_loop (max_retries retry_delay : Z) (fuel : nat) :
  contained (dispatch_loop self max_retries retry_delay fuel).
Proof.
  induction fuel as [|fuel IH]; cbn [dispatch_loop].
  - apply contained_bind; [apply contained_get_state | intros st].
    destruct (_ <? _); [by intros ? ? ? | apply contained_ret].
  - apply contained_bind; [apply contained_get_state | intros st].
    destruct (_ <? _); [| apply contained_ret].
    apply contained_bind.
    + apply contained_try_except; [apply contained_attempt |].
      intros msg. apply contained_on_error.
    + intros [r|]; [apply contained_ret | apply IH].
Qed.

Lemma contained_begin_turn (prompt conversation_history : pyval) :
  contained (begin_turn self prompt conversation_history).
Proof.
  unfold begin_turn, resolve_identity, prepare_messages.
  repeat first [ apply contained_initialize_context_memory
               | apply contained_check_first
               | contained_step ].
Qed.

(** X12: when the chat endpoint, the storage, the tools and the lenient
    parser raise only exceptions that derive from [Exception], nothing
    escapes [get_response]: it returns a reply, unless it is still in its
    loop when the fuel runs out. *)
Theorem get_response_never_raises (fuel : nat)
    (prompt conversation_history : pyval) (max_retries retry_delay : Z)
    (st : state) :
  (exists r st',
     get_response self fuel prompt conversation_history max_retries
       retry_delay st = (Ret r, st'))
  \/ (exists st',
        get_response self fuel prompt conversation_history max_retries
          retry_delay st = (OutOfFuel, st')).
Proof.
  assert (Hbody : contained
                    (let* early := begin_turn self prompt conversation_history in
                     match early with
                     | Some r => ret r
                     | None => dispatch_loop self max_retries retry_delay fuel
                     end)).
  { apply contained_bind; [apply contained_begin_turn | intros [r|]];
      [apply contained_ret | apply contained_dispatch_loop]. }
  unfold get_response, try_except.
  specialize (Hbody st).
  destruct (bind _ _ st) as [[r | [msg | msg] |] st'];
    [left; by eexists _, _ | left; by eexists _, _
     | by destruct (Hbody msg st') | right; by eexists].
Qed.
End Escapes.

(** ** The parameters of a tool *)

Lemma sanitize_fold (d acc : list (string * pyval)) :
  NoDup (dict_keys acc ++ dict_keys d) ->
  fold_left
    (fun sanitized_parameters (kv : string * pyval) =>
       dict_set (fst kv) (if is_none (snd kv) then PStr "" else snd kv)
         sanitized_parameters) d acc
  = (acc ++ map (fun kv : string * pyval =>
                   (fst kv, if is_none (snd kv) then PStr "" else snd kv)) d)%list.
Proof.
  revert acc. induction d as [|[k v] d IH]; intros acc Hkeys.
  - by rewrite app_nil_r.
  - cbn [fold_left map fst snd]. cbn [dict_keys map fst] in Hkeys.
    assert (Hfresh : k ∉ dict_keys acc).
    { apply NoDup_app in Hkeys as (_ & Hdisj & _). intros Hin.
      apply (Hdisj k Hin). apply list_elem_of_here. }
    rewrite (JsonFacts.dict_set_fresh k _ acc Hfresh). rewrite IH.
    + by rewrite <- app_assoc.
    + unfold dict_keys in *. rewrite map_app, <- app_assoc. exact Hkeys.
Qed.

(** X13: the parameters handed to a tool are those the model sent, in
    their order, with every [None] replaced by the empty string: no tool
    is called with a [None] argument. *)
Theorem sanitize_replaces_none (agent_parameters : list (string * pyval)) :
  NoDup (dict_keys agent_parameters) ->
  sanitize agent_parameters
  = map (fun kv : string * pyval =>
           (fst kv, if is_none (snd kv) then PStr "" else snd kv))
      agent_parameters
  /\ Forall (fun kv : string * pyval => snd kv <> PNone)
       (sanitize agent_parameters).
Proof.
  intros Hkeys. unfold sanitize.
  rewrite (sanitize_fold agent_parameters []) by done.
  split; [done |]. cbn [app]. apply Forall_map, Forall_true.
  intros [k v]. cbn [fst snd]. by destruct v.
Qed.

Lemma sanitize_replaces_none_witness :
  sanitize [("npc_name", PNone); ("npc_type", PStr "guard")]
  = map (fun kv : string * pyval =>
           (fst kv, if is_none (snd kv) then PStr "" else snd kv))
      [("npc_name", PNone); ("npc_type", PStr "guard")]
  /\ Forall (fun kv : string * pyval => snd kv <> PNone)
       (sanitize [("npc_name", PNone); ("npc_type", PStr "guard")]).
Proof.
  apply (sanitize_replaces_none
           [("npc_name", PNone); ("npc_type", PStr "guard")]).
  by apply JsonFacts.distinct_NoDup.
Defined.

Section Injection.
Context `{PyRuntime}.

(** X14: a tool whose name is on the list of identity-sensitive tools is
    called with the active identity as [user_guid], whatever [user_guid]
    the model sent; the other parameters are the sanitised ones.  A tool
    whose name is not on the list gets the sanitised parameters as they
    are. *)
Theorem identity_is_injected (name : string) (a : agent)
    (json_data : option string) (d : list (string * pyval)) (st : state) :
  safe_json_loads json_data = Returns (PDict d) ->
  exists kwargs,
    trace (snd (run_agent name a json_data st))
    = (trace st ++ [EvPerform name kwargs])%list
    /\ if existsb (String.eqb name) identity_sensitive
       then dict_get "user_guid" kwargs = Some (user_guid st)
            /\ forall k, k <> "user_guid" ->
                 dict_get k kwargs = dict_get k (sanitize d)
       else kwargs = sanitize d.
Proof.
  intros Hargs. rewrite (run_agent_perform name a json_data d st Hargs).
  destruct (existsb (String.eqb name) identity_sensitive).
  - exists (dict_set "user_guid" (user_guid st) (sanitize d)). split.
    + by destruct (agent_perform a _ _) as [v | [msg | msg]].
    + split; [apply dict_get_set_eq |]. intros k Hk.
      apply dict_get_set_ne. congruence.
  - exists (sanitize d). split; [| done].
    by destruct (agent_perform a _ _) as [v | [msg | msg]].
Qed.
End Injection.

(** ** Identity resolution *)

#[local] Instance same_identity_preorder : PreOrder same_identity.
Proof.
  split; [done |]. intros a b c Hab Hbc. unfold same_identity in *.
  congruence.
Qed.

Section Resolution.
Context `{PyRuntime} (self : session).

(** Fetching the memory snapshots leaves the active identity alone. *)
Lemma initialize_context_memory_identity (g : pyval) :
  mspec same_identity (fun _ => True) (_initialize_context_memory self g).
Proof.
  unfold _initialize_context_memory. repeat mspec_step; done.
Qed.

(** X15: a GUID in the first turn of the history wins over a GUID in the
    prompt: after identity resolution it is the active identity, whatever
    the prompt holds and whatever identity was active before. *)
Theorem history_identity_wins (prompt conversation_history : pyval)
    (h : string) (st st' : state) (gp : option string) :
  _check_first_message_for_guid conversation_history = Returns (Some h) ->
  resolve_identity self prompt conversation_history st = (Ret gp, st') ->
  user_guid st' = PStr h /\ gp = extract_user_guid prompt.
Proof.
  intros Hcheck.
  pose proof (check_first_message_truthy _ _ Hcheck) as Htruthy.
  unfold resolve_identity. unfold bind at 1.
  rewrite Hcheck. cbn [lift_outcome ret]. cbv zeta.
  rewrite !Htruthy. cbv iota. rewrite ?Htruthy.
  change (default "" (Some h)) with h.
  unfold bind at 1. cbn [get_state andb].
  destruct (eq_str (user_guid st) h) eqn:Eactive; cbn [negb].
  - assert (Hactive : user_guid st = PStr h).
    { destruct (user_guid st); try done. simpl in Eactive.
      by apply String.eqb_eq in Eactive as ->. }
    cbn [opt_truthy] in Htruthy. rewrite Hactive. cbn [truthy].
    rewrite Htruthy. cbn [negb]. unfold bind. cbn [ret].
    intros [= <- <-]. by rewrite Hactive.
  - unfold bind at 1. unfold bind at 1. cbn [modify].
    pose proof (initialize_context_memory_identity (PStr h)
                  (set_user_guid (PStr h) st)) as Hinit.
    destruct (_initialize_context_memory self (PStr h) _)
      as [[u | e |] st1]; [| done | done].
    destruct Hinit as [Hid _]. cbn [ret]. intros [= <- <-].
    by rewrite Hid.
Qed.
End Resolution.

(** ** The memory snapshots *)

Lemma string_take_length (n : nat) (s : string) :
  (String.length (string_take n s) <= n)%nat.
Proof.
  revert s. induction n as [|n IH]; intros s; [by destruct s |].
  destruct s as [|c s]; cbn [string_take String.length]; [lia |].
  specialize (IH s). lia.
Qed.

Section Snapshots.
Context `{PyRuntime} (self : session).

(** X16: fetching the memory snapshots raises no exception of its own:
    every exception that derives from [Exception] ends as a fixed text in
    the snapshot.  When it returns, each snapshot is at most 5000
    characters long, and the identity, the messages and the retry counter
    are as they were. *)
Theorem memory_snapshots_are_bounded (g : pyval) (st : state) :
  match _initialize_context_memory self g st with
  | (Ret _, st') =>
      (String.length (shared_memory st') <= 5000)%nat
      /\ (String.length (user_memory st') <= 5000)%nat
      /\ user_guid st' = user_guid st
      /\ messages st' = messages st
      /\ retry_count st' = retry_count st
  | (Raise (Exception _), _) => False
  | (Raise (BaseException _), _) => True
  | (OutOfFuel, _) => False
  end.
Proof.
  assert (Hno_shared : (String.length NO_SHARED_MEMORY <= 5000)%nat)
    by (vm_compute; lia).
  assert (Hno_user : (String.length NO_USER_MEMORY <= 5000)%nat)
    by (vm_compute; lia).
  assert (Hfailed : (String.length MEMORY_FAILED <= 5000)%nat)
    by (vm_compute; lia).
  pose proof string_take_length as Htake.
  unfold _initialize_context_memory, try_except, bind, call, modify.
  destruct (dict_get "ContextMemory" (known_agents self)) as [a|];
    [| done].
  destruct (set_memory_context self (trace st) PNone) as [[] | [m1 | m1]];
    cbn [lift_outcome ret raise];
    [destruct (agent_perform a _ _) as [v1 | [m2 | m2]];
       cbn [lift_outcome ret raise] | | done];
    [destruct (truthy v1) | | done |];
    (match goal with
     | |- context [set_memory_context self ?tr ?u] =>
         destruct (set_memory_context self tr u) as [[] | [m3 | m3]];
         cbn [lift_outcome ret raise];
         [match goal with
          | |- context [agent_perform a ?tr' ?kw] =>
              destruct (agent_perform a tr' kw) as [v2 | [m4 | m4]];
              cbn [lift_outcome ret raise];
              [destruct (truthy v2) | | done]
          end | | done]
     end);
    cbn [shared_memory user_memory user_guid messages retry_count
         set_shared_memory set_user_memory emit];
    repeat split; first [done | apply Htake].
Qed.
End Snapshots.

(** ** The response codec, continued *)

Lemma partition_tail (sep : string) (c : ascii) (s : string) :
  partition sep (String c s) = None -> partition sep s = None.
Proof.
  cbn [partition]. destruct (String.prefix sep (String c s)); [done |].
  by destruct (partition sep s) as [[a b]|].
Qed.

Lemma partition_lstrip (sep s : string) :
  partition sep s = None -> partition sep (lstrip s) = None.
Proof.
  induction s as [|c s IH]; [done |]. intros Hs. cbn [lstrip].
  destruct (is_space c); [| done]. by apply IH, (partition_tail sep c).
Qed.

Lemma rstrip_prefix (s : string) : exists t, s = rstrip s ++ t.
Proof.
  induction s as [|c s [t IH]]; [by exists "" |]. cbn [rstrip].
  destruct (rstrip s) as [|x r] eqn:E.
  - rewrite string_app_nil_l in IH.
    destruct (is_space c); [by exists (String c s) |].
    exists s. by rewrite string_app_cons, string_app_nil_l.
  - exists t. rewrite string_app_cons. by rewrite <- IH.
Qed.

Lemma partition_rstrip (sep s : string) :
  partition sep s = None -> partition sep (rstrip s) = None.
Proof.
  intros Hs. destruct (rstrip_prefix s) as [t Ht].
  destruct (partition sep (rstrip s)) as [[a b]|] eqn:E; [| done].
  apply (partition_app sep _ t) in E. rewrite <- Ht in E. congruence.
Qed.

Lemma partition_strip (sep s : string) :
  partition sep s = None -> partition sep (strip s) = None.
Proof. intros Hs. by apply partition_rstrip, partition_lstrip. Qed.

Lemma partition_spec (sep s a b : string) :
  partition sep s = Some (a, b) -> s = a ++ sep ++ b.
Proof.
  revert a b. induction s as [|c s IH]; intros a b; cbn [partition].
  - destruct (String.prefix sep "") eqn:E; [| done]. intros [= <- <-].
    destruct sep; [done | done].
  - destruct (String.prefix sep (String c s)) eqn:E.
    + intros [= <- <-]. rewrite string_app_nil_l. clear IH.
      revert E. generalize (String c s). clear c s.
      induction sep as [|x sep IH]; intros s.
      * intros _. by rewrite string_app_nil_l.
      * destruct s as [|y s]; [done |]. cbn [String.prefix].
        destruct (ascii_dec x y) as [->|]; [| done]. intros E.
        rewrite string_app_cons. cbn [String.length string_drop].
        f_equal. by apply IH.
    + destruct (partition sep s) as [[a' b']|] eqn:E'; [| done].
      intros [= <- <-]. rewrite string_app_cons. f_equal. by apply IH.
Qed.

(** The text before the first occurrence of a separator holds none. *)
Lemma partition_head_free (sep s a b : string) :
  sep <> "" -> partition sep s = Some (a, b) -> partition sep a = None.
Proof.
  intros Hsep. revert a b. induction s as [|c s IH]; intros a b;
    cbn [partition].
  - destruct (String.prefix sep "") eqn:E; [| done]. by destruct sep.
  - destruct (String.prefix sep (String c s)) eqn:E.
    + intros [= <- <-]. cbn [partition]. by destruct sep.
    + destruct (partition sep s) as [[a' b']|] eqn:E'; [| done].
      intros [= <- <-]. cbn [partition]. rewrite (IH _ _ eq_refl).
      destruct (String.prefix sep (String c a')) eqn:E2; [| done].
      apply partition_spec in E'. subst s.
      destruct (prefix_app_r sep (String c a') (sep ++ b') E2) as [E3 _].
      rewrite string_app_cons in E3. congruence.
Qed.

Lemma rstrip_idem (s : string) : rstrip (rstrip s) = rstrip s.
Proof.
  induction s as [|c s IH]; [done |]. cbn [rstrip].
  destruct (rstrip s) as [|x r] eqn:E.
  - destruct (is_space c) eqn:Hc; [done |]. cbn [rstrip]. by rewrite Hc.
  - cbn [rstrip] in *. by rewrite IH.
Qed.

Lemma lstrip_head (s : string) :
  match lstrip s with String c _ => is_space c = false | "" => True end.
Proof.
  induction s as [|c s IH]; [done |]. cbn [lstrip].
  by destruct (is_space c) eqn:Hc.
Qed.

Lemma strip_idem (s : string) : strip (strip s) = strip s.
Proof.
  unfold strip. pose proof (lstrip_head s) as Hhead.
  destruct (lstrip s) as [|c t] eqn:E; [done |].
  assert (Hl : lstrip (rstrip (String c t)) = rstrip (String c t)).
  { cbn [rstrip]. rewrite Hhead.
    destruct (rstrip t); cbn [lstrip]; by rewrite Hhead. }
  by rewrite Hl, rstrip_idem.
Qed.

Lemma split_fuel_head (fuel : nat) (sep s : string) :
  exists part0 parts,
    split_fuel fuel sep s = part0 :: parts
    /\ match partition sep s with
       | Some (a, _) => part0 = a /\ parts <> []
       | None => part0 = s /\ parts = []
       end.
Proof.
  destruct fuel as [|fuel]; cbn [split_fuel];
    destruct (partition sep s) as [[a b]|] eqn:E; try by eexists _, _.
  destruct fuel as [|fuel]; cbn [split_fuel];
    destruct (partition sep b) as [[a' b']|]; by eexists _, _.
Qed.

(** X17: the narrative the codec returns is stripped and never holds the
    delimiter: the text before the first delimiter when there is one, the
    whole text otherwise. *)
Theorem narrative_is_clean `{PyRuntime} (content : string) :
  let narrative := fst (parse_response_with_game_data content) in
  strip narrative = narrative
  /\ partition GAME_DATA narrative = None
  /\ narrative
     = strip match partition GAME_DATA content with
             | Some (before, _) => before
             | None => content
             end.
Proof.
  cbv zeta. unfold parse_response_with_game_data.
  destruct (String.eqb_spec content "") as [->|Hne]; [done |].
  unfold split.
  destruct (split_fuel_head (String.length content) GAME_DATA content)
    as (part0 & parts & -> & Hparts).
  destruct (partition GAME_DATA content) as [[a b]|] eqn:E.
  - destruct Hparts as [-> Hne']. destruct parts as [|part1 parts]; [done |].
    cbn [fst]. split; [apply strip_idem |]. split; [| done].
    by apply partition_strip, (partition_head_free GAME_DATA content a b).
  - destruct Hparts as [-> ->]. cbn [fst].
    split; [apply strip_idem |]. split; [| done].
    by apply partition_strip.
Qed.

(** ** The registry, continued *)

Lemma keyed_by_name_set (registry : list (string * agent)) (name : string)
    (a : agent) :
  keyed_by_name registry -> agent_name a = Some name ->
  keyed_by_name (dict_set name a registry).
Proof.
  intros Hreg Ha. induction Hreg as [|[k b] registry Hb Hreg IH];
    cbn [dict_set].
  - by apply Forall_singleton.
  - destruct (String.eqb_spec k name) as [->|Hne];
      apply Forall_cons; by split.
Qed.

Lemma keyed_by_name_lookup (registry : list (string * agent)) (name : string)
    (a : agent) :
  keyed_by_name registry -> dict_get name registry = Some a ->
  agent_name a = Some name.
Proof.
  induction 1 as [|[k b] registry Hb Hreg IH]; [done |]. cbn [dict_get].
  destruct (String.eqb_spec k name) as [->|Hne]; [| done].
  by intros [= <-].
Qed.

Section Keeps.
Context {S : Type} (I : S -> Prop).

Lemma keeps_ret {A : Type} (a : A) : keeps I (ret a).
Proof. by intros st. Qed.

Lemma keeps_raise {A : Type} (e : exn) : keeps I (raise (A := A) e).
Proof. by intros st. Qed.

Lemma keeps_get_state : keeps I get_state.
Proof. by intros st. Qed.

Lemma keeps_lift_outcome {A : Type} (o : outcome A) : keeps I (lift_outcome o).
Proof. intros st. by destruct o. Qed.

Lemma keeps_modify (f : S -> S) : (forall st, I st -> I (f st)) -> keeps I (modify f).
Proof. intros Hf st. apply Hf. Qed.

Lemma keeps_bind {A B : Type} (m : M S A) (k : A -> M S B) :
  keeps I m -> (forall a, keeps I (k a)) -> keeps I (bind m k).
Proof.
  intros Hm Hk st Hst. unfold bind. specialize (Hm st Hst).
  destruct (m st) as [[a | e |] st1]; [by apply Hk | done | done].
Qed.

Lemma keeps_try_except {A : Type} (m : M S A) (handler : string -> M S A) :
  keeps I m -> (forall msg, keeps I (handler msg)) ->
  keeps I (try_except m handler).
Proof.
  intros Hm Hh st Hst. unfold try_except. specialize (Hm st Hst).
  destruct (m st) as [[a | [msg | msg] |] st1]; [done | by apply Hh | done | done].
Qed.
End Keeps.

(** One step through the syntax of a computation. *)
Ltac keeps_step :=
  lazymatch goal with
  | |- forall _, _ => intros
  | |- keeps _ (ret _) => apply keeps_ret
  | |- keeps _ (raise _) => apply keeps_raise
  | |- keeps _ get_state => apply keeps_get_state
  | |- keeps _ (lift_outcome _) => apply keeps_lift_outcome
  | |- keeps _ (try_except _ _) => apply keeps_try_except
  | |- keeps _ (bind _ _) => apply keeps_bind
  | |- keeps _ (if ?b then _ else _) => destruct b
  | |- keeps _ (match ?x with _ => _ end) => destruct x eqn:?
  | |- keeps _ (let _ := _ in _) => lazy zeta
  end.

Section Keyed.
Context (os : host).

Lemma keeps_logging (r : log_record) : keeps keyed (logging r).
Proof. by intros st. Qed.

Lemma keeps_write_file (f c : string) : keeps keyed (write_file f c).
Proof. by intros st. Qed.

Lemma keeps_add_to_sys_path (d : string) : keeps keyed (add_to_sys_path d).
Proof. intros st Hst. unfold add_to_sys_path, modify. cbn [snd]. by destruct (existsb _ _). Qed.

Lemma keeps_os_remove (f : string) : keeps keyed (os_remove f).
Proof.
  intros st Hst. unfold os_remove, bind. cbn [get_state].
  by destruct (files st !! f).
Qed.

Lemma keeps_declare (class_name : string) (a : agent) :
  keeps keyed (declare class_name a).
Proof.
  intros st Hst. unfold declare. destruct (agent_name a) as [name|] eqn:Ea;
    [| done].
  unfold bind, modify, keyed in *.
  cbn [snd ret declared_agents set_declared_agents].
  by apply keyed_by_name_set.
Qed.

Lemma keeps_register_members (members : list member) :
  keeps keyed (register_members members).
Proof.
  induction members as [|[class_name construct|] members IH];
    cbn [register_members]; [apply keeps_ret | | done].
  apply keeps_bind; [apply keeps_lift_outcome | intros a].
  apply keeps_bind; [apply keeps_declare | by intros _].
Qed.

Lemma keeps_register_multi_members (members : list member) :
  keeps keyed (register_multi_members members).
Proof.
  induction members as [|[class_name construct|] members IH];
    cbn [register_multi_members]; [apply keeps_ret | | done].
  apply keeps_bind; [apply keeps_lift_outcome | intros a].
  apply keeps_bind; [apply keeps_declare | intros name].
  apply keeps_bind; [apply keeps_logging | by intros _].
Qed.

Lemma keeps_for_each {A : Type} (body : A -> M loader unit) (l : list A) :
  (forall x, keeps keyed (body x)) -> keeps keyed (for_each body l).
Proof.
  intros Hbody. induction l as [|x l IH]; cbn [for_each]; [apply keeps_ret |].
  apply keeps_bind; [apply Hbody | by intros _].
Qed.

Lemma keeps_load_bundled (file : string) : keeps keyed (load_bundled os file).
Proof.
  unfold load_bundled.
  repeat first [ apply keeps_register_members | apply keeps_logging
               | keeps_step ].
Qed.

Lemma keeps_load_shared (file_name : string) :
  keeps keyed (load_shared os file_name).
Proof.
  unfold load_shared.
  repeat first [ apply keeps_register_members | apply keeps_logging
               | apply keeps_write_file | apply keeps_add_to_sys_path
               | apply keeps_os_remove | keeps_step ].
Qed.

Lemma keeps_load_shared_multi (file_name : string) :
  keeps keyed (load_shared_multi os file_name).
Proof.
  unfold load_shared_multi.
  repeat first [ apply keeps_register_multi_members | apply keeps_logging
               | apply keeps_write_file | apply keeps_add_to_sys_path
               | apply keeps_os_remove | by apply keeps_modify
               | keeps_step ].
Qed.

(** What a sequence returns is what its last step returns. *)
Lemma bind_returns {S A B : Type} (m : M S A) (k : A -> M S B) (st st' : S)
    (b : B) :
  bind m k st = (Ret b, st') ->
  exists a st1, m st = (Ret a, st1) /\ k a st1 = (Ret b, st').
Proof.
  unfold bind. destruct (m st) as [[a | e |] st1]; [| done | done].
  intros Hk. by exists a, st1.
Qed.

Lemma load_agents_from_folder_keyed (st st' : loader)
    (agents : list (string * agent)) :
  load_agents_from_folder os st = (Ret agents, st') ->
  agents = declared_agents st' /\ keyed_by_name agents.
Proof.
  intros Hrun.
  assert (Hagents : agents = declared_agents st').
  { unfold load_agents_from_folder in Hrun.
    do 6 (apply bind_returns in Hrun as (? & ? & _ & Hrun)).
    apply bind_returns in Hrun as (? & ? & Hget & Hrun).
    unfold get_state, ret in *. congruence. }
  split; [done |]. subst agents.
  unfold load_agents_from_folder in Hrun.
  apply bind_returns in Hrun as (fs & st0 & _ & Hrun).
  apply bind_returns in Hrun as ([] & st1 & Hreset & Hrun).
  assert (Hkeyed : keyed st1).
  { cbn [modify] in Hreset. injection Hreset as <-. apply Forall_nil_2. }
  match type of Hrun with
  | ?m st1 = _ =>
      assert (Hkeeps : keeps keyed m)
  end.
  { repeat first [ apply keeps_for_each; intros ?
                 | apply keeps_load_bundled | apply keeps_load_shared
                 | apply keeps_load_shared_multi | apply keeps_logging
                 | keeps_step ]. }
  specialize (Hkeeps st1 Hkeyed). by rewrite Hrun in Hkeeps.
Qed.
End Keyed.

Lemma reload_agents_keyed_fold (d : list (string * agent))
    (acc : list (string * agent)) (d0 : list (string * agent)) :
  (forall kv, In kv d -> In kv d0) ->
  (forall n a, dict_get n acc = Some a ->
     agent_name a = Some n \/ (agent_name a = None /\ In (n, a) d0)) ->
  forall n a,
    dict_get n
      (fold_left
         (fun known_agents (kv : string * agent) =>
            match agent_name (snd kv) with
            | Some name => dict_set name (snd kv) known_agents
            | None => dict_set (fst kv) (snd kv) known_agents
            end) d acc) = Some a ->
    agent_name a = Some n \/ (agent_name a = None /\ In (n, a) d0).
Proof.
  revert acc. induction d as [|[k b] d IH]; intros acc Hin Hacc; [done |].
  cbn [fold_left fst snd]. apply IH.
  - intros kv Hkv. apply Hin. by right.
  - intros n a. destruct (agent_name b) as [name|] eqn:Eb.
    + destruct (String.eqb_spec name n) as [<-|Hne].
      * rewrite dict_get_set_eq. intros [= <-]. by left.
      * rewrite dict_get_set_ne by done. apply Hacc.
    + destruct (String.eqb_spec k n) as [<-|Hne].
      * rewrite dict_get_set_eq. intros [= <-]. right. split; [done |].
        apply Hin. by left.
      * rewrite dict_get_set_ne by done. apply Hacc.
Qed.

(** X18: an agent is found under the name it declares.  In the registry
    [reload_agents] builds, an entry is filed under the [name] attribute
    of its agent; only an agent without that attribute, given in a
    dictionary, is filed under the key it had there.  What discovery
    returns is keyed by declared names, and so is the registry built from
    it. *)
Theorem registry_is_keyed_by_name :
  (forall objects name a,
     dict_get name (reload_agents objects) = Some a ->
     agent_name a = Some name
     \/ (agent_name a = None
         /\ exists d, objects = AgentDict d /\ In (name, a) d))
  /\ (forall os st st' agents,
        load_agents_from_folder os st = (Ret agents, st') ->
        forall name a,
          (dict_get name agents = Some a -> agent_name a = Some name)
          /\ (dict_get name (reload_agents (AgentDict agents)) = Some a ->
              agent_name a = Some name)).
Proof.
  split.
  - intros [d | l |] name a; cbn [reload_agents]; [| | done].
    + intros Hget.
      destruct (reload_agents_keyed_fold d [] d (fun _ Hkv => Hkv)
                  (fun _ _ Hnil => ltac:(done)) name a Hget)
        as [Ha | [Ha Hin]]; [by left | right].
      split; [done |]. by exists d.
    + intros Hget. left. revert Hget. apply keyed_by_name_lookup.
      assert (Hfold : forall acc,
                 keyed_by_name acc ->
                 keyed_by_name
                   (fold_left
                      (fun known_agents (a : agent) =>
                         match agent_name a with
                         | Some name => dict_set name a known_agents
                         | None => known_agents
                         end) l acc)).
      { induction l as [|b l IH]; intros acc Hacc; [done |].
        cbn [fold_left]. apply IH. destruct (agent_name b) eqn:Eb; [| done].
        by apply keyed_by_name_set. }
      apply Hfold. apply Forall_nil_2.
  - intros os st st' agents Hrun name a.
    apply load_agents_from_folder_keyed in Hrun as [_ Hkeyed].
    split; [by apply keyed_by_name_lookup |].
    apply keyed_by_name_lookup. cbn [reload_agents].
    assert (Hfold : forall acc,
               keyed_by_name acc ->
               keyed_by_name
                 (fold_left
                    (fun known_agents (kv : string * agent) =>
                       match agent_name (snd kv) with
                       | Some name => dict_set name (snd kv) known_agents
                       | None => dict_set (fst kv) (snd kv) known_agents
                       end) agents acc)).
    { induction Hkeyed as [|[k b] agents Hb Hkeyed IH]; intros acc Hacc;
        [done |].
      cbn [fold_left fst snd] in *. apply IH. rewrite Hb.
      by apply keyed_by_name_set. }
    apply Hfold. apply Forall_nil_2.
Qed.

(** ** Histories that are not conversations *)

Section Malformed.
Context `{PyRuntime} (self : session).

(** X19: a history whose first entry, among the last 20, is not a
    dictionary ends the turn with the reply of the outer handler before
    anything else happens: identity resolution reads the role of that
    entry and raises.  Normalisation of the entries comes later and is
    never reached. *)
Theorem first_entry_must_be_a_dictionary (fuel : nat)
    (prompt conversation_history first : pyval) (rest : list pyval)
    (max_retries retry_delay : Z) (st : state) :
  trim_history conversation_history = PList (first :: rest) ->
  match first with PDict _ => False | _ => True end ->
  get_response self fuel prompt conversation_history max_retries retry_delay
    st
  = (Ret ("A critical error occurred. Please try again.", "{}", ""), st).
Proof.
  intros Htrim Hfirst.
  unfold get_response, try_except, begin_turn. unfold bind at 1.
  unfold resolve_identity. unfold bind at 1. unfold bind at 1.
  rewrite Htrim. unfold _check_first_message_for_guid.
  cbn [truthy negb]. by destruct first.
Qed.
End Malformed.

(** A history of one [None] entry. *)
Lemma first_entry_must_be_a_dictionary_witness :
  @get_response python narrating 1 (PStr "hello") (PList [PNone]) 3 2 fresh
  = (Ret ("A critical error occurred. Please try again.", "{}", ""), fresh).
Proof.
  refine (@first_entry_must_be_a_dictionary python narrating 1 (PStr "hello")
            (PList [PNone]) PNone [] 3 2 fresh _ _);
    [reflexivity | exact I].
Defined.

(** ** Scenarios, continued *)

(** A history of an empty dictionary and a [None] entry: the system turn
    and two empty user turns. *)
Lemma prepare_messages_turns_witness :
  fresh = fresh
  /\ Forall well_formed_turn
       [system_message offline fresh;
        PDict [("role", PStr "user"); ("content", PStr "")];
        PDict [("role", PStr "user"); ("content", PStr "")]]
  /\ [system_message offline fresh;
      PDict [("role", PStr "user"); ("content", PStr "")];
      PDict [("role", PStr "user"); ("content", PStr "")]]
     = system_message offline fresh
       :: map (@ensure_string_content python)
            (match PList [PDict []; PNone] with
             | PList l =>
                 match @_check_first_message_for_guid python (PList l) with
                 | Returns (Some _) => drop 1 l
                 | _ => l
                 end
             | _ => []
             end).
Proof.
  refine (@prepare_messages_turns python offline (PList [PDict []; PNone])
            fresh
            [system_message offline fresh;
             PDict [("role", PStr "user"); ("content", PStr "")];
             PDict [("role", PStr "user"); ("content", PStr "")]]
            fresh _).
  vm_compute; reflexivity.
Defined.

(** The turn ["hello"] after a history of 25 turns: the first call
    carries 22 messages, the system turn, turns 6 to 25 and the prompt. *)
Lemma history_is_bounded_witness :
  let st1 :=
    snd (@begin_turn python offline (PStr "hello") (PList long_history)
           fresh) in
  (length long_history = 25%nat
   /\ length (messages st1) = 22%nat
   /\ nth_error (messages st1) 1
      = Some (PDict [("role", PStr "user"); ("content", PStr "turn 6")]))
  /\ (length (messages st1) <= 22)%nat
  /\ last (messages st1)
     = Some (PDict [("role", PStr "user");
                    ("content",
                     PStr (if is_none (PStr "hello") then ""
                           else @py_str python (PStr "hello")))])
  /\ forall l,
       PList long_history = PList l ->
       exists skipped,
         (skipped <= 1)%nat
         /\ tail (removelast (messages st1))
            = map (@ensure_string_content python)
                (drop skipped (last_n 20 l)).
Proof.
  intros st1. split; [by vm_compute |].
  refine (@history_is_bounded python offline (PStr "hello")
            (PList long_history) fresh st1 _).
  vm_compute; reflexivity.
Defined.

(** Scenario 1 again: the reply is the answer of the model, decoded. *)
Lemma direct_reply_witness :
  @get_response python narrating 1 (PStr "hello") (PList []) 3 2 fresh
  = (Ret (fst (@parse_response_with_game_data python
                 (default ""
                    (Some ("You see a door." ++ nl ++ GAME_DATA ++ nl
                           ++ "{" ++ dq ++ "door" ++ dq ++ ": 1}")))),
          @json_dumps python
            (snd (@parse_response_with_game_data python
                    (default ""
                       (Some ("You see a door." ++ nl ++ GAME_DATA ++ nl
                              ++ "{" ++ dq ++ "door" ++ dq ++ ": 1}"))))),
          ""),
     emit (api_call narrating (greeted narrating))
       (greeted narrating)).
Proof.
  refine (@direct_reply python narrating 0 (PStr "hello") (PList []) 3 2
            fresh (greeted narrating) _ [] _ _ _);
    [vm_compute; reflexivity | lia | reflexivity].
Defined.

(** The model selects the tool [Forge], which raises. *)
Lemma tool_error_is_terminal_witness :
  exists kwargs st2,
    @get_response python breaking 1 (PStr "hello") (PList []) 3 2 fresh
    = (Ret ("Error executing agent: " ++ "anvil is cold", "{}", ""), st2)
    /\ trace st2
       = (trace (greeted breaking)
          ++ [api_call breaking (greeted breaking);
              EvPerform "Forge" kwargs])%list.
Proof.
  refine (@tool_error_is_terminal python breaking 0 (PStr "hello") (PList [])
            3 2 fresh (greeted breaking) None "Forge" (PStr "{}") []
            failing_tool [] "anvil is cold" _ _ _ _ _ _);
    [vm_compute; reflexivity | lia | reflexivity | reflexivity
    | vm_compute; reflexivity | reflexivity].
Defined.

(** The model selects the tool [Stall] in both answers; the tool runs
    once. *)
Lemma tool_result_is_narrated_witness :
  exists kwargs st2,
    @get_response python insisting 1 (PStr "hello") (PList []) 3 2 fresh
    = (Ret (fst (@parse_response_with_game_data python "The door opens."),
            @json_dumps python
              (snd (@parse_response_with_game_data python "The door opens.")),
            "Performed " ++ "Stall" ++ " and got result: "
            ++ "Agent completed successfully"), st2)
    /\ trace st2
       = (trace (greeted insisting)
          ++ [api_call insisting (greeted insisting);
              EvPerform "Stall" kwargs;
              EvApiCall
                (messages (greeted insisting)
                 ++ [PDict [("role", PStr "function");
                            ("name", PStr "Stall");
                            ("content",
                             PStr "Agent completed successfully")]])
                (get_agent_metadata insisting)])%list.
Proof.
  refine (@tool_result_is_narrated python insisting 0 (PStr "hello")
            (PList []) 3 2 fresh (greeted insisting) (Some "The door opens.")
            "Stall" (PStr "{}") [] stalling_tool_v2 [] PNone
            {| msg_content := Some "The door opens.";
               msg_function_call :=
                 Some {| fc_name := "Stall"; fc_arguments := PStr "{}" |} |}
            [] _ _ _ _ _ _ _ _);
    [vm_compute; reflexivity | lia | reflexivity | reflexivity
    | vm_compute; reflexivity | reflexivity | vm_compute; reflexivity
    | reflexivity].
Defined.

(** Two timeouts, two sleeps of two seconds, then the answer. *)
Lemma retry_then_reply_witness :
  exists st2,
    @get_response python flaky (2 + 1) (PStr "hello") (PList []) 3 2 fresh
    = (Ret (fst (@parse_response_with_game_data python
                   (default "" (Some "Back again."))),
            @json_dumps python
              (snd (@parse_response_with_game_data python
                      (default "" (Some "Back again.")))),
            ""), st2)
    /\ trace st2
       = (trace (greeted flaky)
          ++ concat (replicate 2 [api_call flaky (greeted flaky);
                                  EvSleep 2])
          ++ [api_call flaky (greeted flaky)])%list.
Proof.
  refine (@retry_then_reply python flaky 0 2 (PStr "hello") (PList []) 3 2
            fresh (greeted flaky) (Some "Back again.") [] _ _ _ _ _);
    [vm_compute; reflexivity | lia | lia | | vm_compute; reflexivity].
  intros i Hi. exists "timeout".
  destruct i as [|[|i]]; [vm_compute; reflexivity | vm_compute; reflexivity
                         | lia].
Defined.

(** No retries allowed: the endpoint is not called. *)
Lemma no_attempt_without_retries_witness :
  @get_response python offline 5 (PStr "hello") (PList []) 0 2 fresh
  = (Ret ("Service temporarily unavailable. Please try again later.",
          "{}", ""), greeted offline).
Proof.
  refine (@no_attempt_without_retries python offline 5 (PStr "hello")
            (PList []) 0 2 fresh (greeted offline) _ _);
    [vm_compute; reflexivity | lia].
Defined.

(** A delay of minus one second. *)
Lemma negative_delay_is_critical_witness :
  exists st2,
    @get_response python offline 1 (PStr "hello") (PList []) 3 (-1) fresh
    = (Ret ("A critical error occurred. Please try again.", "{}", ""), st2)
    /\ trace st2
       = (trace (greeted offline)
          ++ [api_call offline (greeted offline)])%list.
Proof.
  refine (@negative_delay_is_critical python offline 0 (PStr "hello")
            (PList []) 3 (-1) fresh (greeted offline) "Connection error."
            _ _ _ _);
    [vm_compute; reflexivity | lia | lia | reflexivity].
Defined.

Lemma offline_catchable : @catchable_session python offline.
Proof.
  split; [by intros tr ms fs msg |]. split; [by intros tr g msg |].
  split; [by intros name a tr kwargs |].
  intros [s|] msg; cbn [safe_json_loads python lenient_loads]; [| done].
  by destruct (Json.loads s).
Qed.

(** The unreachable endpoint: replies, never an exception. *)
Lemma get_response_never_raises_witness :
  (exists r st',
     @get_response python offline 3 (PStr "hello") (PList []) 3 2 fresh
     = (Ret r, st'))
  \/ (exists st',
        @get_response python offline 3 (PStr "hello") (PList []) 3 2 fresh
        = (OutOfFuel, st')).
Proof.
  exact (@get_response_never_raises python offline offline_catchable 3
           (PStr "hello") (PList []) 3 2 fresh).
Defined.

(** The model sends another identity to [ContextMemory]. *)
Lemma identity_is_injected_witness :
  exists kwargs,
    trace (snd (@run_agent python "ContextMemory" stalling_tool
                  (Some ("{" ++ dq ++ "user_guid" ++ dq ++ ": "
                         ++ dq ++ "someone-else" ++ dq ++ "}"))
                  fresh))
    = (trace fresh ++ [EvPerform "ContextMemory" kwargs])%list
    /\ if existsb (String.eqb "ContextMemory") identity_sensitive
       then dict_get "user_guid" kwargs = Some (user_guid fresh)
            /\ forall k, k <> "user_guid" ->
                 dict_get k kwargs
                 = dict_get k (sanitize [("user_guid", PStr "someone-else")])
       else kwargs = sanitize [("user_guid", PStr "someone-else")].
Proof.
  refine (@identity_is_injected python "ContextMemory" stalling_tool _
            [("user_guid", PStr "someone-else")] fresh _).
  vm_compute; reflexivity.
Defined.

(** A history that opens with [sample_guid], a prompt that names another
    identity. *)
Lemma history_identity_wins_witness :
  user_guid
    (snd (@resolve_identity python offline
            (PStr "guid: 00000000-0000-0000-0000-000000000000")
            guid_history fresh))
  = PStr sample_guid
  /\ Some "00000000-0000-0000-0000-000000000000"
     = @extract_user_guid python
         (PStr "guid: 00000000-0000-0000-0000-000000000000").
Proof.
  refine (@history_identity_wins python offline
            (PStr "guid: 00000000-0000-0000-0000-000000000000")
            guid_history sample_guid fresh _ _ _ _);
    [vm_compute; reflexivity |].
  vm_compute; reflexivity.
Defined.

(** ** The HTTP trigger *)

Section TriggerFacts.
Context `{PyRuntime} (env : deployment).

(** What the [try] block of [main] returns is a 200 response with a JSON
    body. *)
Lemma serve_returns (fuel : nat) (user_input : string)
    (conversation_history requested_guid : pyval) (is_guid_only : bool)
    (cors_headers : list (string * string)) (srv srv' : server)
    (resp : http_response) :
  serve env fuel user_input conversation_history requested_guid is_guid_only
    cors_headers srv = (Ret resp, srv') ->
  status_code resp = 200 /\ headers resp = cors_headers
  /\ mimetype resp = Some "application/json" /\ body resp <> None.
Proof.
  unfold serve. intros Hrun.
  apply bind_returns in Hrun as (agents & srv1 & _ & Hrun).
  apply bind_returns in Hrun as ([self st] & srv2 & _ & Hrun).
  apply bind_returns in Hrun as (st' & srv3 & _ & Hrun).
  apply bind_returns in Hrun as ([[[n g] l] st''] & srv4 & _ & Hrun).
  cbn [ret] in Hrun. by injection Hrun as <- <-.
Qed.

(** X20: every response [main] returns carries the CORS headers built
    from the [origin] header of the request, the origin itself when it is
    not empty and [*] otherwise, with credentials allowed; its status is
    200, 400 or 500. *)
Theorem main_response_shape (fuel : nat) (req : http_request)
    (srv srv' : server) (resp : http_response) :
  main env fuel req srv = (Ret resp, srv') ->
  headers resp = build_cors_response (origin req)
  /\ dict_get "Access-Control-Allow-Origin" (headers resp)
     = Some (match origin req with
             | Some o => if String.eqb o "" then "*" else o
             | None => "*"
             end)
  /\ dict_get "Access-Control-Allow-Credentials" (headers resp) = Some "true"
  /\ (status_code resp = 200 \/ status_code resp = 400
      \/ status_code resp = 500).
Proof.
  intros Hrun.
  assert (Hshape : headers resp = build_cors_response (origin req)
                   /\ (status_code resp = 200 \/ status_code resp = 400
                       \/ status_code resp = 500)).
  { revert Hrun. unfold main.
    destruct (String.eqb (method req) "OPTIONS");
      [intros [= <- _]; cbn; tauto |].
    destruct (get_json req) as [req_body|];
      [| intros [= <- _]; cbn; tauto].
    destruct (negb (truthy req_body)); [intros [= <- _]; cbn; tauto |].
    destruct req_body as [| b | z | f | s | l | d]; try done.
    cbv zeta. destruct (_ && _); [intros [= <- _]; cbn; tauto |].
    unfold try_except.
    destruct (serve _ _ _ _ _ _ _ srv) as [[r | [msg | msg] |] srv1] eqn:E;
      [| intros [= <- _]; cbn; tauto | done | done].
    intros [= <- _]. apply serve_returns in E as (-> & -> & _). tauto. }
  destruct Hshape as [-> Hstatus]. split; [done |]. split; [| done].
  unfold build_cors_response. cbn [dict_get].
  change (String.eqb "Access-Control-Allow-Origin"
            "Access-Control-Allow-Origin") with true. cbv iota.
  destruct (origin req) as [o|]; [| done]. cbn [opt_truthy default].
  by destruct (String.eqb o "").
Qed.

(** X21: a request that is answered with 400, and a preflight request,
    are answered before any work: nothing is discovered, no assistant is
    built, nothing outside is called. *)
Theorem rejected_before_any_work (fuel : nat) (req : http_request)
    (srv srv' : server) (resp : http_response) :
  main env fuel req srv = (Ret resp, srv') ->
  status_code resp = 400 \/ method req = "OPTIONS" ->
  srv' = srv.
Proof.
  unfold main. destruct (String.eqb_spec (method req) "OPTIONS") as [Em|Em];
    [by intros [= _ <-] |].
  intros Hrun [Hstatus | Hmethod]; [| done]. revert Hrun.
  destruct (get_json req) as [req_body|]; [| by intros [= _ <-]].
  destruct (negb (truthy req_body)); [by intros [= _ <-] |].
  destruct req_body as [| b | z | f | s | l | d]; try done.
  cbv zeta. destruct (_ && _); [by intros [= _ <-] |].
  unfold try_except.
  destruct (serve _ _ _ _ _ _ _ srv) as [[r | [msg | msg] |] srv1] eqn:E;
    [| | done | done].
  - intros [= -> _]. apply serve_returns in E as (E & _). lia.
  - intros [= <- _]. cbn in Hstatus. lia.
Qed.

(** X22: the only exception deriving from [Exception] that [main] lets
    escape is the [AttributeError] of a body that is JSON, truthy and not
    an object: a non-empty array, a non-empty string, a number other than
    zero, [true].  It escapes before any work. *)
Theorem only_a_non_object_body_escapes (fuel : nat) (req : http_request)
    (srv srv' : server) (msg : string) :
  main env fuel req srv = (Raise (Exception msg), srv') ->
  exists req_body,
    get_json req = Some req_body
    /\ truthy req_body = true
    /\ match req_body with PDict _ => False | _ => True end
    /\ msg = "'" ++ type_name req_body ++ "' object has no attribute 'get'"
    /\ srv' = srv.
Proof.
  unfold main. destruct (String.eqb (method req) "OPTIONS"); [done |].
  destruct (get_json req) as [req_body|]; [| done].
  destruct (truthy req_body) eqn:Htruthy; [| done]. cbn [negb].
  destruct req_body as [| b | z | f | s | l | d];
    try (intros [= <- <-];
         match goal with |- context [Some ?v = _] => exists v end;
         by repeat split).
  cbv zeta. destruct (_ && _); [done |]. unfold try_except.
  by destruct (serve _ _ _ _ _ _ _ srv) as [[r | [m | m] |] srv1].
Qed.

(** X23: without an API key or without an endpoint in the environment, a
    request that passes validation is answered with 500 and the message
    of the constructor, once discovery has run; nothing outside is
    called. *)
Theorem missing_credentials (fuel : nat) (req : http_request)
    (d : list (string * pyval)) (srv : server)
    (agents : list (string * agent)) (l : loader) :
  method req <> "OPTIONS" ->
  get_json req = Some (PDict d) ->
  d <> [] ->
  strip (if is_none (py_get "user_input" d) then ""
         else py_str (py_get "user_input" d)) <> "" ->
  opt_truthy (environ env "AZURE_OPENAI_API_KEY") = false
  \/ opt_truthy (environ env "AZURE_OPENAI_ENDPOINT") = false ->
  load_agents_from_folder (os_host env) (process srv) = (Ret agents, l) ->
  main env fuel req srv
  = (Ret (json_response
            (PDict [("error", PStr "Internal server error");
                    ("details",
                     PStr "Azure OpenAI API key and endpoint are required")])
            500 (build_cors_response (origin req))),
     {| process := l; outside := outside srv |}).
Proof.
  intros Hmethod Hbody Hd Hinput Hcreds Hload. unfold main.
  destruct (String.eqb_spec (method req) "OPTIONS"); [done |].
  rewrite Hbody. destruct d as [|kv d]; [done |]. cbn [truthy negb].
  cbv zeta.
  destruct (String.eqb_spec
              (strip (if is_none (py_get "user_input" (kv :: d)) then ""
                      else py_str (py_get "user_input" (kv :: d)))) "");
    [done |].
  rewrite andb_false_r. unfold try_except, serve. unfold bind at 1.
  unfold in_process. rewrite Hload. unfold bind at 1.
  unfold new_assistant. unfold bind at 1.
  assert (negb (opt_truthy (environ env "AZURE_OPENAI_API_KEY"))
          || negb (opt_truthy (environ env "AZURE_OPENAI_ENDPOINT")) = true)
    as ->; [| done].
  destruct Hcreds as [-> | ->]; [done | apply orb_true_r].
Qed.
End TriggerFacts.

Section Bootstrap.
Context `{PyRuntime}.

(** Fetching the memory snapshots returns, unless something that does
    not derive from [Exception] is raised. *)
Lemma initialize_context_memory_returns (self : session) (g : pyval)
    (st : state) :
  match fst (_initialize_context_memory self g st) with
  | Ret _ | Raise (BaseException _) => True
  | Raise (Exception _) | OutOfFuel => False
  end.
Proof.
  unfold _initialize_context_memory, try_except, bind, call, modify.
  destruct (dict_get "ContextMemory" (known_agents self)) as [a|];
    [| done].
  destruct (set_memory_context self (trace st) PNone) as [[] | [m1 | m1]];
    cbn [lift_outcome ret raise];
    [destruct (agent_perform a _ _) as [v1 | [m2 | m2]];
       cbn [lift_outcome ret raise] | | done];
    [destruct (truthy v1) | | done |];
    (match goal with
     | |- context [set_memory_context self ?tr ?u] =>
         destruct (set_memory_context self tr u) as [[] | [m3 | m3]];
         cbn [lift_outcome ret raise];
         [match goal with
          | |- context [agent_perform a ?tr' ?kw] =>
              destruct (agent_perform a tr' kw) as [v2 | [m4 | m4]];
              cbn [lift_outcome ret raise];
              [destruct (truthy v2) | | done]
          end | | done]
     end); done.
Qed.

(** A turn whose prompt only carries a GUID, on a history that names no
    identity: the fixed reply, the GUID as active identity, no call to
    the chat endpoint. *)
Lemma get_response_bootstrap (self : session) (fuel : nat) (u g : string)
    (conversation_history : pyval) (max_retries retry_delay : Z)
    (st st' : state) (r : reply) :
  guid_pattern (strip u) = Some g ->
  _check_first_message_for_guid (trim_history conversation_history)
  = Returns None ->
  get_response self fuel (PStr u) conversation_history max_retries
    retry_delay st = (Ret r, st') ->
  r = ("Game world initialized. Your adventure awaits!",
       json_dumps (PDict [("event", PStr "world_init");
                          ("status", PStr "ready")]), "")
  /\ user_guid st' = PStr g
  /\ api_calls (trace st') = api_calls (trace st).
Proof.
  intros Hg Hcheck.
  pose proof (guid_pattern_strip u g Hg) as (Hstrip & Hlen & _ & _).
  assert (Hne : String.eqb g "" = false) by (by destruct g).
  assert (Hprompt : extract_user_guid (PStr u) = Some g).
  { unfold extract_user_guid. cbn [is_none py_str]. by rewrite Hg. }
  assert (Hres :
    match resolve_identity self (PStr u) (trim_history conversation_history)
            st with
    | (Ret gp, st1) =>
        gp = Some g /\ user_guid st1 = PStr g
        /\ api_calls (trace st1) = api_calls (trace st)
    | (Raise (BaseException _), _) => True
    | _ => False
    end).
  { unfold resolve_identity. unfold bind at 1. rewrite Hcheck.
    cbn [lift_outcome ret opt_truthy]. rewrite Hprompt.
    change (default "" (Some g)) with g.
    cbn [opt_truthy]. rewrite Hne. cbn [negb andb].
    unfold bind at 1. cbn [get_state].
    destruct (eq_str (user_guid st) g) eqn:Eactive; cbn [negb].
    - assert (Hactive : user_guid st = PStr g).
      { destruct (user_guid st); try done. simpl in Eactive.
        by apply String.eqb_eq in Eactive as ->. }
      rewrite Hactive. cbn [truthy]. rewrite Hne. cbn [negb].
      unfold bind. cbn [ret]. by rewrite Hactive.
    - unfold bind at 1. unfold bind at 1. cbn [modify].
      pose proof (initialize_context_memory_identity self (PStr g)
                    (set_user_guid (PStr g) st)) as Hid.
      pose proof (initialize_context_memory_api self (PStr g)
                    (set_user_guid (PStr g) st)) as Hapi.
      pose proof (initialize_context_memory_returns self (PStr g)
                    (set_user_guid (PStr g) st)) as Hret.
      destruct (_initialize_context_memory self (PStr g) _)
        as [[u0 | [msg | msg] |] st1]; cbn [fst] in Hret; try done.
      destruct Hid as [Hid _], Hapi as [Hapi _].
      unfold same_identity, same_api_calls in *. cbn [ret].
      split; [done |]. split; [by rewrite Hid | by rewrite Hapi]. }
  unfold get_response, try_except, begin_turn. unfold bind at 1.
  unfold bind at 1.
  destruct (resolve_identity self (PStr u) _ st)
    as [[gp | [msg | msg] |] st1]; try done.
  destruct Hres as (-> & Hactive & Hapi).
  change (default "" (Some g)) with g. unfold bind at 1.
  cbn [get_state is_none py_str opt_truthy]. rewrite Hne.
  rewrite <- Hstrip, String.eqb_refl, Hactive. cbn [negb andb eq_str].
  rewrite String.eqb_refl. cbn [ret]. intros [= <- <-]. by rewrite Hactive.
Qed.
End Bootstrap.

Section BootstrapRequest.
Context `{PyRuntime} (env : deployment).

Lemma in_assistant_returns {A : Type} (m : M state A) (st : state)
    (srv srv' : server) (a : A) (st' : state) :
  in_assistant m st srv = (Ret (a, st'), srv') ->
  m st = (Ret a, st') /\ outside srv' = trace st'.
Proof.
  unfold in_assistant. destruct (m st) as [[a' | e |] st1]; [| done | done].
  by intros [= <- <- <-].
Qed.

(** The assistant [main] builds: it takes up the trace of the server,
    and fetching its first snapshots does not call the chat endpoint. *)
Lemma new_assistant_returns (agents : list (string * agent))
    (srv srv' : server) (self : session) (st : state) :
  new_assistant env agents srv = (Ret (self, st), srv') ->
  api_calls (trace st) = api_calls (outside srv)
  /\ outside srv' = trace st.
Proof.
  unfold new_assistant. intros Hrun.
  apply bind_returns in Hrun as (client & srv1 & Hclient & Hrun).
  assert (srv1 = srv) as ->.
  { destruct (_ || _); [done |].
    destruct (new_client env _ _ _);
      unfold lift_outcome, ret, raise in Hclient; congruence. }
  apply bind_returns in Hrun as (storage & srv2 & Hstorage & Hrun).
  assert (srv2 = srv) as ->.
  { destruct (new_storage env);
      unfold lift_outcome, ret, raise in Hstorage; congruence. }
  apply bind_returns in Hrun as (srv3 & srv4 & Hget & Hrun).
  unfold get_state in Hget. injection Hget as <- <-.
  apply bind_returns in Hrun as ([[] st1] & srv5 & Hinit & Hrun).
  cbn [ret snd] in Hrun. injection Hrun as <- <- <-.
  apply in_assistant_returns in Hinit as [Hinit Hout].
  split; [| done].
  match type of Hinit with
  | _initialize_context_memory ?s ?g ?st0 = _ =>
      pose proof (initialize_context_memory_api s g st0) as Hapi
  end.
  rewrite Hinit in Hapi. by destruct Hapi as [Hapi _].
Qed.

(** X24: a request whose utterance is a GUID and nothing else, with a
    history that is absent, empty or not a list, bootstraps the session:
    when it is answered with 200, the answer is the fixed narrative and
    payload with that GUID as [user_guid], whatever [user_guid] the body
    names, and the chat endpoint has not been called. *)
Theorem guid_only_request (fuel : nat) (req : http_request)
    (d : list (string * pyval)) (u g : string) (srv srv' : server)
    (resp : http_response) :
  method req <> "OPTIONS" ->
  get_json req = Some (PDict d) ->
  py_get "user_input" d = PStr u ->
  guid_pattern (strip u) = Some g ->
  match dict_get "conversation_history" d with
  | Some (PList (_ :: _)) => False
  | _ => True
  end ->
  main env fuel req srv = (Ret resp, srv') ->
  status_code resp = 200 ->
  body resp
  = Some (json_dumps
            (PDict [("assistant_response",
                     PStr "Game world initialized. Your adventure awaits!");
                    ("game_data",
                     PStr (json_dumps
                             (PDict [("event", PStr "world_init");
                                     ("status", PStr "ready")])));
                    ("agent_logs", PStr "");
                    ("user_guid", PStr g)]))
  /\ api_calls (outside srv') = api_calls (outside srv).
Proof.
  intros Hmethod Hbody Hinput Hg Hhistory. unfold main.
  destruct (String.eqb_spec (method req) "OPTIONS"); [done |].
  rewrite Hbody.
  assert (truthy (PDict d) = true) as ->.
  { destruct d; [done | done]. }
  cbn [negb]. cbv zeta. rewrite Hinput. cbn [is_none py_str].
  rewrite Hg. cbn [negb andb]. unfold try_except.
  set (history := match default (PList []) (dict_get "conversation_history" d)
                  with PList _ => _ | _ => PList [] end).
  assert (Hcheck : _check_first_message_for_guid (trim_history history)
                   = Returns None).
  { subst history.
    destruct (dict_get "conversation_history" d) as [[| b | z | f | s | l | m]|];
      try done. by destruct l. }
  destruct (serve _ _ _ _ _ _ _ srv) as [[r | [msg | msg] |] srv1] eqn:E;
    [| by intros [= <- <-] | done | done].
  intros [= -> ->] _. unfold serve in E.
  apply bind_returns in E as (agents & srv2 & Hload & E).
  assert (outside srv2 = outside srv) as Hout2.
  { unfold in_process in Hload.
    destruct (load_agents_from_folder _ _) as [r l].
    by injection Hload as _ <-. }
  apply bind_returns in E as ([self st] & srv3 & Hnew & E).
  apply new_assistant_returns in Hnew as [Hapi3 Hout3].
  apply bind_returns in E as (st4 & srv4 & Hidentity & E).
  assert (Hapi4 : api_calls (trace st4) = api_calls (outside srv)).
  { rewrite <- Hout2, <- Hapi3. revert Hidentity.
    destruct (truthy (py_get "user_guid" d)).
    - intros Hrun. apply bind_returns in Hrun as ([[] st5] & srv5 & Hrun & Hret).
      cbn [ret snd] in Hret. injection Hret as <- _.
      apply in_assistant_returns in Hrun as [Hrun _].
      match type of Hrun with
      | _initialize_context_memory ?s ?g0 ?st0 = _ =>
          pose proof (initialize_context_memory_api s g0 st0) as Hapi
      end.
      rewrite Hrun in Hapi. by destruct Hapi as [Hapi _].
    - intros Hrun. apply bind_returns in Hrun as ([[] st5] & srv5 & Hrun & Hret).
      cbn [ret snd] in Hret. injection Hret as <- _.
      apply in_assistant_returns in Hrun as [Hrun _].
      match type of Hrun with
      | _initialize_context_memory ?s ?g0 ?st0 = _ =>
          pose proof (initialize_context_memory_api s g0 st0) as Hapi
      end.
      rewrite Hrun in Hapi. by destruct Hapi as [Hapi _]. }
  apply bind_returns in E as ([[[narrative gd] logs] st5] & srv5 & Hturn & E).
  apply in_assistant_returns in Hturn as [Hturn Hout5].
  apply (get_response_bootstrap self fuel u g) in Hturn
    as (Hreply & Hactive & Hapi5); [| done | done].
  injection Hreply as -> -> ->. cbn [ret] in E. injection E as <- <-.
  cbn [body json_response]. rewrite Hactive. split; [done |].
  rewrite Hout5. congruence.
Qed.
End BootstrapRequest.

(** A blank utterance: 400, with the headers of the origin. *)
Lemma main_response_shape_witness :
  headers
    (@json_response python
       (PDict [("error", PStr "Missing or empty user_input in JSON payload")])
       400 (build_cors_response (Some "https://game.example")))
  = build_cors_response (origin blank_request)
  /\ dict_get "Access-Control-Allow-Origin"
       (headers
          (@json_response python
             (PDict [("error",
                      PStr "Missing or empty user_input in JSON payload")])
             400 (build_cors_response (Some "https://game.example"))))
     = Some (match origin blank_request with
             | Some o => if String.eqb o "" then "*" else o
             | None => "*"
             end)
  /\ dict_get "Access-Control-Allow-Credentials"
       (headers
          (@json_response python
             (PDict [("error",
                      PStr "Missing or empty user_input in JSON payload")])
             400 (build_cors_response (Some "https://game.example"))))
     = Some "true"
  /\ (status_code
        (@json_response python
           (PDict [("error",
                    PStr "Missing or empty user_input in JSON payload")])
           400 (build_cors_response (Some "https://game.example"))) = 200
      \/ status_code
           (@json_response python
              (PDict [("error",
                       PStr "Missing or empty user_input in JSON payload")])
              400 (build_cors_response (Some "https://game.example"))) = 400
      \/ status_code
           (@json_response python
              (PDict [("error",
                       PStr "Missing or empty user_input in JSON payload")])
              400 (build_cors_response (Some "https://game.example"))) = 500).
Proof.
  refine (@main_response_shape python staging 1 blank_request idle idle _ _).
  vm_compute; reflexivity.
Defined.

(** The blank utterance leaves the server idle. *)
Lemma rejected_before_any_work_witness :
  snd (@main python staging 1 blank_request idle) = idle.
Proof.
  refine (@rejected_before_any_work python staging 1 blank_request idle
            (snd (@main python staging 1 blank_request idle))
            (@json_response python
               (PDict [("error",
                        PStr "Missing or empty user_input in JSON payload")])
               400 (build_cors_response (Some "https://game.example")))
            _ _);
    [vm_compute; reflexivity | left; reflexivity].
Defined.

(** The body [\[1\]]. *)
Lemma only_a_non_object_body_escapes_witness :
  exists req_body,
    get_json array_request = Some req_body
    /\ truthy req_body = true
    /\ match req_body with PDict _ => False | _ => True end
    /\ "'list' object has no attribute 'get'"
       = "'" ++ type_name req_body ++ "' object has no attribute 'get'"
    /\ snd (@main python staging 1 array_request idle) = idle.
Proof.
  refine (@only_a_non_object_body_escapes python staging 1 array_request idle
            (snd (@main python staging 1 array_request idle))
            "'list' object has no attribute 'get'" _).
  vm_compute; reflexivity.
Defined.

(** No API key: 500 after discovery. *)
Lemma missing_credentials_witness :
  @main python keyless 1 hello_request idle
  = (Ret (@json_response python
            (PDict [("error", PStr "Internal server error");
                    ("details",
                     PStr "Azure OpenAI API key and endpoint are required")])
            500 (build_cors_response (origin hello_request))),
     {| process := snd (load_agents_from_folder (os_host keyless)
                          (process idle));
        outside := outside idle |}).
Proof.
  refine (@missing_credentials python keyless 1 hello_request
            [("user_input", PStr "hello")] idle
            [("Stall", stalling_tool)] _ _ _ _ _ _ _);
    [done | reflexivity | done | vm_compute; discriminate
    | left; reflexivity | vm_compute; reflexivity].
Defined.

(** [sample_guid] under another [user_guid]: the session is bootstrapped
    for [sample_guid]. *)
Lemma guid_only_request_witness :
  body
    (@json_response python
       (PDict [("assistant_response",
                PStr "Game world initialized. Your adventure awaits!");
               ("game_data",
                PStr (@json_dumps python
                        (PDict [("event", PStr "world_init");
                                ("status", PStr "ready")])));
               ("agent_logs", PStr "");
               ("user_guid", PStr sample_guid)])
       200 (build_cors_response (origin bootstrap_request)))
  = Some (@json_dumps python
            (PDict [("assistant_response",
                     PStr "Game world initialized. Your adventure awaits!");
                    ("game_data",
                     PStr (@json_dumps python
                             (PDict [("event", PStr "world_init");
                                     ("status", PStr "ready")])));
                    ("agent_logs", PStr "");
                    ("user_guid", PStr sample_guid)]))
  /\ api_calls (outside (snd (@main python staging 1 bootstrap_request idle)))
     = api_calls (outside idle).
Proof.
  refine (@guid_only_request python staging 1 bootstrap_request
            [("user_input", PStr sample_guid);
             ("user_guid", PStr "someone-else")]
            sample_guid sample_guid idle
            (snd (@main python staging 1 bootstrap_request idle))
            (@json_response python
               (PDict [("assistant_response",
                        PStr "Game world initialized. Your adventure awaits!");
                       ("game_data",
                        PStr (@json_dumps python
                                (PDict [("event", PStr "world_init");
                                        ("status", PStr "ready")])));
                       ("agent_logs", PStr "");
                       ("user_guid", PStr sample_guid)])
               200 (build_cors_response (origin bootstrap_request)))
            _ _ _ _ _ _ _);
    [done | reflexivity | reflexivity | vm_compute; reflexivity | exact I
    | vm_compute; reflexivity | reflexivity].
Defined.

(** ** The tools of the game *)

Ltac pick_key :=
  cbn; repeat first [apply list_elem_of_here | apply list_elem_of_further].

(** Case analysis on the key of a statistic. *)
Ltac stat_cases key :=
  unfold stat_gain; cbn [existsb dict_get event_counters damaging_events];
  repeat match goal with
    | |- context [dict_get key (dict_set ?k _ _)] =>
        destruct (String.eqb_spec k key) as [<-|?];
        [rewrite dict_get_set_eq | rewrite dict_get_set_ne by done]
    end;
  repeat match goal with
    | Hk : dict_get _ _ = Some _ |- _ => rewrite Hk
    end;
  repeat match goal with
    | |- context [String.eqb ?a ?b] =>
        destruct (String.eqb_spec a b); try congruence
    end;
  cbn;
  try (destruct (dict_get key _) as [[]|]);
  try done; repeat f_equal; lia.

(** Lookups in a dictionary that has just been assigned to. *)
Ltac dict_simpl :=
  repeat first
    [ rewrite dict_get_set_eq
    | rewrite dict_get_set_ne by (intros [=]) ].

(** The steps of a tool on values whose type is known. *)
Ltac tool_run :=
  repeat (progress
    (cbn [lift_outcome method_get method_append py_add py_iadd
          py_mod py_lt py_eq as_int assign subscript py_setitem py_getitem
          py_contains slice_to];
     dict_simpl;
     repeat match goal with
       | Hk : dict_get ?k ?d = _ |- context [dict_get ?k ?d] => rewrite Hk
       end;
     try match goal with
       | |- context [bind (ret ?a) ?k] =>
           change (bind (ret a) k) with (k a); cbv beta
       end)).

Section ToolFacts.
Context `{PyRuntime} `{PyOperators} `{Surroundings}.

Lemma increase_int {S : Type} (stats : list (string * pyval)) (key : string)
    (n amount : Z) (st : S) :
  dict_get key stats = Some (PInt n) ->
  increase (PDict stats) key (PInt amount) st
  = (Ret (PDict (dict_set key (PInt (n + amount)) stats)), st).
Proof.
  intros Hn. unfold increase, bind, subscript, assign; cbn. by rewrite Hn.
Qed.

Lemma dict_set_set {V : Type} (k : string) (v w : V)
    (d : list (string * V)) :
  dict_set k v (dict_set k w d) = dict_set k v d.
Proof.
  induction d as [|[k' v'] d IH]; cbn.
  - by rewrite String.eqb_refl.
  - destruct (String.eqb k' k) eqn:E; cbn; rewrite E; [done | by rewrite IH].
Qed.

Lemma dict_keys_set_present {V : Type} (k : string) (v w : V)
    (d : list (string * V)) :
  dict_get k d = Some w -> dict_keys (dict_set k v d) = dict_keys d.
Proof. intros Hk. rewrite dict_keys_set. unfold dict_has. by rewrite Hk. Qed.

(** X25: for statistics that hold integers under their seven keys and an
    integer damage, [update_combat_stats] reads the memory once and writes
    it back once with the statistics changed as follows and in no other
    way: the damage is added to [total_damage_dealt] for the events
    [attack], [critical] and [special_move], and one is added to the
    counter of [critical], [miss], [victory], [death] and [special_move].
    So [total_damage_taken] is never updated, and an event such as
    [defend] or [environmental] changes no statistic. *)
Theorem combat_stats_accounting (combat_event : string) (damage : Z)
    (memory stats : list (string * pyval)) (tr : list effect) :
  read_json tr = Returns (PDict memory) ->
  method_get (PDict memory) "combat_stats" (PDict new_combat_stats)
  = Returns (PDict stats) ->
  Forall (fun key => exists n, dict_get key stats = Some (PInt n))
    (dict_keys new_combat_stats) ->
  exists stats',
    let written := PDict (dict_set "combat_stats" (PDict stats') memory) in
    update_combat_stats (PStr combat_event) (PInt damage) tr
    = lift_outcome (write_json (tr ++ [FxReadJson])%list written)
        (tr ++ [FxReadJson; FxWriteJson written])%list
    /\ dict_keys stats' = dict_keys stats
    /\ forall key,
         dict_get key stats'
         = match dict_get key stats with
           | Some (PInt n) =>
               Some (PInt (n + stat_gain combat_event damage key))
           | other => other
           end.
Proof.
  intros Hread Hstats Hints. rewrite Forall_forall in Hints.
  destruct (Hints "total_damage_dealt") as [dealt Hdealt]; [pick_key |].
  destruct (Hints "critical_hits") as [crit Hcrit]; [pick_key |].
  destruct (Hints "misses") as [miss Hmiss]; [pick_key |].
  destruct (Hints "victories") as [vict Hvict]; [pick_key |].
  destruct (Hints "defeats") as [def Hdef]; [pick_key |].
  destruct (Hints "special_moves_used") as [spec Hspec]; [pick_key |].
  assert (Hwrite : forall stats',
    (let* memory_data :=
       lift_outcome (assign (PDict memory) "combat_stats" (PDict stats')) in
     act (FxWriteJson memory_data) (fun tr => write_json tr memory_data))
      (tr ++ [FxReadJson])%list
    = lift_outcome
        (write_json (tr ++ [FxReadJson])%list
           (PDict (dict_set "combat_stats" (PDict stats') memory)))
        (tr ++ [FxReadJson;
                FxWriteJson
                  (PDict (dict_set "combat_stats" (PDict stats') memory))])%list).
  { intros stats'. unfold bind, act; cbn. by rewrite <- app_assoc. }
  unfold update_combat_stats.
  unfold bind at 1. unfold act at 1. rewrite Hread. cbn [lift_outcome ret].
  unfold bind at 1. rewrite Hstats. cbn [lift_outcome ret].
  cbn [eq_str].
  destruct (String.eqb_spec combat_event "attack") as [->|Hattack].
  { unfold bind at 1. rewrite (increase_int _ _ _ _ _ Hdealt).
    eexists. split; [apply Hwrite |].
    split; [by rewrite (dict_keys_set_present _ _ _ _ Hdealt) |].
    intros key. stat_cases key. }
  destruct (String.eqb_spec combat_event "critical") as [->|Hcritical].
  { unfold bind at 1. unfold bind at 1.
    rewrite (increase_int _ _ _ _ _ Hcrit).
    erewrite increase_int by (rewrite dict_get_set_ne by done; exact Hdealt).
    eexists. split; [apply Hwrite |].
    split.
    { erewrite dict_keys_set_present
        by (rewrite dict_get_set_ne by done; exact Hdealt).
      by rewrite (dict_keys_set_present _ _ _ _ Hcrit). }
    intros key. stat_cases key. }
  destruct (String.eqb_spec combat_event "miss") as [->|Hmissed].
  { unfold bind at 1. rewrite (increase_int _ _ _ _ _ Hmiss).
    eexists. split; [apply Hwrite |].
    split; [by rewrite (dict_keys_set_present _ _ _ _ Hmiss) |].
    intros key. stat_cases key. }
  destruct (String.eqb_spec combat_event "victory") as [->|Hvictory].
  { unfold bind at 1. rewrite (increase_int _ _ _ _ _ Hvict).
    eexists. split; [apply Hwrite |].
    split; [by rewrite (dict_keys_set_present _ _ _ _ Hvict) |].
    intros key. stat_cases key. }
  destruct (String.eqb_spec combat_event "death") as [->|Hdeath].
  { unfold bind at 1. rewrite (increase_int _ _ _ _ _ Hdef).
    eexists. split; [apply Hwrite |].
    split; [by rewrite (dict_keys_set_present _ _ _ _ Hdef) |].
    intros key. stat_cases key. }
  destruct (String.eqb_spec combat_event "special_move") as [->|Hspecial].
  { unfold bind at 1. unfold bind at 1.
    rewrite (increase_int _ _ _ _ _ Hspec).
    erewrite increase_int by (rewrite dict_get_set_ne by done; exact Hdealt).
    eexists. split; [apply Hwrite |].
    split.
    { erewrite dict_keys_set_present
        by (rewrite dict_get_set_ne by done; exact Hdealt).
      by rewrite (dict_keys_set_present _ _ _ _ Hspec). }
    intros key. stat_cases key. }
  exists stats. split; [apply Hwrite |]. split; [done |].
  intros key. clear Hdealt Hcrit Hmiss Hvict Hdef Hspec. stat_cases key.
Qed.
Lemma time_events_spec (time_of_day : pyval) (tr : list effect) :
  exists events draws,
    time_events time_of_day tr = (Ret events, (tr ++ draws)%list)
    /\ (draws = [] \/ draws = [FxRandom])
    /\ (length events <= 1)%nat.
Proof.
  assert (Hdraw : forall chance name,
    exists events,
      (let* x := act FxRandom (fun tr => Returns (random_random tr)) in
       ret (if PrimFloat.ltb x chance then [PStr name] else []))
        tr = (Ret events, (tr ++ [FxRandom])%list)
      /\ (length events <= 1)%nat).
  { intros chance name. unfold bind, act, ret; cbn.
    destruct (PrimFloat.ltb _ _); eexists; (split; [reflexivity | cbn; lia]). }
  unfold time_events.
  repeat match goal with
    | |- context [if py_eq ?a ?b then _ else _] => destruct (py_eq a b)
    end;
    try (edestruct Hdraw as (events & Heq & Hlen);
         exists events, [FxRandom]; split; [exact Heq |];
         by split; [right |]).
  exists [], []. rewrite app_nil_r. split; [done |]. split; [by left | cbn; lia].
Qed.

Lemma next_day_spec (world : list (string * pyval)) (day : Z)
    (season : string) (tr : list effect) :
  dict_get "day_count" world = Some (PInt day) ->
  dict_get "season" world = Some (PStr season) ->
  season ∈ seasons ->
  exists world' season',
    next_day (PDict world) tr = (Ret (PDict world'), tr)
    /\ dict_get "day_count" world' = Some (PInt (day + 1))
    /\ dict_get "season" world' = Some (PStr season')
    /\ season' ∈ seasons
    /\ ((day + 1) mod 30 <> 0 -> season' = season)
    /\ forall key, key <> "day_count" -> key <> "season" ->
         dict_get key world' = dict_get key world.
Proof.
  intros Hday Hseason Hin. unfold next_day. tool_run.
  destruct ((day + 1) mod 30 =? 0) eqn:Hmonth.
  - assert (exists i, seasons_index (PStr season) = Returns i)
      as [i ->].
    { unfold seasons in Hin.
      repeat (apply elem_of_cons in Hin as [->|Hin]);
        [by eexists .. | by apply elem_of_nil in Hin]. }
    tool_run. eexists _, _. split; [reflexivity |].
    dict_simpl. split; [done |].
    split; [done |]. split.
    { apply list_elem_of_In, nth_In.
      change (length seasons) with 4%nat. apply Nat.mod_upper_bound. lia. }
    split; [apply Z.eqb_eq in Hmonth; by intros [] |].
    intros key Hk1 Hk2. by rewrite !dict_get_set_ne.
  - eexists _, season. split; [reflexivity |].
    dict_simpl. rewrite Hseason. split; [done |]. split; [done |].
    split; [done |]. split; [done |].
    intros key Hk1 Hk2. by rewrite dict_get_set_ne.
Qed.

Lemma time_report_trace (world_state : pyval) (events : list pyval)
    (tr : list effect) :
  snd (time_report world_state events tr) = tr.
Proof.
  unfold time_report, bind.
  repeat match goal with
    | |- context [lift_outcome ?o] => destruct o; cbn; try done
    end.
Qed.

(** X26: on a world state with an integer clock and day count and a
    known season, [advance_time] writes the clock [(time + hours) mod 24],
    which is in 0..23, and adds one day exactly when that clock is below
    the hours advanced: never more than one day per call, however many
    hours pass, and for a clock in 0..23 and at most 24 hours exactly
    when midnight is reached.  The season written is one of the four,
    [active_events] is replaced by at most one event, at most one random
    number is drawn, and when the write succeeds the call returns the
    success report of the state written. *)
Theorem clock_and_calendar (parameters : pyval) (hours time day : Z)
    (season : string) (memory world : list (string * pyval))
    (tr : list effect) :
  method_get parameters "hours" (PInt 1) = Returns (PInt hours) ->
  read_json tr = Returns (PDict memory) ->
  dict_get "world_state" memory = Some (PDict world) ->
  dict_get "time_of_day" world = Some (PInt time) ->
  dict_get "day_count" world = Some (PInt day) ->
  dict_get "season" world = Some (PStr season) ->
  season ∈ seasons ->
  let clock := (time + hours) mod 24 in
  let today := if clock <? hours then day + 1 else day in
  exists world' draws events season',
    let written := PDict (dict_set "world_state" (PDict world') memory) in
    snd (advance_time parameters tr)
    = (tr ++ [FxReadJson] ++ draws ++ [FxWriteJson written])%list
    /\ (draws = [] \/ draws = [FxRandom])
    /\ dict_get "time_of_day" world' = Some (PInt clock)
    /\ dict_get "day_count" world' = Some (PInt today)
    /\ dict_get "season" world' = Some (PStr season')
    /\ season' ∈ seasons
    /\ dict_get "active_events" world' = Some (PList events)
    /\ (length events <= 1)%nat
    /\ (write_json (tr ++ [FxReadJson] ++ draws)%list written = Returns tt ->
        fst (advance_time parameters tr)
        = Ret (json_dumps
                 (PDict [("status", PStr "success");
                         ("time_of_day", PInt clock);
                         ("day_count", PInt today);
                         ("season", PStr season');
                         ("triggered_events", PList events);
                         ("description",
                          PStr ("Time advances to hour " ++ str_of_Z clock
                                ++ " of day " ++ str_of_Z today ++ " in "
                                ++ season' ++ "."))])))
    /\ 0 <= clock < 24
    /\ (0 <= time < 24 -> 0 <= hours <= 24 ->
        today = if 24 <=? time + hours then day + 1 else day).
Proof.
  intros Hhours Hread Hworld Htime Hday Hseason Hin clock today.
  assert (Htruthy : truthy (PDict world) = true) by (by destruct world).
  assert (exists world1 season',
    (if clock <? hours
     then next_day (PDict (dict_set "time_of_day" (PInt clock) world))
     else ret (PDict (dict_set "time_of_day" (PInt clock) world)))
      (tr ++ [FxReadJson])%list
    = (Ret (PDict world1), (tr ++ [FxReadJson])%list)
    /\ dict_get "time_of_day" world1 = Some (PInt clock)
    /\ dict_get "day_count" world1 = Some (PInt today)
    /\ dict_get "season" world1 = Some (PStr season')
    /\ season' ∈ seasons) as (world1 & season' & Hstep & Hclock & Htoday
                               & Hseason' & Hin').
  { subst today. destruct (clock <? hours).
    - destruct (next_day_spec
                  (dict_set "time_of_day" (PInt clock) world) day season
                  (tr ++ [FxReadJson])%list)
        as (world1 & season' & Hstep & Htoday & Hseason' & Hin' & _ & Hrest);
        [by dict_simpl | by dict_simpl | done |].
      exists world1, season'. split; [done |].
      split; [| done]. rewrite Hrest by (intros [=]). by dict_simpl.
    - eexists _, season. split; [reflexivity |]. by dict_simpl. }
  destruct (time_events_spec (PInt clock) (tr ++ [FxReadJson])%list)
    as (events & draws & Hevents & Hdraws & Hlen).
  set (world' := dict_set "active_events" (PList events) world1).
  set (written := PDict (dict_set "world_state" (PDict world') memory)).
  assert (Hrun : advance_time parameters tr
    = (act (FxWriteJson written) (fun tr => write_json tr written) ;;;
       time_report (PDict world') events)
        (tr ++ [FxReadJson] ++ draws)%list).
  { unfold advance_time. rewrite Hhours. tool_run.
    unfold bind at 1. unfold act at 1. rewrite Hread. cbn [lift_outcome ret].
    tool_run. rewrite Htruthy. cbn [negb]. tool_run. fold clock.
    unfold bind at 1. rewrite Hstep. tool_run.
    unfold bind at 1. rewrite Hevents. tool_run.
    by rewrite <- app_assoc. }
  exists world', draws, events, season'. cbv zeta. fold written.
  rewrite Hrun. unfold bind, act. subst world'. dict_simpl.
  split.
  { destruct (write_json _ _); cbn; [| by rewrite <- !app_assoc].
    by rewrite time_report_trace, <- !app_assoc. }
  split; [done |]. split; [done |]. split; [done |]. split; [done |].
  split; [done |]. split; [done |]. split; [done |].
  split.
  { intros ->. cbn [lift_outcome ret]. unfold time_report. tool_run. done. }
  split.
  { subst clock. apply Z.mod_pos_bound. lia. }
  intros Htime_range Hhours_range. subst today clock.
  destruct (24 <=? time + hours) eqn:Hpassed.
  - apply Z.leb_le in Hpassed.
    replace ((time + hours) mod 24) with (time + hours - 24)
      by (apply Z.mod_unique with 1; lia).
    destruct (Z.ltb_spec (time + hours - 24) hours); [done | lia].
  - apply Z.leb_gt in Hpassed. rewrite Z.mod_small by lia.
    destruct (Z.ltb_spec (time + hours) hours); [lia | done].
Qed.
Lemma change_weather_fresh (parameters : pyval) (weather : string)
    (memory : list (string * pyval)) (tr : list effect) :
  method_get parameters "weather" PNone = Returns (PStr weather) ->
  weather <> "" ->
  read_json tr = Returns (PDict memory) ->
  dict_get "world_state" memory = None ->
  let written :=
    PDict (dict_set "world_state" (PDict [("weather", PStr weather)]) memory) in
  write_json (tr ++ [FxReadJson])%list written = Returns tt ->
  exists report,
    change_weather parameters tr
    = (Ret report, (tr ++ [FxReadJson; FxWriteJson written])%list).
Proof.
  intros Hweather Hne Hread Hworld written Hwrite.
  unfold change_weather. rewrite Hweather. tool_run.
  cbn [truthy]. destruct (String.eqb_spec weather ""); [done |].
  cbn [negb]. tool_run.
  unfold bind at 1. unfold act at 1. rewrite Hread. cbn [lift_outcome ret].
  tool_run. cbn [dict_get dict_set literal_get]. tool_run.
  fold written. unfold bind at 1. unfold act at 1. rewrite Hwrite.
  cbn [lift_outcome ret]. rewrite <- app_assoc. by eexists.
Qed.

(** X27: on a memory without world state and a reliable storage,
    [change_weather] creates a world state that holds the weather only,
    and [advance_time] then fails after its work is done: it advances the
    clock from the default 12, writes the state, and raises the
    [KeyError] of ['day_count'], or of ['season'] when the clock passed
    midnight, because its report reads keys that only [get_world_state]
    creates. *)
Theorem weather_before_world (parameters later : pyval) (weather : string)
    (hours : Z) (memory : list (string * pyval)) (tr : list effect) :
  reliable ->
  method_get parameters "weather" PNone = Returns (PStr weather) ->
  weather <> "" ->
  read_json tr = Returns (PDict memory) ->
  dict_get "world_state" memory = None ->
  method_get later "hours" (PInt 1) = Returns (PInt hours) ->
  let clock := (12 + hours) mod 24 in
  let first :=
    PDict (dict_set "world_state" (PDict [("weather", PStr weather)]) memory) in
  exists world' draws,
    let second := PDict (dict_set "world_state" (PDict world') memory) in
    (change_weather parameters ;;; advance_time later) tr
    = (Raise (Exception (if clock <? hours then "'season'"
                         else "'day_count'")),
       (tr ++ [FxReadJson; FxWriteJson first; FxReadJson] ++ draws
        ++ [FxWriteJson second])%list)
    /\ (draws = [] \/ draws = [FxRandom])
    /\ dict_get "weather" world' = Some (PStr weather)
    /\ dict_get "time_of_day" world' = Some (PInt clock)
    /\ dict_get "season" world' = None.
Proof.
  intros [Hwrites Hreads] Hweather Hne Hread Hworld Hhours clock first.
  destruct (change_weather_fresh parameters weather memory tr)
    as [report Hfirst]; [done .. |].
  fold first in Hfirst.
  unfold bind at 1. rewrite Hfirst.
  assert (Hsecond :
    read_json (tr ++ [FxReadJson; FxWriteJson first])%list = Returns first).
  { change [FxReadJson; FxWriteJson first]
      with ([FxReadJson] ++ [FxWriteJson first])%list.
    rewrite app_assoc. apply Hreads. }
  destruct (time_events_spec (PInt clock)
              ((tr ++ [FxReadJson; FxWriteJson first]) ++ [FxReadJson])%list)
    as (events & draws & Hevents & Hdraws & Hlen).
  unfold advance_time. rewrite Hhours. tool_run.
  unfold bind at 1. unfold act at 1. rewrite Hsecond. cbn [lift_outcome ret].
  subst first. tool_run. cbn [truthy negb dict_get String.eqb Ascii.eqb Bool.eqb].
  tool_run. cbn [dict_get dict_set String.eqb Ascii.eqb Bool.eqb]. fold clock.
  destruct (clock <? hours).
  - unfold bind at 1, next_day. tool_run.
    cbn [dict_get dict_set String.eqb Ascii.eqb Bool.eqb]. tool_run.
    cbn [dict_get dict_set String.eqb Ascii.eqb Bool.eqb]. tool_run.
    change ((1 + 1) mod 30 =? 0) with false. cbn [ret].
    tool_run. cbn [dict_get dict_set String.eqb Ascii.eqb Bool.eqb]. tool_run.
    unfold bind at 1. rewrite Hevents. tool_run.
    cbn [dict_get dict_set String.eqb Ascii.eqb Bool.eqb].
    rewrite dict_set_set.
    unfold bind at 1, act at 1. rewrite Hwrites. cbn [lift_outcome ret].
    unfold time_report. tool_run.
    cbn [dict_get dict_set String.eqb Ascii.eqb Bool.eqb]. tool_run.
    eexists _, draws. cbv zeta. split.
    { unfold bind, raise.
      f_equal; first [reflexivity | by rewrite <- !app_assoc]. }
    by repeat split.
  - tool_run. cbn [dict_get dict_set String.eqb Ascii.eqb Bool.eqb]. tool_run.
    unfold bind at 1. rewrite Hevents. tool_run.
    cbn [dict_get dict_set String.eqb Ascii.eqb Bool.eqb].
    rewrite dict_set_set.
    unfold bind at 1, act at 1. rewrite Hwrites. cbn [lift_outcome ret].
    unfold time_report. tool_run.
    cbn [dict_get dict_set String.eqb Ascii.eqb Bool.eqb]. tool_run.
    eexists _, draws. cbv zeta. split.
    { unfold bind, raise.
      f_equal; first [reflexivity | by rewrite <- !app_assoc]. }
    by repeat split.
Qed.
Lemma last_n_snoc {A : Type} (n : nat) (l : list A) (x : A) :
  (0 < n)%nat ->
  length (last_n n (l ++ [x])) = Nat.min n (length l + 1)
  /\ last (last_n n (l ++ [x])) = Some x.
Proof.
  intros Hn. unfold last_n. rewrite length_drop, length_app. cbn [length].
  split; [lia |].
  rewrite drop_app_le by lia. apply last_snoc.
Qed.

(** X28: for a character the memory knows, [update_npc_memory] reads the
    memory and the clock once and writes the memory back with that
    character's [memories] replaced by the last ten of the old ones
    followed by the new entry; the entry holds the action, the first 100
    characters of the dialogue, the emotion (['neutral'] when the response
    has none) and the time.  So a character never has more than ten
    memories and the newest is always kept. *)
Theorem npc_memory_is_bounded (npc_name text : string)
    (player_action : pyval)
    (memory npcs npc reply : list (string * pyval)) (old : list pyval)
    (tr : list effect) :
  read_json tr = Returns (PDict memory) ->
  dict_get "npcs" memory = Some (PDict npcs) ->
  dict_get npc_name npcs = Some (PDict npc) ->
  method_get (PDict npc) "memories" (PList []) = Returns (PList old) ->
  method_get (PDict reply) "dialogue" (PStr "") = Returns (PStr text) ->
  let entry :=
    PDict [("action", player_action);
           ("response", PStr (string_take 100 text));
           ("emotion",
            match dict_get "emotion" reply with
            | Some emotion => emotion
            | None => PStr "neutral"
            end);
           ("timestamp", PStr (datetime_now (tr ++ [FxReadJson])%list))] in
  let kept := last_n 10 (old ++ [entry]) in
  let written :=
    PDict (dict_set "npcs"
             (PDict (dict_set npc_name
                       (PDict (dict_set "memories" (PList kept) npc)) npcs))
             memory) in
  update_npc_memory (PStr npc_name) player_action (PDict reply) tr
  = lift_outcome (write_json (tr ++ [FxReadJson; FxNow])%list written)
      (tr ++ [FxReadJson; FxNow; FxWriteJson written])%list
  /\ length kept = Nat.min 10 (length old + 1)
  /\ last kept = Some entry
  /\ (String.length (string_take 100 text) <= 100)%nat.
Proof.
  intros Hread Hnpcs Hnpc Hold Htext entry kept written.
  split; [| split; [| split]];
    [| apply last_n_snoc; lia | apply last_n_snoc; lia
     | apply string_take_length].
  cbn [method_get] in Hold, Htext.
  injection Hold as Hold. injection Htext as Htext.
  unfold update_npc_memory.
  unfold bind at 1. unfold act at 1. rewrite Hread. cbn [lift_outcome ret].
  tool_run. unfold dict_has. rewrite Hnpc. tool_run.
  rewrite Htext. tool_run.
  assert (Hcut : forall S : Type,
    (if truthy (PStr text) then ret (PStr (string_take 100 text))
     else ret (PStr text))
    = (ret (PStr (string_take 100 text)) : M S pyval))
    by (intros S; by destruct text).
  rewrite Hcut. tool_run.
  unfold bind at 1. unfold act at 1. cbn [lift_outcome ret].
  rewrite Hold. tool_run. fold entry kept written.
  unfold act. by rewrite <- !app_assoc.
Qed.
Lemma main_quests_count (history : list pyval) :
  Forall (fun q => exists d, q = PDict d) history ->
  main_quests history = Returns (length (List.filter is_main_quest history)).
Proof.
  induction 1 as [|q history [d ->] _ IH]; [done |].
  cbn [main_quests method_get List.filter]. rewrite IH.
  change (is_main_quest (PDict d)) with (eq_str (py_get "type" d) "main").
  unfold py_get. by destruct (eq_str _ "main").
Qed.

(** X29: on a history of dictionaries, [generate_main_quest] returns the
    quest of chapter [completed + 1], [completed] being the number of
    entries of type ['main']: the id, the level requirement and the
    consequence count on with the chapter, while title, narrative and
    objectives are those of the arc entry [min completed 4], so from the
    fifth chapter on every main quest is ["The Final Battle"]. *)
Theorem main_story_has_five_chapters (context : pyval) (history : list pyval) :
  Forall (fun q => exists d, q = PDict d) history ->
  let completed := length (List.filter is_main_quest history) in
  let chapter := Z.of_nat completed + 1 in
  exists quest arc,
    generate_main_quest context (PList history) = Returns (PDict quest)
    /\ dict_get "chapter" quest = Some (PInt chapter)
    /\ dict_get "id" quest
       = Some (PStr ("main_quest_chapter_" ++ str_of_Z chapter))
    /\ dict_get "level_requirement" quest = Some (PInt (chapter * 10))
    /\ dict_get "consequences" quest
       = Some (PDict [("success",
                       PStr ("Chapter " ++ str_of_Z (chapter + 1)
                             ++ " unlocked"));
                      ("failure", PStr "The darkness grows stronger")])
    /\ nth_error main_quest_arc (Nat.min completed 4) = Some (PDict arc)
    /\ dict_get "title" quest = dict_get "title" arc
    /\ dict_get "narrative" quest = dict_get "narrative" arc
    /\ dict_get "objectives" quest = dict_get "objectives" arc
    /\ ((4 <= completed)%nat ->
        dict_get "title" quest = Some (PStr "The Final Battle")).
Proof.
  intros Hdicts completed chapter.
  unfold generate_main_quest. cbn [iterate].
  rewrite (main_quests_count _ Hdicts). fold completed. fold chapter.
  replace (Z.to_nat (Z.min (chapter - 1)
                       (Z.of_nat (length main_quest_arc) - 1)))
    with (Nat.min completed 4)
    by (subst chapter; cbn [length main_quest_arc]; lia).
  assert (Hcases : Nat.min completed 4 = 0%nat \/ Nat.min completed 4 = 1%nat
                   \/ Nat.min completed 4 = 2%nat
                   \/ Nat.min completed 4 = 3%nat
                   \/ Nat.min completed 4 = 4%nat) by lia.
  destruct Hcases as [E | [E | [E | [E | E]]]]; rewrite E;
    (eexists _, _; split; [reflexivity |];
     repeat (split; [reflexivity |]); intros Hlast; first [lia | reflexivity]).
Qed.

(** X30: with a reliable storage, [save_quest] stamps the quest with the
    time and the status ['active'], appends it to [active_quests] and
    writes the memory back with nothing else changed; [quest_history] in
    particular is as it was, so [get_quest_history] returns after the
    call what it returned before it. *)
Theorem quest_history_is_never_written (quest : list (string * pyval))
    (memory : list (string * pyval)) (active : list pyval)
    (tr : list effect) :
  reliable ->
  read_json tr = Returns (PDict memory) ->
  method_get (PDict memory) "active_quests" (PList [])
  = Returns (PList active) ->
  let saved :=
    PDict (dict_set "status" (PStr "active")
             (dict_set "received_at"
                (PStr (datetime_now (tr ++ [FxReadJson])%list)) quest)) in
  let written :=
    PDict (dict_set "active_quests" (PList (active ++ [saved])) memory) in
  let history :=
    match dict_get "quest_history" memory with
    | Some history => history
    | None => PList []
    end in
  save_quest (PDict quest) tr
  = (Ret saved, (tr ++ [FxReadJson; FxNow; FxWriteJson written])%list)
  /\ get_quest_history tr = (Ret history, (tr ++ [FxReadJson])%list)
  /\ (save_quest (PDict quest) ;;; get_quest_history) tr
     = (Ret history,
        (tr ++ [FxReadJson; FxNow; FxWriteJson written; FxReadJson])%list).
Proof.
  intros [Hwrites Hreads] Hread Hactive saved written history.
  cbn [method_get] in Hactive. injection Hactive as Hactive.
  assert (Hsave : save_quest (PDict quest) tr
    = (Ret saved, (tr ++ [FxReadJson; FxNow; FxWriteJson written])%list)).
  { unfold save_quest.
    unfold bind at 1. unfold act at 1. rewrite Hread. cbn [lift_outcome ret].
    tool_run. rewrite Hactive. tool_run.
    unfold bind at 1. unfold act at 1. cbn [lift_outcome ret].
    tool_run. fold saved written.
    unfold bind at 1. unfold act at 1. rewrite Hwrites.
    cbn [lift_outcome ret]. by rewrite <- !app_assoc. }
  split; [exact Hsave |]. split.
  - unfold get_quest_history. unfold bind at 1. unfold act at 1.
    rewrite Hread. cbn [lift_outcome ret]. by tool_run.
  - unfold bind at 1. rewrite Hsave. unfold get_quest_history.
    unfold bind at 1. unfold act at 1.
    change [FxReadJson; FxNow; FxWriteJson written]
      with ([FxReadJson; FxNow] ++ [FxWriteJson written])%list.
    rewrite app_assoc, Hreads. cbn [lift_outcome ret].
    subst written. tool_run. cbn [ret]. by rewrite <- !app_assoc.
Qed.
End ToolFacts.

Lemma combat_stats_accounting_witness :
  exists stats',
    let written := PDict (dict_set "combat_stats" (PDict stats') []) in
    @update_combat_stats integers_only (quiet (PDict []))
      (PStr "critical") (PInt 7) []
    = lift_outcome
        (@write_json (quiet (PDict [])) ([] ++ [FxReadJson])%list written)
        ([] ++ [FxReadJson; FxWriteJson written])%list
    /\ dict_keys stats' = dict_keys new_combat_stats
    /\ forall key,
         dict_get key stats'
         = match dict_get key new_combat_stats with
           | Some (PInt n) => Some (PInt (n + stat_gain "critical" 7 key))
           | other => other
           end.
Proof.
  refine (@combat_stats_accounting integers_only (quiet (PDict []))
            "critical" 7 [] new_combat_stats [] _ _ _);
    [reflexivity | reflexivity | repeat constructor; by eexists].
Defined.

Lemma quiet_reliable (initial : pyval) : @reliable (quiet initial).
Proof.
  split; [done |]. intros tr data.
  unfold read_json, quiet, last_written. by rewrite fold_left_app.
Qed.

(** Two hours pass on the last evening of winter: it is one o'clock on
    day 30. *)
Lemma clock_and_calendar_witness :
  exists world' draws,
    snd (@advance_time python integers_only (quiet (PDict late_winter))
           (PDict [("hours", PInt 2)]) [])
    = ([] ++ [FxReadJson] ++ draws
       ++ [FxWriteJson
             (PDict (dict_set "world_state" (PDict world') late_winter))])%list
    /\ dict_get "time_of_day" world' = Some (PInt 1)
    /\ dict_get "day_count" world' = Some (PInt 30).
Proof.
  destruct (@clock_and_calendar python integers_only
              (quiet (PDict late_winter)) (PDict [("hours", PInt 2)])
              2 23 29 "winter" late_winter
              [("time_of_day", PInt 23); ("day_count", PInt 29);
               ("season", PStr "winter")] []
              eq_refl eq_refl eq_refl eq_refl eq_refl eq_refl
              ltac:(pick_key))
    as (world' & draws & events & season' & Htrace & _ & Hclock & Hday & _).
  exists world', draws. split; [exact Htrace |]. split; [exact Hclock |].
  exact Hday.
Defined.

(** The weather is set to rain before anything else, then an hour
    passes. *)
Lemma weather_before_world_witness :
  exists world' draws,
    (@change_weather python integers_only (quiet (PDict []))
       (PDict [("weather", PStr "rain")]) ;;;
     @advance_time python integers_only (quiet (PDict [])) (PDict [])) []
    = (Raise (Exception "'day_count'"),
       ([] ++ [FxReadJson;
               FxWriteJson
                 (PDict [("world_state", PDict [("weather", PStr "rain")])]);
               FxReadJson] ++ draws
        ++ [FxWriteJson (PDict [("world_state", PDict world')])])%list)
    /\ dict_get "time_of_day" world' = Some (PInt 13).
Proof.
  destruct (@weather_before_world python integers_only (quiet (PDict []))
              (PDict [("weather", PStr "rain")]) (PDict []) "rain" 1 [] []
              (quiet_reliable (PDict [])) eq_refl ltac:(discriminate)
              eq_refl eq_refl eq_refl)
    as (world' & draws & Hrun & _ & _ & Hclock & _).
  exists world', draws. split; [exact Hrun | exact Hclock].
Defined.

(** Aldric is greeted once more: he keeps ten memories, the last one of
    this greeting. *)
Lemma npc_memory_is_bounded_witness :
  let entry :=
    PDict [("action", PStr "greet");
           ("response", PStr (string_take 100 "Welcome back."));
           ("emotion", PStr "happy");
           ("timestamp",
            PStr (@datetime_now (quiet (PDict tavern))
                    ([] ++ [FxReadJson])%list))] in
  let kept :=
    last_n 10 (replicate 10 (PDict [("action", PStr "greet")]) ++ [entry]) in
  let written :=
    PDict (dict_set "npcs"
             (PDict (dict_set "Aldric"
                       (PDict (dict_set "memories" (PList kept) aldric))
                       [("Aldric", PDict aldric)]))
             tavern) in
  @update_npc_memory integers_only (quiet (PDict tavern))
    (PStr "Aldric") (PStr "greet")
    (PDict [("dialogue", PStr "Welcome back."); ("emotion", PStr "happy")]) []
  = lift_outcome
      (@write_json (quiet (PDict tavern)) ([] ++ [FxReadJson; FxNow])%list
         written)
      ([] ++ [FxReadJson; FxNow; FxWriteJson written])%list
  /\ length kept = Nat.min 10 (10 + 1)
  /\ last kept = Some entry
  /\ (String.length (string_take 100 "Welcome back.") <= 100)%nat.
Proof.
  exact (@npc_memory_is_bounded integers_only (quiet (PDict tavern))
           "Aldric" "Welcome back." (PStr "greet") tavern
           [("Aldric", PDict aldric)] aldric
           [("dialogue", PStr "Welcome back."); ("emotion", PStr "happy")]
           (replicate 10 (PDict [("action", PStr "greet")])) []
           eq_refl eq_refl eq_refl eq_refl eq_refl).
Defined.

(** After six main quests the seventh chapter is the final battle
    again. *)
Lemma main_story_has_five_chapters_witness :
  exists quest,
    generate_main_quest PNone (PList veteran) = Returns (PDict quest)
    /\ dict_get "chapter" quest = Some (PInt 7)
    /\ dict_get "title" quest = Some (PStr "The Final Battle").
Proof.
  destruct (main_story_has_five_chapters PNone veteran)
    as (quest & arc & Hquest & Hchapter & _ & _ & _ & _ & _ & _ & _ & Hlast).
  { repeat constructor; by eexists. }
  exists quest. split; [exact Hquest |]. split; [exact Hchapter |].
  apply Hlast. vm_compute. lia.
Defined.

(** A quest is saved for a player with one main quest in the history:
    the history reads the same afterwards. *)
Lemma quest_history_is_never_written_witness :
  (@save_quest integers_only (quiet (PDict novice))
     (PDict [("id", PStr "main_quest_chapter_2")]) ;;;
   @get_quest_history (quiet (PDict novice))) []
  = (Ret (PList [PDict [("type", PStr "main")]]),
     ([] ++ [FxReadJson; FxNow;
             FxWriteJson
               (PDict
                  (dict_set "active_quests"
                     (PList
                        ([] ++ [PDict
                                  (dict_set "status" (PStr "active")
                                     (dict_set "received_at"
                                        (PStr
                                           (@datetime_now
                                              (quiet (PDict novice))
                                              ([] ++ [FxReadJson])%list))
                                        [("id",
                                          PStr "main_quest_chapter_2")]))]))
                     novice));
             FxReadJson])%list).
Proof.
  exact (proj2 (proj2 (@quest_history_is_never_written integers_only
                         (quiet (PDict novice))
                         [("id", PStr "main_quest_chapter_2")] novice [] []
                         (quiet_reliable (PDict novice)) eq_refl eq_refl))).
Defined.
